(** * Zomato partner login: OTP request automation

    A shallow embedding of [api/send-otp.js]: the class [ZomotoStandalone]
    (timeout racing, selector waiting with retries, stealth configuration,
    the linear [sendOTP] procedure, the in-memory session cache with its
    deferred cleanup) and the serverless [handler].

    The browser, the page and the site are the environment.  Every call
    that the script awaits is answered by a [promise] chosen by the
    environment: it settles after some number of milliseconds with a value
    or with an error, or it never settles.  The script itself is written in
    a small state-and-exception monad [Async] over a [world] holding the
    virtual clock, the session cache, the pending cleanup timers, the
    browsers that were launched and the trace of calls issued so far.

    Conventions of the model:
    - durations and instants are natural numbers of milliseconds; the
      timeouts handed to selector waits are rationals, since
      [timeout / (retries + 1)] need not be whole;
    - strings are ASCII: [toLowerCase] lowers the letters A to Z;
    - a thrown value, and the reason of a rejected promise, is an [Error]
      with a string [message], as are the errors the script creates and
      those of Puppeteer, [JSON.parse] and the runtime; a promise rejected
      with a value of another kind is outside the model;
    - timers are those of Node: [setTimeout] takes a delay below 1 or
      above 2147483647 milliseconds as 1 millisecond;
    - console logging is left out;
    - [launchBrowser] (launch options, then [puppeteer.launch]) is one
      promise of the environment;
    - the timer of [_withTimeout] has no effect once the race is decided
      and is not kept among the pending timers;
    - a call of [sendOTP] is followed on its own; callbacks that fall due
      run between calls, when [elapse] lets time pass. *)

From Stdlib Require Import NArith ZArith QArith List Ascii String.
From stdpp Require Import base option list gmap strings pretty.

Local Open Scope N_scope.

(** ** Values of the host language *)

(** The JSON-like values that reach the script as arguments. *)
Inductive jsval : Type :=
  | JUndefined
  | JNull
  | JBool (b : bool)
  | JNum (n : Z)
  | JStr (s : string).

Global Instance jsval_eq_dec : EqDecision jsval.
Proof. solve_decision. Defined.

(** [!v]: the falsy values. *)
Definition falsy (v : jsval) : bool :=
  match v with
  | JUndefined | JNull => true
  | JBool b => negb b
  | JNum n => (n =? 0)%Z
  | JStr s => if decide (s = EmptyString) then true else false
  end.

(** [a === b] against a string literal. *)
Definition strict_eq_str (v : jsval) (lit : string) : bool :=
  match v with
  | JStr s => if decide (s = lit) then true else false
  | _ => false
  end.

(** A parameter default [x = d] applies exactly to [undefined]. *)
Definition default_param (v d : jsval) : jsval :=
  match v with JUndefined => d | _ => v end.

(** An [Error] object; only its [message] is ever inspected. *)
Record error : Type := Error { message : string }.

Global Instance error_eq_dec : EqDecision error.
Proof. solve_decision. Defined.

(** Reading a property of [null] or [undefined]. *)
Definition TypeError_null (prop : string) : error :=
  Error ("Cannot read properties of null (reading '" +:+ prop +:+ "')").

(** ** Strings: [toLowerCase] and [includes] (ASCII) *)

Definition lower_ascii (c : ascii) : ascii :=
  let n := N_of_ascii c in
  if (65 <=? n) && (n <=? 90) then ascii_of_N (n + 32) else c.

Fixpoint toLowerCase (s : string) : string :=
  match s with
  | EmptyString => EmptyString
  | String c s' => String (lower_ascii c) (toLowerCase s')
  end.

Fixpoint startsWith (s sub : string) : bool :=
  match sub, s with
  | EmptyString, _ => true
  | String _ _, EmptyString => false
  | String b sub', String a s' =>
      if decide (a = b) then startsWith s' sub' else false
  end.

Fixpoint includes (s sub : string) : bool :=
  startsWith s sub ||
  match s with
  | EmptyString => false
  | String _ s' => includes s' sub
  end.

(** ** Promises *)

Inductive settlement (A : Type) : Type :=
  | Fulfilled (v : A)
  | Rejected (e : error).
Arguments Fulfilled {A} v.
Arguments Rejected {A} e.

(** A promise as the script sees it from the moment it obtains it: it
    settles [t] milliseconds later, or never. *)
Inductive promise (A : Type) : Type :=
  | SettlesAfter (t : N) (s : settlement A)
  | NeverSettles.
Arguments SettlesAfter {A} t s.
Arguments NeverSettles {A}.

(** [Promise.race] of two promises: the one that settles first; when both
    settle in the same millisecond the one listed first is taken, as
    [Promise.race] subscribes to its arguments in order. *)
Definition race2 {A} (p q : promise A) : promise A :=
  match p, q with
  | NeverSettles, _ => q
  | _, NeverSettles => p
  | SettlesAfter t _, SettlesAfter u _ => if t <=? u then p else q
  end.

Definition Promise_race {A} (ps : list (promise A)) : promise A :=
  foldr race2 NeverSettles ps.

(** The delay after which [setTimeout(callback, ms)] runs its callback:
    Node sets a delay that is larger than 2147483647 or less than 1 to 1. *)
Definition setTimeout_delay (ms : N) : N :=
  if (ms <? 1) || (2147483647 <? ms) then 1 else ms.

(** [new Promise((_, reject) => setTimeout(() => reject(e), ms))] *)
Definition rejects_after {A} (ms : N) (e : error) : promise A :=
  SettlesAfter (setTimeout_delay ms) (Rejected e).

(** [_withTimeout(promise, timeoutMs, operationName)] *)
Definition _withTimeout {A} (p : promise A) (timeoutMs : N)
    (operationName : string) : promise A :=
  let timeoutPromise :=
    rejects_after timeoutMs
      (Error (operationName +:+ " timed out after " +:+ pretty timeoutMs +:+ "ms")) in
  Promise_race [p; timeoutPromise].

(** ** Handles, browsers and the world *)

Definition Browser := nat.
Definition Page := nat.
Definition Frame := nat.

(** An element handle remembers the selector that located it. *)
Record ElementHandle : Type := Element { found_by : string; node : nat }.

Record BoundingBox : Type :=
  Box { box_x : Q; box_y : Q; box_width : Q; box_height : Q }.

(** [pageOrFrame] *)
Inductive target : Type :=
  | OnPage (p : Page)
  | OnFrame (f : Frame).

(** What the environment has in store for a browser: when (if ever) its
    connection drops by itself, counted from the launch, and how a call of
    [browser.close()] on it will settle. *)
Record BrowserFate : Type :=
  Fate { drops_after : option N; close_outcome : promise unit }.

Record BrowserState : Type :=
  BState { fate : BrowserFate; launched_at : N; closed : bool }.

(** [{ browser, page, frame }] *)
Record sessionData : Type :=
  Session { browser : Browser; page : Page; frame : Frame }.

Inductive stealth_script : Type :=
  | hide_webdriver
  | override_navigator.

(** The calls the script issues, in the order it issues them. *)
Inductive event : Type :=
  | Ev_launch
  | Ev_newPage (b : Browser)
  | Ev_evaluateOnNewDocument (p : Page) (s : stealth_script)
  | Ev_setViewport (p : Page) (width height deviceScaleFactor : N)
  | Ev_setExtraHTTPHeaders (p : Page) (headers : list (string * string))
  | Ev_setUserAgent (p : Page) (ua : string)
  | Ev_goto (p : Page) (url : string) (waitUntil : string) (timeout : N)
  | Ev_sleep (ms : N)
  | Ev_title (p : Page)
  | Ev_waitForSelector (on : target) (selector : string) (timeout : Q) (visible : bool)
  | Ev_query (on : target) (selector : string)
  | Ev_click (e : ElementHandle)
  | Ev_contentFrame (e : ElementHandle)
  | Ev_boundingBox (e : ElementHandle)
  | Ev_mouse_click (p : Page) (x y : Q)
  | Ev_type (e : ElementHandle) (text : jsval)
  | Ev_cache_set (sessionId : string) (d : sessionData)
  | Ev_setTimeout_cleanup (b : Browser) (sessionId : string) (ms : N)
  | Ev_isConnected (b : Browser) (connected : bool)
  | Ev_close (b : Browser)
  | Ev_cache_delete (sessionId : string).

(** A pending [setTimeout] of [sendOTP]: the instant it is due and the
    variables its callback closes over. *)
Record timer : Type :=
  Timer { due : N; timer_browser : Browser; timer_sessionId : string }.

Record world : Type := World {
  clock : N;
  sessionCache : gmap string sessionData;
  timers : list timer;
  browsers : list BrowserState;
  trace : list event
}.

Definition initial_world : world := World 0 ∅ [] [] [].

Definition set_clock (c : N) (w : world) : world :=
  World c (sessionCache w) (timers w) (browsers w) (trace w).
Definition set_sessionCache (m : gmap string sessionData) (w : world) : world :=
  World (clock w) m (timers w) (browsers w) (trace w).
Definition set_timers (ts : list timer) (w : world) : world :=
  World (clock w) (sessionCache w) ts (browsers w) (trace w).
Definition set_browsers (bs : list BrowserState) (w : world) : world :=
  World (clock w) (sessionCache w) (timers w) bs (trace w).
Definition log_event (e : event) (w : world) : world :=
  World (clock w) (sessionCache w) (timers w) (browsers w) (trace w ++ [e]).

(** The calls issued between two worlds. *)
Definition events_since (w w' : world) : list event :=
  drop (length (trace w)) (trace w').

(** [browser.isConnected()] *)
Definition isConnected (b : Browser) (w : world) : bool :=
  match browsers w !! b with
  | Some st =>
      negb (closed st) &&
      match drops_after (fate st) with
      | None => true
      | Some d => clock w <? launched_at st + d
      end
  | None => false
  end.

(** ** The monad of asynchronous computations *)

Inductive completion (A : Type) : Type :=
  | Returns (v : A)
  | Throws (e : error)
  | Hangs.
Arguments Returns {A} v.
Arguments Throws {A} e.
Arguments Hangs {A}.

Definition Async (A : Type) : Type := world -> completion A * world.

Definition ret {A} (v : A) : Async A := fun w => (Returns v, w).

Definition throw {A} (e : error) : Async A := fun w => (Throws e, w).

Definition bind {A B} (m : Async A) (k : A -> Async B) : Async B :=
  fun w =>
    match m w with
    | (Returns v, w') => k v w'
    | (Throws e, w') => (Throws e, w')
    | (Hangs, w') => (Hangs, w')
    end.

Notation "'let*' x ':=' m 'in' k" := (bind m (fun x => k))
  (at level 10, x name, m at level 100, k at level 200).
Notation "'do' m 'then' k" := (bind m (fun _ => k))
  (at level 10, m at level 100, k at level 200).

(** [try { body } catch (error) { handler }] *)
Definition try_catch {A} (body : Async A) (handler : error -> Async A) : Async A :=
  fun w =>
    match body w with
    | (Throws e, w') => handler e w'
    | r => r
    end.

(** The outcome of a [try] block whose [catch] falls through to the code
    after it. *)
Definition caught {A} (body : Async A) : Async (A + error) :=
  try_catch (let* v := body in ret (inl v)) (fun e => ret (inr e)).

Definition emit (e : event) : Async unit := fun w => (Returns tt, log_event e w).

Definition read {A} (f : world -> A) : Async A := fun w => (Returns (f w), w).

Definition update (f : world -> world) : Async unit := fun w => (Returns tt, f w).

(** A synchronous built-in that returns or throws. *)
Definition sync {A} (s : settlement A) : Async A :=
  match s with
  | Fulfilled v => ret v
  | Rejected e => throw e
  end.

(** [await p] suspends until [p] settles. *)
Definition await {A} (p : promise A) : Async A :=
  fun w =>
    match p with
    | SettlesAfter t (Fulfilled v) => (Returns v, set_clock (clock w + t) w)
    | SettlesAfter t (Rejected e) => (Throws e, set_clock (clock w + t) w)
    | NeverSettles => (Hangs, w)
    end.

(** Issue a call and await the promise it returns. *)
Definition call {A} (e : event) (p : promise A) : Async A :=
  do emit e then await p.

(** [await new Promise((resolve) => setTimeout(resolve, ms))] *)
Definition sleep (ms : N) : Async unit :=
  call (Ev_sleep ms) (SettlesAfter (setTimeout_delay ms) (Fulfilled tt)).

(** [promise.catch(() => fallback)] *)
Definition promise_catch {A} (p : promise A) (fallback : A) : promise A :=
  match p with
  | SettlesAfter t (Rejected _) => SettlesAfter t (Fulfilled fallback)
  | _ => p
  end.

(** ** Selector waiting with retries *)

(** The [options] argument; an absent key takes its default on
    destructuring. *)
Record WaitOptions : Type := Options {
  timeout : option N;
  retries : option nat;
  retryDelay : option N;
  visible : option bool
}.

Definition no_options : WaitOptions := Options None None None None.

(** [pageOrFrame.waitForSelector(selector, { timeout, visible })]; the
    environment's promise yields the node that was found. *)
Definition waitForSelector (reply : promise nat) (pageOrFrame : target)
    (selector : string) (timeout : Q) (visible : bool) : Async ElementHandle :=
  let* n := call (Ev_waitForSelector pageOrFrame selector timeout visible) reply in
  ret (Element selector n).

(** [attempt === 0 ? timeout : timeout / (retries + 1)], an exact
    quotient kept in lowest terms. *)
Definition attempt_timeout (timeout : N) (retries attempt : nat) : Q :=
  if Nat.eqb attempt 0 then inject_Z (Z.of_N timeout)
  else Qred (inject_Z (Z.of_N timeout) / inject_Z (Z.of_nat retries + 1)).

(** [retryDelay * Math.pow(2, attempt)] *)
Definition backoff_delay (retryDelay : N) (attempt : nat) : N :=
  retryDelay * 2 ^ N.of_nat attempt.

(** What [throw lastError] throws; [lastError] is still [undefined] only
    when the loop body never ran. *)
Definition thrown_value (lastError : option error) : error :=
  match lastError with
  | Some e => e
  | None => Error "undefined"
  end.

(** The [for (let attempt = 0; attempt <= retries; attempt++)] loop;
    [remaining] counts the iterations still allowed by the loop test. *)
Fixpoint retry_loop (reply : nat -> promise nat) (pageOrFrame : target)
    (selector : string) (timeout : N) (retries : nat) (retryDelay : N)
    (visible : bool) (remaining attempt : nat) (lastError : option error)
    : Async ElementHandle :=
  match remaining with
  | O => throw (thrown_value lastError)
  | S remaining' =>
      let* r := caught
        (waitForSelector (reply attempt) pageOrFrame selector
           (attempt_timeout timeout retries attempt) visible) in
      match r with
      | inl element => ret element
      | inr error =>
          let lastError := Some error in
          do (if Nat.ltb attempt retries
              then sleep (backoff_delay retryDelay attempt)
              else ret tt)
          then retry_loop reply pageOrFrame selector timeout retries retryDelay
                 visible remaining' (S attempt) lastError
      end
  end.

(** [_waitForSelectorWithRetry(pageOrFrame, selector, options = {})];
    [reply attempt] is the environment's answer to the wait issued in
    iteration [attempt]. *)
Definition _waitForSelectorWithRetry (reply : nat -> promise nat)
    (pageOrFrame : target) (selector : string) (options : WaitOptions)
    : Async ElementHandle :=
  let timeout := default 60000 (timeout options) in
  let retries := default 3%nat (retries options) in
  let retryDelay := default 1000 (retryDelay options) in
  let visible := default false (visible options) in
  retry_loop reply pageOrFrame selector timeout retries retryDelay visible
    (S retries) 0 None.

(** ** The environment of one [sendOTP] call *)

(** The answers of the browser and of the site to the calls of one run.
    Replies to calls on an element are indexed by the element; replies to
    selector waits by the target, the selector and the attempt number. *)
Record Env : Type := {
  launchBrowser_reply : promise BrowserFate;
  newPage_reply : promise Page;
  evaluateOnNewDocument_reply : stealth_script -> promise unit;
  setViewport_reply : promise unit;
  setExtraHTTPHeaders_reply : promise unit;
  setUserAgent_reply : promise unit;
  ZOMATO_PARTNERS_URL : option string;
  goto_reply : promise unit;
  page_url : string;
  title_reply : promise string;
  waitForSelector_reply : target -> string -> nat -> promise nat;
  query_reply : target -> string -> promise (option nat);
  click_reply : ElementHandle -> promise unit;
  contentFrame_reply : ElementHandle -> promise (option Frame);
  boundingBox_reply : ElementHandle -> promise (option BoundingBox);
  mouse_click_reply : promise unit;
  type_reply : ElementHandle -> promise unit;
  uuidv4 : string
}.

(** ** Page and frame operations *)

Section Operations.
Variable env : Env.

(** [pageOrFrame.waitForSelector(selector, { timeout })] issued once. *)
Definition waitForSelector_once (pageOrFrame : target) (selector : string)
    (timeout : N) (visible : bool) : Async ElementHandle :=
  waitForSelector (waitForSelector_reply env pageOrFrame selector 0%nat)
    pageOrFrame selector (inject_Z (Z.of_N timeout)) visible.

(** [pageOrFrame.$(selector)]: a handle, or [null]. *)
Definition query (pageOrFrame : target) (selector : string)
    : Async (option ElementHandle) :=
  let* n := call (Ev_query pageOrFrame selector)
              (query_reply env pageOrFrame selector) in
  ret (Element selector <$> n).

Definition click (e : ElementHandle) : Async unit :=
  call (Ev_click e) (click_reply env e).

Definition contentFrame (e : ElementHandle) : Async (option Frame) :=
  call (Ev_contentFrame e) (contentFrame_reply env e).

Definition getBoundingBox (e : ElementHandle) : Async (option BoundingBox) :=
  call (Ev_boundingBox e) (boundingBox_reply env e).

Definition type_text (e : ElementHandle) (text : jsval) : Async unit :=
  call (Ev_type e text) (type_reply env e).

(** [_makePageStealth(page)]: a failing step skips the remaining ones and
    is swallowed. *)
Definition _makePageStealth (page : Page) : Async unit :=
  try_catch
    (do call (Ev_evaluateOnNewDocument page hide_webdriver)
          (evaluateOnNewDocument_reply env hide_webdriver) then
     do call (Ev_evaluateOnNewDocument page override_navigator)
          (evaluateOnNewDocument_reply env override_navigator) then
     do call (Ev_setViewport page 1920 1080 1) (setViewport_reply env) then
     do call (Ev_setExtraHTTPHeaders page
                [("Accept-Language", "en-US,en;q=0.9");
                 ("Accept-Encoding", "gzip, deflate, br");
                 ("Accept", "text/html,application/xhtml+xml,application/xml;q=0.9,image/webp,image/apng,*/*;q=0.8");
                 ("Upgrade-Insecure-Requests", "1");
                 ("Connection", "keep-alive");
                 ("Cache-Control", "max-age=0")]%string)
          (setExtraHTTPHeaders_reply env) then
     ret tt)
    (fun error => ret tt).
End Operations.

(** ** Browsers and the session cache *)

(** A launched browser becomes a handle of the program. *)
Definition register_browser (f : BrowserFate) : Async Browser :=
  fun w =>
    (Returns (length (browsers w)),
     set_browsers (browsers w ++ [BState f (clock w) false]) w).

Definition mark_closed (b : Browser) (w : world) : world :=
  set_browsers
    (alter (fun st => BState (fate st) (launched_at st) true) b (browsers w)) w.

(** [browser.isConnected()], recorded with its answer. *)
Definition browser_isConnected (b : Browser) : Async bool :=
  let* connected := read (isConnected b) in
  do emit (Ev_isConnected b connected) then
  ret connected.

(** [browser.close()]: the call tears the connection down when it is going
    to succeed, and hands back the promise of its completion. *)
Definition browser_close (b : Browser) : Async (promise unit) :=
  do emit (Ev_close b) then
  let* st := read (fun w => browsers w !! b) in
  match st with
  | Some st =>
      let p := close_outcome (fate st) in
      do (match p with
          | SettlesAfter _ (Fulfilled _) => update (mark_closed b)
          | _ => ret tt
          end)
      then ret p
  | None => ret NeverSettles
  end.

(** [sessionCache.set(sessionId, sessionData)] *)
Definition sessionCache_set (sessionId : string) (d : sessionData) : Async unit :=
  do emit (Ev_cache_set sessionId d) then
  update (fun w => set_sessionCache (<[sessionId := d]> (sessionCache w)) w).

(** [sessionCache.delete(sessionId)] *)
Definition sessionCache_delete (sessionId : string) : Async unit :=
  do emit (Ev_cache_delete sessionId) then
  update (fun w => set_sessionCache (delete sessionId (sessionCache w)) w).

(** The callback handed to [setTimeout] by [sendOTP]. *)
Definition cleanup_callback (browser : Browser) (sessionId : string) : Async unit :=
  try_catch
    (let* connected := browser_isConnected browser in
     if connected then
       let* _closing := browser_close browser in
       sessionCache_delete sessionId
     else ret tt)
    (fun e => ret tt).

(** [setTimeout(() => { ... }, ms)] with the cleanup callback. *)
Definition setTimeout_cleanup (browser : Browser) (sessionId : string) (ms : N)
    : Async unit :=
  do emit (Ev_setTimeout_cleanup browser sessionId ms) then
  update (fun w =>
            set_timers
              (timers w ++ [Timer (clock w + setTimeout_delay ms) browser sessionId]) w).

(** ** The event loop between calls *)

(** Run one due callback, no earlier than its due time. *)
Definition fire (w : world) (t : timer) : world :=
  snd (cleanup_callback (timer_browser t) (timer_sessionId t)
         (set_clock (N.max (clock w) (due t)) w)).

(** Let [dt] milliseconds pass: the callbacks that fall due run in the
    order in which they were scheduled. *)
Definition elapse (dt : N) (w : world) : world :=
  let now := clock w + dt in
  let due_now := filter (fun t => due t <= now) (timers w) in
  let later := filter (fun t => ¬ due t <= now) (timers w) in
  set_clock now (foldl fire (set_timers later w) due_now).

(** ** [sendOTP] *)

Definition dquote : string := String (ascii_of_N 34) EmptyString.

Definition userAgent : string :=
  "Mozilla/5.0 (Windows NT 10.0; Win64; x64) AppleWebKit/537.36 (KHTML, like Gecko) Chrome/120.0.0.0 Safari/537.36".

Definition blocked_message : string :=
  "Zomato detected automated browser and blocked access. This may be due to bot detection. Please check browser stealth settings.".

Definition loginButtonXPath : string := "//button[.//span[text()='Login']]".
Definition loginButtonSelector : string := "xpath/" +:+ loginButtonXPath.
Definition iframeSelector : string :=
  "iframe[src*=" +:+ dquote +:+ "accounts.zomato.com" +:+ dquote +:+ "]".
Definition loginHeadingSelector : string := "xpath/ //h2[text()='Login']".
Definition continueWithEmailSelector : string :=
  "div[aria-label=" +:+ dquote +:+ "Continue with Email" +:+ dquote +:+ "]".
Definition emailInputXPath : string :=
  "//label[text()='Email']/preceding-sibling::section/input[@type='text']".
Definition emailInputSelector : string := "xpath/" +:+ emailInputXPath.
Definition phoneInputSelector : string := "input[placeholder='Phone']".
Definition sendOtpButtonXPath : string :=
  "//button[.//span[text()='Send One Time Password']]".
Definition sendOtpButtonSelector : string := "xpath/" +:+ sendOtpButtonXPath.

(** [pageTitle === 'Access Denied' ||
     pageTitle.toLowerCase().includes('access denied')] *)
Definition is_access_denied (pageTitle : string) : bool :=
  (if decide (pageTitle = "Access Denied") then true else false)
  || includes (toLowerCase pageTitle) "access denied".

(** [process.env.ZOMATO_PARTNERS_URL || 'https://partner.zomato.com'] *)
Definition zomatoPartnersUrl (env : Env) : string :=
  match ZOMATO_PARTNERS_URL env with
  | Some u => if decide (u = EmptyString) then "https://partner.zomato.com" else u
  | None => "https://partner.zomato.com"
  end.

(** [{ sessionId }] *)
Record SendOTPResult : Type := Result { sessionId : string }.

Section SendOTP.
Variable env : Env.
Variable identifier : jsval.

(** The [type === 'email'] branch. *)
Definition email_path (page : Page) (frame : Frame)
    (frameHandle continueWithEmailButton : ElementHandle) : Async unit :=
  let* boundingBox := getBoundingBox env continueWithEmailButton in
  do (match boundingBox with
      | Some boundingBox =>
          let* frameBox := getBoundingBox env frameHandle in
          match frameBox with
          | Some frameBox =>
              call (Ev_mouse_click page
                      (Qred (box_x frameBox + box_x boundingBox + box_width boundingBox / 2))
                      (Qred (box_y frameBox + box_y boundingBox + box_height boundingBox / 2)))
                (mouse_click_reply env)
          | None => throw (TypeError_null "x")
          end
      | None =>
          throw (Error ("Could not get bounding box for " +:+ dquote +:+
                        "Continue with Email" +:+ dquote +:+ " button."))
      end) then
  do sleep 1500 then
  let* _ := waitForSelector_once env (OnFrame frame) emailInputSelector 10000 false in
  let* emailInput := query env (OnFrame frame) emailInputSelector in
  do (match emailInput with
      | Some emailInput => type_text env emailInput identifier
      | None => throw (TypeError_null "type")
      end) then
  let* sendOtpButton :=
    waitForSelector_once env (OnFrame frame) sendOtpButtonSelector 30000 false in
  click env sendOtpButton.

(** The [else] branch. *)
Definition phone_path (frame : Frame) : Async unit :=
  let* _ := waitForSelector_once env (OnFrame frame) phoneInputSelector 10000 false in
  let* phoneInput := query env (OnFrame frame) phoneInputSelector in
  do (match phoneInput with
      | Some phoneInput => type_text env phoneInput identifier
      | None => throw (TypeError_null "type")
      end) then
  let* sendOtpButton :=
    waitForSelector_once env (OnFrame frame) sendOtpButtonSelector 30000 false in
  click env sendOtpButton.

(** The [try] block after [browser] has been assigned. *)
Definition sendOTP_try (type : jsval) (browser : Browser) : Async SendOTPResult :=
  let* page :=
    call (Ev_newPage browser) (_withTimeout (newPage_reply env) 10000 "Page creation") in
  do _makePageStealth env page then
  do call (Ev_setUserAgent page userAgent)
       (_withTimeout (setUserAgent_reply env) 5000 "User agent setup") then
  do call (Ev_goto page (zomatoPartnersUrl env +:+ "/login") "networkidle2" 60000)
       (_withTimeout (goto_reply env) 60000 "Page navigation") then
  do sleep 2000 then
  let pageUrl := page_url env in
  let* pageTitle := call (Ev_title page) (promise_catch (title_reply env) "Unknown") in
  do (if is_access_denied pageTitle
      then throw (Error blocked_message)
      else ret tt) then
  let* loginButton :=
    try_catch
      (_waitForSelectorWithRetry
         (waitForSelector_reply env (OnPage page) loginButtonSelector)
         (OnPage page) loginButtonSelector
         (Options (Some 60000) (Some 2%nat) (Some 2000) (Some true)))
      (fun error =>
         throw (Error ("Failed to find Login button after navigation. Page URL: "
                       +:+ pageUrl +:+ ", Page Title: " +:+ pageTitle
                       +:+ ". Original error: " +:+ message error))) in
  do click env loginButton then
  let* _ := waitForSelector_once env (OnPage page) iframeSelector 15000 false in
  let* frameHandle := query env (OnPage page) iframeSelector in
  let* frameHandle :=
    match frameHandle with
    | Some h => ret h
    | None => throw (TypeError_null "contentFrame")
    end in
  let* frame := contentFrame env frameHandle in
  let* frame :=
    match frame with
    | Some f => ret f
    | None => throw (Error "Could not find the login iframe.")
    end in
  let* _ := waitForSelector_once env (OnFrame frame) loginHeadingSelector 10000 false in
  let* continueWithEmailButton :=
    waitForSelector_once env (OnFrame frame) continueWithEmailSelector 15000 true in
  do (if strict_eq_str type "email"
      then email_path page frame frameHandle continueWithEmailButton
      else phone_path frame) then
  let sessionId := uuidv4 env in
  let sessionData := Session browser page frame in
  do sessionCache_set sessionId sessionData then
  do setTimeout_cleanup browser sessionId (5 * 60 * 1000) then
  ret (Result sessionId).

(** The [catch (error)] block; [browser] is still [undefined] when the
    launch itself failed. *)
Definition sendOTP_catch {A} (browser : option Browser) (error : error) : Async A :=
  do (match browser with
      | Some browser =>
          try_catch
            (let* connected := browser_isConnected browser in
             if connected then
               let* closing := browser_close browser in
               await closing
             else ret tt)
            (fun closeError => ret tt)
      | None => ret tt
      end) then
  throw error.

(** [sendOTP(identifier, countryCode, type = 'phone')] *)
Definition sendOTP (countryCode type : jsval) : Async SendOTPResult :=
  let type := default_param type (JStr "phone") in
  let* browser :=
    try_catch
      (let* fate := call Ev_launch
                      (_withTimeout (launchBrowser_reply env) 30000 "Browser launch") in
       register_browser fate)
      (sendOTP_catch None) in
  try_catch (sendOTP_try type browser) (sendOTP_catch (Some browser)).
End SendOTP.

(** ** The serverless [handler] *)

(** What [JSON.parse] yields: an object with its properties, or some other
    value. *)
Inductive parsed_json : Type :=
  | PObject (fields : gmap string jsval)
  | PValue (v : jsval).

(** A value handed to [JSON.stringify]. *)
#[warnings="-register-all"]
Inductive json : Type :=
  | J_bool (b : bool)
  | J_string (s : string)
  | J_object (fields : list (string * json)).

Inductive response_body : Type :=
  | Body_text (s : string)
  | JSON_stringify (j : json).

Record Response : Type :=
  Resp { statusCode : N; headers : list (string * string); body : response_body }.

(** [event]: only [httpMethod] and [body] (possibly absent) are read. *)
Record HandlerEvent : Type :=
  HEvent { httpMethod : string; event_body : option string }.

Definition cors_headers : list (string * string) :=
  [("Access-Control-Allow-Origin", "*");
   ("Access-Control-Allow-Methods", "POST, OPTIONS");
   ("Access-Control-Allow-Headers", "Content-Type")]%string.

(** [a || b] on strings. *)
Definition or_else (a b : string) : string :=
  if decide (a = EmptyString) then b else a.

(** The property [key] of an object, [undefined] when absent. *)
Definition property (fields : gmap string jsval) (key : string) : jsval :=
  default JUndefined (fields !! key).

(** [const { identifier, countryCode, type = 'phone' } = body] *)
Definition destructure_body (body : parsed_json) : Async (jsval * jsval * jsval) :=
  match body with
  | PObject fields =>
      ret (property fields "identifier", property fields "countryCode",
           default_param (property fields "type") (JStr "phone"))
  | PValue JNull =>
      throw (Error "Cannot destructure property 'identifier' of 'body' as it is null.")
  | PValue JUndefined =>
      throw (Error "Cannot destructure property 'identifier' of 'body' as it is undefined.")
  | PValue _ => ret (JUndefined, JUndefined, JStr "phone")
  end.

Definition error_response (statusCode : N) (msg : string) : Response :=
  Resp statusCode cors_headers
    (JSON_stringify (J_object [("success", J_bool false); ("error", J_string msg)]%string)).

Section Handler.
(** [JSON.parse], a built-in of the host. *)
Variable JSON_parse : string -> settlement parsed_json.
Variable env : Env.

(** [exports.handler = async (event, context) => ...]; what the [catch]
    block receives is an [Error], whose [message] is a string (a value
    thrown without one is outside the model). *)
Definition handler (event : HandlerEvent) : Async Response :=
  if decide (httpMethod event = "OPTIONS") then
    ret (Resp 200 cors_headers (Body_text EmptyString))
  else if decide (httpMethod event ≠ "POST") then
    ret (error_response 405 "Method not allowed. Use POST.")
  else
    try_catch
      (let* body := sync (JSON_parse (or_else (default EmptyString (event_body event)) "{}")) in
       let* fields := destructure_body body in
       let '(identifier, countryCode, type) := fields in
       if falsy identifier then
         ret (error_response 400 "identifier is required")
       else
         let* data := sendOTP env identifier countryCode type in
         ret (Resp 200 cors_headers
                (JSON_stringify
                   (J_object [("success", J_bool true);
                              ("message", J_string "OTP sent successfully");
                              ("data", J_object [("sessionId", J_string (sessionId data))])]%string))))
      (fun error =>
         let statusCode :=
           if includes (message error) "detected automated browser" then 403 else 500 in
         ret (error_response statusCode (or_else (message error) "Failed to send OTP"))).
End Handler.

(** ** Launch options *)

(** [{ width, height }] *)
Record Viewport : Type := VP { vp_width : N; vp_height : N }.

(** The argument of [puppeteer.launch]. *)
Record LaunchOptions : Type := LOptions {
  args : list string;
  headless : jsval;
  ignoreHTTPSErrors : bool;
  defaultViewport : Viewport;
  executablePath : option string
}.

(** The [@sparticuz/chromium] module as far as it is used: the promise
    that [executablePath()] returns (a path, or nothing), and the
    properties [defaultViewport] and [headless], each possibly undefined. *)
Record Chromium : Type := {
  chromium_executablePath : promise (option string);
  chromium_defaultViewport : option Viewport;
  chromium_headless : jsval
}.

(** The variables of [process.env] that are consulted. *)
Record ProcessEnv : Type := {
  LAMBDA_TASK_ROOT : option string;
  AWS_EXECUTION_ENV : option string;
  NETLIFY : option string
}.

(** [!!v] for a string that may be absent. *)
Definition truthy_string (v : option string) : bool :=
  match v with
  | Some s => if decide (s = EmptyString) then false else true
  | None => false
  end.

(** [p.then(f)] for a synchronous [f]. *)
Definition promise_map {A B} (f : A -> B) (p : promise A) : promise B :=
  match p with
  | SettlesAfter t (Fulfilled v) => SettlesAfter t (Fulfilled (f v))
  | SettlesAfter t (Rejected e) => SettlesAfter t (Rejected e)
  | NeverSettles => NeverSettles
  end.

(** [const v = await p; return await k(v)]: the promise of an [async]
    function that awaits [p] and then what [k] returns. *)
Definition promise_then {A B} (p : promise A) (k : A -> promise B) : promise B :=
  match p with
  | SettlesAfter t (Fulfilled v) =>
      match k v with
      | SettlesAfter u s => SettlesAfter (t + u) s
      | NeverSettles => NeverSettles
      end
  | SettlesAfter t (Rejected e) => SettlesAfter t (Rejected e)
  | NeverSettles => NeverSettles
  end.

Definition baseArgs : list string :=
  ["--disable-dev-shm-usage";
   "--disable-blink-features=AutomationControlled";
   "--no-sandbox";
   "--disable-setuid-sandbox";
   "--disable-gpu";
   "--disable-software-rasterizer";
   "--window-size=1920,1080";
   "--start-maximized";
   "--lang=en-US,en"]%string.

(** [{ ...baseOptions, defaultViewport: { width: 1920, height: 1080 } }] *)
Definition default_launch_options : LaunchOptions :=
  LOptions baseArgs (JBool true) true (VP 1920 1080) None.

(** The options returned inside the [try] block when [executablePath] is
    truthy. *)
Definition lambda_launch_options (chromium : Chromium) (path : string)
    : LaunchOptions :=
  LOptions baseArgs
    (match chromium_headless chromium with
     | JUndefined => JBool true
     | h => h
     end)
    true
    (default (VP 1920 1080) (chromium_defaultViewport chromium))
    (Some path).

(** [_getBrowserLaunchOptions()]: with [chromium] the module loaded at
    start-up, [None] when loading it failed. *)
Definition _getBrowserLaunchOptions (penv : ProcessEnv) (chromium : option Chromium)
    : promise LaunchOptions :=
  let isLambda :=
    truthy_string (LAMBDA_TASK_ROOT penv) || truthy_string (AWS_EXECUTION_ENV penv)
    || truthy_string (NETLIFY penv) in
  match chromium with
  | Some chromium =>
      if isLambda then
        promise_catch
          (promise_map
             (fun executablePath =>
                if truthy_string executablePath
                then lambda_launch_options chromium (default EmptyString executablePath)
                else default_launch_options)
             (chromium_executablePath chromium))
          default_launch_options
      else SettlesAfter 0 (Fulfilled default_launch_options)
  | None => SettlesAfter 0 (Fulfilled default_launch_options)
  end.

(** [launchBrowser()]: the options, then [puppeteer.launch(launchOptions)],
    answered by the environment. *)
Definition launchBrowser (penv : ProcessEnv) (chromium : option Chromium)
    (puppeteer_launch : LaunchOptions -> promise BrowserFate) : promise BrowserFate :=
  promise_then (_getBrowserLaunchOptions penv chromium) puppeteer_launch.

(** * Observations used in the statements *)

(** [p] settles no later than [ms] milliseconds after it was obtained. *)
Definition settles_within {A} (p : promise A) (ms : N) : bool :=
  match p with
  | SettlesAfter t _ => t <=? ms
  | NeverSettles => false
  end.

Definition fulfilment {A} (p : promise A) : option A :=
  match p with
  | SettlesAfter _ (Fulfilled v) => Some v
  | _ => None
  end.

Definition rejection {A} (p : promise A) : option error :=
  match p with
  | SettlesAfter _ (Rejected e) => Some e
  | _ => None
  end.

(** The world after a stretch of [dt] milliseconds in which the calls [evs]
    were issued and nothing else changed. *)
Definition quietly (dt : N) (evs : list event) (w : world) : world :=
  World (clock w + dt) (sessionCache w) (timers w) (browsers w) (trace w ++ evs).

(** The world once a call issued in [w] has settled after [t] ms. *)
Abbreviation after_call e t w := (quietly t [e] w).

(** The timeouts of the selector waits among some calls, in order. *)
Definition wait_timeouts (evs : list event) : list Q :=
  omap (fun e => match e with
                 | Ev_waitForSelector _ _ t _ => Some t
                 | _ => None
                 end) evs.

Section RetryEvents.
Variable pageOrFrame : target.
Variable selector : string.
Variables (timeout : N) (retries : nat) (retryDelay : N) (visible : bool).

Definition wait_event (attempt : nat) : event :=
  Ev_waitForSelector pageOrFrame selector
    (attempt_timeout timeout retries attempt) visible.

Definition sleep_event (attempt : nat) : event :=
  Ev_sleep (backoff_delay retryDelay attempt).

(** The calls issued by [k] consecutive failing iterations. *)
Fixpoint failed_events (k attempt : nat) : list event :=
  match k with
  | O => []
  | S k' =>
      wait_event attempt ::
      (if Nat.ltb attempt retries then [sleep_event attempt] else [])
      ++ failed_events k' (S attempt)
  end.
End RetryEvents.

(** [Q] holds of the completion and the final world of [m] run in [w]. *)
Definition wp {A} (m : Async A) (w : world) (Q : completion A -> world -> Prop) : Prop :=
  Q (m w).1 (m w).2.

(** ** The steps of the OTP request *)

Inductive login_path : Type := ByEmail | ByPhone.

Inductive step : Type :=
  | Navigate
  | DetectBlockPage
  | ClickLogin
  | SwitchToIframe
  | ChoosePath (p : login_path)
  | SubmitOTPRequest
  | CacheSession.

Global Instance login_path_eq_dec : EqDecision login_path.
Proof. solve_decision. Defined.
Global Instance step_eq_dec : EqDecision step.
Proof. solve_decision. Defined.

(** The step that a call belongs to, for the calls that mark one. *)
Definition step_of (e : event) : option step :=
  match e with
  | Ev_goto _ _ _ _ => Some Navigate
  | Ev_title _ => Some DetectBlockPage
  | Ev_click el =>
      if decide (found_by el = loginButtonSelector) then Some ClickLogin
      else if decide (found_by el = sendOtpButtonSelector) then Some SubmitOTPRequest
      else None
  | Ev_contentFrame _ => Some SwitchToIframe
  | Ev_type el _ =>
      if decide (found_by el = emailInputSelector) then Some (ChoosePath ByEmail)
      else if decide (found_by el = phoneInputSelector) then Some (ChoosePath ByPhone)
      else None
  | Ev_cache_set _ _ => Some CacheSession
  | _ => None
  end.

Definition steps_of (evs : list event) : list step := omap step_of evs.

(** The path selected by the [type] argument. *)
Definition path_of (type : jsval) : login_path :=
  if strict_eq_str (default_param type (JStr "phone")) "email" then ByEmail else ByPhone.


(** ** Summaries of the helpers *)

Definition is_stealth_call (e : event) : Prop :=
  match e with
  | Ev_evaluateOnNewDocument _ _
  | Ev_setViewport _ _ _ _
  | Ev_setExtraHTTPHeaders _ _ => True
  | _ => False
  end.

(** What [_makePageStealth] does: it never throws, and only lets time pass
    while issuing configuration calls. *)
Definition stealth_run (w : world) (r : completion unit) (w' : world) : Prop :=
  (r = Returns tt \/ r = Hangs)
  /\ exists dt evs,
       w' = quietly dt evs w /\ steps_of evs = [] /\ Forall is_stealth_call evs.

(** What [_waitForSelectorWithRetry] does: it starts with a wait for the
    selector with the full timeout, goes on with calls that belong to no
    step, and an element it returns was located by the selector. *)
Definition retry_run (pageOrFrame : target) (selector : string)
    (options : WaitOptions) (w : world) (r : completion ElementHandle)
    (w' : world) : Prop :=
  (exists dt evs,
     w' = quietly dt
            (Ev_waitForSelector pageOrFrame selector
               (inject_Z (Z.of_N (default 60000 (timeout options))))
               (default false (visible options)) :: evs) w
     /\ steps_of evs = [])
  /\ match r with
     | Returns el => exists n, el = Element selector n
     | _ => True
     end.

(** What the [catch] block of [sendOTP] does once a browser exists. *)
Definition catch_run (b : Browser) (e : error) (w : world)
    (r : completion SendOTPResult) (w' : world) : Prop :=
  (r = Throws e \/ r = Hangs)
  /\ sessionCache w' = sessionCache w
  /\ timers w' = timers w
  /\ length (browsers w') = length (browsers w)
  /\ clock w <= clock w'
  /\ (r = Hangs ->
      exists st, browsers w !! b = Some st
                 /\ close_outcome (fate st) = NeverSettles)
  /\ exists evs,
       trace w' = trace w ++ evs
       /\ (evs = [Ev_isConnected b false]
           \/ (evs = [Ev_isConnected b true; Ev_close b]
               /\ forall st, browsers w !! b = Some st ->
                    fulfilment (close_outcome (fate st)) = Some tt ->
                    isConnected b w' = false)).

(** [w'] has only added calls to the trace of [w]. *)
Definition extends (w w' : world) : Prop :=
  exists evs, trace w' = trace w ++ evs.



(** The search for the Login button has begun among the calls [evs]. *)
Definition login_search_started (evs : list event) : Prop :=
  exists on t v, Ev_waitForSelector on loginButtonSelector t v ∈ evs.

(** The run went no further than the block-page check. *)
Definition stopped_at_block_page (evs : list event) : Prop :=
  steps_of evs = [Navigate; DetectBlockPage] /\ ~ login_search_started evs.

(** The input field of a login path. *)
Definition input_selector (p : login_path) : string :=
  match p with
  | ByEmail => emailInputSelector
  | ByPhone => phoneInputSelector
  end.

(** The handles that a call of [sendOTP] started in [w] obtains from the
    environment: the browser it launches, the page it opens in it and the
    frame of the login iframe. *)
Definition handles_produced (env : Env) (w : world) : option sessionData :=
  match fulfilment (_withTimeout (newPage_reply env) 10000 "Page creation") with
  | Some pg =>
      match fulfilment (query_reply env (OnPage pg) iframeSelector) with
      | Some (Some n) =>
          match fulfilment (contentFrame_reply env (Element iframeSelector n)) with
          | Some (Some fr) => Some (Session (length (browsers w)) pg fr)
          | _ => None
          end
      | _ => None
      end
  | None => None
  end.

(** What a successful [sendOTP] leaves behind: the entry it stored, the
    timer it scheduled, the browser it launched, and the calls it ended
    with. *)
Definition successful_run (env : Env) (identifier type : jsval) (w w' : world)
    : Prop :=
  exists f d m k launched pre,
    let b := length (browsers w) in
    let sid := uuidv4 env in
    fulfilment (_withTimeout (launchBrowser_reply env) 30000 "Browser launch") = Some f
    /\ handles_produced env w = Some d
    /\ browser d = b
    /\ sessionCache w' = <[sid := d]> (sessionCache w)
    /\ timers w' = timers w ++ [Timer (clock w' + 300000) b sid]
    /\ browsers w' = browsers w ++ [BState f launched false]
    /\ clock w <= clock w'
    /\ events_since w w'
       = pre ++ [Ev_type (Element (input_selector (path_of type)) m) identifier;
                 Ev_waitForSelector (OnFrame (frame d)) sendOtpButtonSelector
                   (inject_Z 30000) false;
                 Ev_click (Element sendOtpButtonSelector k);
                 Ev_cache_set sid d;
                 Ev_setTimeout_cleanup b sid 300000].

(** ** The life of the process *)

(** What happens to the process: a request runs [sendOTP] against some
    environment, or time passes and due callbacks run. *)
Inductive action : Type :=
  | Call (env : Env) (identifier countryCode type : jsval)
  | Elapse (dt : N).

Definition perform (w : world) (a : action) : world :=
  match a with
  | Call env identifier countryCode type =>
      (sendOTP env identifier countryCode type w).2
  | Elapse dt => elapse dt w
  end.

(** The world after a history of actions, starting from an empty cache. *)
Definition run (history : list action) : world :=
  foldl perform initial_world history.

(** The identifiers generated for the calls of a history. *)
Definition generated_uuids (history : list action) : list string :=
  omap (fun a => match a with
                 | Call env _ _ _ => Some (uuidv4 env)
                 | Elapse _ => None
                 end) history.

(** ** Further observations *)

(** The sum of some durations. *)
Definition total (ts : list N) : N := foldr N.add 0 ts.

(** The four configuration calls of [_makePageStealth], in the order of
    the source, and the environment's answers to them. *)
Definition stealth_calls (page : Page) : list event :=
  [Ev_evaluateOnNewDocument page hide_webdriver;
   Ev_evaluateOnNewDocument page override_navigator;
   Ev_setViewport page 1920 1080 1;
   Ev_setExtraHTTPHeaders page
     [("Accept-Language", "en-US,en;q=0.9");
      ("Accept-Encoding", "gzip, deflate, br");
      ("Accept", "text/html,application/xhtml+xml,application/xml;q=0.9,image/webp,image/apng,*/*;q=0.8");
      ("Upgrade-Insecure-Requests", "1");
      ("Connection", "keep-alive");
      ("Cache-Control", "max-age=0")]%string].

Definition stealth_replies (env : Env) : list (promise unit) :=
  [evaluateOnNewDocument_reply env hide_webdriver;
   evaluateOnNewDocument_reply env override_navigator;
   setViewport_reply env;
   setExtraHTTPHeaders_reply env].

(** The body of a successful response. *)
Definition success_body (sid : string) : response_body :=
  JSON_stringify
    (J_object [("success", J_bool true);
               ("message", J_string "OTP sent successfully");
               ("data", J_object [("sessionId", J_string sid)])]%string).

(** Between [w] and [w'] time has not run backwards, and every browser of
    [w] is still there with the fate and the launch time it had; one that
    was closed stays closed. *)
Definition browsers_persist (w w' : world) : Prop :=
  clock w <= clock w'
  /\ forall i st,
       browsers w !! i = Some st ->
       exists st',
         browsers w' !! i = Some st'
         /\ fate st' = fate st
         /\ launched_at st' = launched_at st
         /\ (closed st = true -> closed st' = true).

(** The calls that [_waitForSelectorWithRetry] can make. *)
Definition is_wait_or_sleep (e : event) : Prop :=
  match e with
  | Ev_waitForSelector _ _ _ _ | Ev_sleep _ => True
  | _ => False
  end.

(** What [_waitForSelectorWithRetry] does, call by call: it only waits for
    the selector and sleeps, and an element it returns was located by the
    selector. *)
Definition retry_calls (selector : string) (w : world)
    (r : completion ElementHandle) (w' : world) : Prop :=
  (exists dt evs, w' = quietly dt evs w /\ Forall is_wait_or_sleep evs)
  /\ match r with
     | Returns el => exists n, el = Element selector n
     | _ => True
     end.

(** The point that is clicked for a button with box [box] inside an
    iframe with box [frameBox]. *)
Definition click_point (frameBox box : BoundingBox) : Q * Q :=
  (Qred (box_x frameBox + box_x box + box_width box / 2),
   Qred (box_y frameBox + box_y box + box_height box / 2)).

(** A promise that settles at some time. *)
Definition settles {A} (p : promise A) : Prop := p = NeverSettles -> False.

(** Every operation on the page and its elements that [sendOTP] awaits
    without a timeout of its own settles at some time. *)
Definition page_operations_settle (env : Env) : Prop :=
  (forall s, settles (evaluateOnNewDocument_reply env s))
  /\ settles (setViewport_reply env)
  /\ settles (setExtraHTTPHeaders_reply env)
  /\ settles (title_reply env)
  /\ (forall on sel j, settles (waitForSelector_reply env on sel j))
  /\ (forall on sel, settles (query_reply env on sel))
  /\ (forall el, settles (click_reply env el))
  /\ (forall el, settles (contentFrame_reply env el))
  /\ (forall el, settles (boundingBox_reply env el))
  /\ settles (mouse_click_reply env)
  /\ (forall el, settles (type_reply env el)).

(** [browser.close()] settles for the browser that the launch yields. *)
Definition close_settles (env : Env) : Prop :=
  forall f,
    fulfilment (_withTimeout (launchBrowser_reply env) 30000 "Browser launch") = Some f ->
    settles (close_outcome f).

(** * Sample environments *)

Definition always_rejects (j : nat) : promise nat :=
  SettlesAfter 15000 (Rejected (Error "Waiting for selector failed")).

Definition second_attempt_finds (j : nat) : promise nat :=
  if Nat.eqb j 1 then SettlesAfter 800 (Fulfilled 42%nat)
  else SettlesAfter 20000 (Rejected (Error "Waiting for selector failed")).


(** A promise fulfilled with [v] after [t] milliseconds. *)
Definition fulfilled_after {A} (t : N) (v : A) : promise A :=
  SettlesAfter t (Fulfilled v).

(** A site on which every call succeeds, up to the browser launch, the
    page title and the generated identifier. *)
Definition sample_env (launch : promise BrowserFate) (title : promise string)
    (uuid : string) : Env := {|
  launchBrowser_reply := launch;
  newPage_reply := fulfilled_after 100 7%nat;
  evaluateOnNewDocument_reply := fun _ => fulfilled_after 1 tt;
  setViewport_reply := fulfilled_after 1 tt;
  setExtraHTTPHeaders_reply := fulfilled_after 1 tt;
  setUserAgent_reply := fulfilled_after 1 tt;
  ZOMATO_PARTNERS_URL := None;
  goto_reply := fulfilled_after 3000 tt;
  page_url := "https://partner.zomato.com/login";
  title_reply := title;
  waitForSelector_reply := fun _ _ i => fulfilled_after 10 (11 + i)%nat;
  query_reply := fun _ _ => fulfilled_after 1 (Some 21%nat);
  click_reply := fun _ => fulfilled_after 5 tt;
  contentFrame_reply := fun _ => fulfilled_after 1 (Some 3%nat);
  boundingBox_reply := fun _ => fulfilled_after 1 (Some (Box 10 20 (100 # 3) 40));
  mouse_click_reply := fulfilled_after 1 tt;
  type_reply := fun _ => fulfilled_after 30 tt;
  uuidv4 := uuid
|}.

(** A browser that stays connected and closes on request. *)
Definition steady_browser : BrowserFate := Fate None (fulfilled_after 50 tt).

(** A browser whose connection drops 100 s after the launch. *)
Definition short_lived_browser : BrowserFate :=
  Fate (Some 100000) (fulfilled_after 50 tt).

Definition sample_uuid : string := "3b241101-e2bb-4255-8caf-4136c566a962".

Definition happy_env : Env :=
  sample_env (fulfilled_after 900 steady_browser)
    (fulfilled_after 1 "Zomato for Business"%string) sample_uuid.

Definition blocked_env : Env :=
  sample_env (fulfilled_after 900 steady_browser)
    (fulfilled_after 1 "Access Denied"%string) sample_uuid.

Definition dropping_env : Env :=
  sample_env (fulfilled_after 900 short_lived_browser)
    (fulfilled_after 1 "Zomato for Business"%string) sample_uuid.

(** The launch fails with an [Error] that carries no message. *)
Definition silent_failure_env : Env :=
  sample_env (SettlesAfter 20 (Rejected (Error EmptyString)))
    (fulfilled_after 1 "Zomato for Business"%string) sample_uuid.

(** A request body [{"identifier":"9014884219"}] and a parser that knows
    this one text. *)
Definition sample_body : string :=
  "{" +:+ dquote +:+ "identifier" +:+ dquote +:+ ":" +:+ dquote +:+ "9014884219"
  +:+ dquote +:+ "}".

Definition sample_parse (text : string) : settlement parsed_json :=
  if decide (text = sample_body)
  then Fulfilled (PObject (<["identifier" := JStr "9014884219"]> ∅))
  else Rejected (Error "Unexpected token in JSON").

Definition sample_event : HandlerEvent := HEvent "POST" (Some sample_body).

(** ** Further samples *)

(** A Lambda-like process environment and a Chromium build that knows its
    executable. *)
Definition lambda_env : ProcessEnv :=
  {| LAMBDA_TASK_ROOT := Some "/var/task"%string;
     AWS_EXECUTION_ENV := None;
     NETLIFY := None |}.

Definition local_env : ProcessEnv :=
  {| LAMBDA_TASK_ROOT := None; AWS_EXECUTION_ENV := None; NETLIFY := Some EmptyString |}.

Definition bundled_chromium : Chromium :=
  {| chromium_executablePath := fulfilled_after 400 (Some "/tmp/chromium"%string);
     chromium_defaultViewport := None;
     chromium_headless := JStr "shell" |}.

(** A Chromium build whose executable cannot be unpacked. *)
Definition broken_chromium : Chromium :=
  {| chromium_executablePath := SettlesAfter 50 (Rejected (Error "ENOENT"));
     chromium_defaultViewport := None;
     chromium_headless := JUndefined |}.

(** A site whose stealth configuration fails at the viewport. *)
Definition fragile_env : Env := {|
  launchBrowser_reply := fulfilled_after 900 steady_browser;
  newPage_reply := fulfilled_after 100 7%nat;
  evaluateOnNewDocument_reply := fun _ => fulfilled_after 1 tt;
  setViewport_reply := SettlesAfter 2 (Rejected (Error "Protocol error"));
  setExtraHTTPHeaders_reply := fulfilled_after 1 tt;
  setUserAgent_reply := fulfilled_after 1 tt;
  ZOMATO_PARTNERS_URL := None;
  goto_reply := fulfilled_after 3000 tt;
  page_url := "https://partner.zomato.com/login";
  title_reply := SettlesAfter 3 (Rejected (Error "Execution context was destroyed"));
  waitForSelector_reply :=
    fun _ sel i =>
      if decide (sel = loginButtonSelector)
      then SettlesAfter 20000 (Rejected (Error "Waiting for selector failed"))
      else fulfilled_after 10 (11 + i)%nat;
  query_reply := fun _ _ => fulfilled_after 1 (Some 21%nat);
  click_reply := fun _ => fulfilled_after 5 tt;
  contentFrame_reply := fun _ => fulfilled_after 1 (Some 3%nat);
  boundingBox_reply := fun _ => fulfilled_after 1 (Some (Box 10 20 (100 # 3) 40));
  mouse_click_reply := fulfilled_after 1 tt;
  type_reply := fun _ => fulfilled_after 30 tt;
  uuidv4 := sample_uuid
|}.

(** A launch that takes longer than the half minute it is given. *)
Definition slow_launch_env : Env :=
  sample_env (fulfilled_after 45000 steady_browser)
    (fulfilled_after 1 "Zomato for Business"%string) sample_uuid.

(** A second request body, with a country code, and a parser that knows
    both sample bodies. *)
Definition sample_body_91 : string :=
  "{" +:+ dquote +:+ "identifier" +:+ dquote +:+ ":" +:+ dquote +:+ "9014884219"
  +:+ dquote +:+ "," +:+ dquote +:+ "countryCode" +:+ dquote +:+ ":" +:+ dquote
  +:+ "91" +:+ dquote +:+ "}".

Definition sample_parse_both (text : string) : settlement parsed_json :=
  if decide (text = sample_body)
  then Fulfilled (PObject (<["identifier" := JStr "9014884219"]> ∅))
  else if decide (text = sample_body_91)
  then Fulfilled (PObject (<["countryCode" := JStr "91"]>
                             (<["identifier" := JStr "9014884219"]> ∅)))
  else Rejected (Error "Unexpected token in JSON").

(** A launcher that needs an executable path, and a serverless deployment
    in which finding the path and launching take 30.2 s together. *)
Definition sample_launch (opts : LaunchOptions) : promise BrowserFate :=
  match executablePath opts with
  | Some _ => fulfilled_after 29800 steady_browser
  | None => SettlesAfter 10 (Rejected (Error "Could not find Chrome"))
  end.

Definition serverless_env : Env :=
  sample_env (launchBrowser lambda_env (Some bundled_chromium) sample_launch)
    (fulfilled_after 1 "Zomato for Business"%string) sample_uuid.

(** A site that never answers the title request. *)
Definition stalled_env : Env :=
  sample_env (fulfilled_after 900 steady_browser) NeverSettles sample_uuid.

(** * Properties *)

(** ** Timeout racing *)

Lemma setTimeout_delay_range ms :
  1 <= ms <= 2147483647 -> setTimeout_delay ms = ms.
Proof.
  intros [H1 H2]. unfold setTimeout_delay.
  destruct (N.ltb_spec ms 1); [lia|].
  destruct (N.ltb_spec 2147483647 ms); [lia|reflexivity].
Qed.

Lemma setTimeout_delay_clamped ms :
  ms < 1 \/ 2147483647 < ms -> setTimeout_delay ms = 1.
Proof.
  intros H. unfold setTimeout_delay.
  destruct (N.ltb_spec ms 1); [reflexivity|].
  destruct (N.ltb_spec 2147483647 ms); [reflexivity|lia].
Qed.

Lemma setTimeout_delay_bounds ms : 1 <= setTimeout_delay ms <= 2147483647.
Proof.
  unfold setTimeout_delay.
  destruct (N.ltb_spec ms 1); [cbn; lia|].
  destruct (N.ltb_spec 2147483647 ms); cbn; lia.
Qed.

Lemma withTimeout_fulfilled_inv {A} (p : promise A) ms name t v :
  _withTimeout p ms name = SettlesAfter t (Fulfilled v) ->
  p = SettlesAfter t (Fulfilled v) /\ t <= setTimeout_delay ms.
Proof.
  unfold _withTimeout, Promise_race, rejects_after; cbn [foldr race2].
  destruct p as [u s|]; cbn [race2]; [|discriminate].
  destruct (N.leb_spec u (setTimeout_delay ms)); [|discriminate].
  intros [= -> ->]. split; [reflexivity|assumption].
Qed.

Lemma withTimeout_settles {A} (p : promise A) ms name :
  _withTimeout p ms name <> NeverSettles.
Proof.
  unfold _withTimeout, Promise_race, rejects_after; cbn [foldr race2].
  destruct p as [u s|]; cbn [race2]; [|discriminate].
  destruct (u <=? setTimeout_delay ms); discriminate.
Qed.

(** How the race of [_withTimeout] comes out, with [timer] the delay of
    its timer. *)
Lemma withTimeout_unfold {A} (p : promise A) ms name :
  _withTimeout p ms name
  = match p with
    | SettlesAfter t _ =>
        if t <=? setTimeout_delay ms then p
        else SettlesAfter (setTimeout_delay ms)
               (Rejected (Error (name +:+ " timed out after " +:+ pretty ms +:+ "ms")))
    | NeverSettles =>
        SettlesAfter (setTimeout_delay ms)
          (Rejected (Error (name +:+ " timed out after " +:+ pretty ms +:+ "ms")))
    end.
Proof.
  unfold _withTimeout, Promise_race, rejects_after; cbn [foldr race2].
  destruct p as [t s|]; cbn [race2]; reflexivity.
Qed.

(** C4 (as amended). For a [timeoutMs] from 1 to 2147483647 the timer of
    [_withTimeout(p, timeoutMs, operationName)] fires after [timeoutMs]
    milliseconds, and for any other after 1 millisecond.  The result
    settles as [p] does whenever [p] settles before the timer fires; when
    [p] settles later than that or never, it rejects as the timer fires,
    with an [Error] whose message is
    [<operationName> timed out after <timeoutMs>ms]. *)
Theorem withTimeout_race {A} (p : promise A) (timeoutMs : N) (operationName : string) :
  let timer := setTimeout_delay timeoutMs in
  let timed_out :=
    Error (operationName +:+ " timed out after " +:+ pretty timeoutMs +:+ "ms") in
  (1 <= timeoutMs <= 2147483647 -> timer = timeoutMs)
  /\ (timeoutMs < 1 \/ 2147483647 < timeoutMs -> timer = 1)
  /\ (forall t s, p = SettlesAfter t s -> t < timer ->
        _withTimeout p timeoutMs operationName = p)
  /\ (p = NeverSettles \/ (exists t s, p = SettlesAfter t s /\ timer < t) ->
      _withTimeout p timeoutMs operationName = SettlesAfter timer (Rejected timed_out)).
Proof.
  cbv zeta.
  split; [apply setTimeout_delay_range|].
  split; [apply setTimeout_delay_clamped|].
  rewrite withTimeout_unfold.
  split.
  - intros t s -> Ht.
    destruct (N.leb_spec t (setTimeout_delay timeoutMs)); [reflexivity|lia].
  - intros [->|(t & s & -> & Ht)]; [reflexivity|].
    destruct (N.leb_spec t (setTimeout_delay timeoutMs)); [lia|reflexivity].
Qed.

Example withTimeout_message :
  _withTimeout (@NeverSettles unit) 30000 "Browser launch"
  = SettlesAfter 30000 (Rejected (Error "Browser launch timed out after 30000ms")).
Proof. reflexivity. Qed.

Lemma withTimeout_race_witness :
  _withTimeout (SettlesAfter 7000 (Fulfilled 7%nat)) 5000 "User agent setup"
  = SettlesAfter 5000 (Rejected (Error "User agent setup timed out after 5000ms")).
Proof.
  apply (proj2 (proj2 (proj2
    (withTimeout_race (SettlesAfter 7000 (Fulfilled 7%nat)) 5000 "User agent setup")))).
  right. exists 7000, (Fulfilled 7%nat). split; [reflexivity|reflexivity].
Defined.

Example withTimeout_in_time :
  _withTimeout (SettlesAfter 1200 (Fulfilled 7%nat)) 5000 "User agent setup"
  = SettlesAfter 1200 (Fulfilled 7%nat).
Proof. reflexivity. Qed.

(** The claim as first stated, for every duration, fails beyond the range
    of the timers: with a limit of 2147483648 ms a promise that settles
    after five seconds is within the limit, and yet the result is the
    timeout error, after one millisecond. *)
Lemma withTimeout_beyond_timer_range :
  settles_within (SettlesAfter 5000 (Fulfilled 7%nat)) 2147483648 = true
  /\ _withTimeout (SettlesAfter 5000 (Fulfilled 7%nat)) 2147483648 "Page navigation"
     = SettlesAfter 1
         (Rejected (Error "Page navigation timed out after 2147483648ms"))
  /\ _withTimeout (SettlesAfter 5000 (Fulfilled 7%nat)) 2147483648 "Page navigation"
     <> SettlesAfter 5000 (Fulfilled 7%nat).
Proof. split; [reflexivity|]. split; [vm_compute; reflexivity|discriminate]. Qed.

(** ** [includes] is the substring test *)

Lemma append_cons c s t : String c s +:+ t = String c (s +:+ t).
Proof. reflexivity. Qed.

Lemma append_nil s : EmptyString +:+ s = s.
Proof. reflexivity. Qed.

Lemma startsWith_spec sub :
  forall s, startsWith s sub = true <-> exists post, s = sub +:+ post.
Proof.
  induction sub as [|b sub IH]; intros s.
  - split; [intros _; exists s; reflexivity|].
    intros _. destruct s; reflexivity.
  - destruct s as [|a s]; cbn [startsWith].
    + split; [discriminate|]. intros [post H]. rewrite append_cons in H. discriminate H.
    + destruct (decide (a = b)) as [->|Hne].
      * rewrite IH. split.
        -- intros [post ->]. exists post. reflexivity.
        -- intros [post H]. rewrite append_cons in H. injection H as ->.
           exists post. reflexivity.
      * split; [discriminate|]. intros [post H]. rewrite append_cons in H.
        injection H as -> _. contradiction.
Qed.

Lemma includes_spec sub :
  forall s, includes s sub = true <-> exists pre post, s = pre +:+ sub +:+ post.
Proof.
  intros s. induction s as [|a s IH]; cbn [includes].
  - rewrite orb_false_r, startsWith_spec. split.
    + intros [post H]. exists EmptyString, post. exact H.
    + intros (pre & post & H). destruct pre as [|c pre].
      * exists post. exact H.
      * rewrite append_cons in H. discriminate H.
  - rewrite orb_true_iff, startsWith_spec, IH. split.
    + intros [[post H]|(pre & post & H)].
      * exists EmptyString, post. exact H.
      * exists (String a pre), post. rewrite append_cons, H. reflexivity.
    + intros (pre & post & H). destruct pre as [|c pre].
      * left. exists post. exact H.
      * right. rewrite append_cons in H. injection H as -> ->.
        exists pre, post. reflexivity.
Qed.

(** The block-page test: the lower-cased title contains [access denied]
    (the exact title [Access Denied] is one such title). *)
Lemma is_access_denied_spec title :
  is_access_denied title = true
  <-> exists pre post, toLowerCase title = pre +:+ "access denied" +:+ post.
Proof.
  unfold is_access_denied. rewrite orb_true_iff, includes_spec. split.
  - intros [H|H]; [|exact H].
    destruct (decide (title = "Access Denied")) as [->|]; [|discriminate H].
    exists EmptyString, EmptyString. reflexivity.
  - intros H. right. exact H.
Qed.

Example includes_ignores_case :
  is_access_denied "Error: ACCESS Denied!" = true.
Proof. reflexivity. Qed.

(** ** Worlds after a call *)

Lemma call_fulfilled {A} e t (v : A) w :
  call e (SettlesAfter t (Fulfilled v)) w = (Returns v, after_call e t w).
Proof. reflexivity. Qed.

Lemma call_rejected {A} e t err w :
  call (A:=A) e (SettlesAfter t (Rejected err)) w = (Throws err, after_call e t w).
Proof. reflexivity. Qed.

Lemma call_never {A} e w :
  call (A:=A) e NeverSettles w = (Hangs, log_event e w).
Proof. reflexivity. Qed.

Lemma sleep_spec ms w :
  sleep ms w = (Returns tt, after_call (Ev_sleep ms) (setTimeout_delay ms) w).
Proof. reflexivity. Qed.

(** ** The retry loop *)

Section RetryLoop.
Variable reply : nat -> promise nat.
Variable pageOrFrame : target.
Variable selector : string.
Variables (timeout : N) (retries : nat) (retryDelay : N) (visible : bool).

Abbreviation loop := (retry_loop reply pageOrFrame selector timeout retries retryDelay visible).
Abbreviation wait_event := (wait_event pageOrFrame selector timeout retries visible).
Abbreviation sleep_event := (sleep_event retryDelay).

Lemma loop_fulfilled remaining attempt lastError t n w :
  reply attempt = SettlesAfter t (Fulfilled n) ->
  loop (S remaining) attempt lastError w
  = (Returns (Element selector n), after_call (wait_event attempt) t w).
Proof.
  intros H. simpl.
  unfold bind at 1, caught, try_catch, bind at 1, waitForSelector, bind at 1.
  rewrite H, call_fulfilled. reflexivity.
Qed.

Lemma loop_never remaining attempt lastError w :
  reply attempt = NeverSettles ->
  loop (S remaining) attempt lastError w
  = (Hangs, log_event (wait_event attempt) w).
Proof.
  intros H. simpl.
  unfold bind at 1, caught, try_catch, bind at 1, waitForSelector, bind at 1.
  rewrite H, call_never. reflexivity.
Qed.

Lemma loop_rejected remaining attempt lastError t e w :
  reply attempt = SettlesAfter t (Rejected e) ->
  loop (S remaining) attempt lastError w
  = loop remaining (S attempt) (Some e)
      (let w1 := after_call (wait_event attempt) t w in
       if Nat.ltb attempt retries
       then after_call (sleep_event attempt)
              (setTimeout_delay (backoff_delay retryDelay attempt)) w1
       else w1).
Proof.
  intros H. simpl.
  unfold bind at 1, caught, try_catch, bind at 1, waitForSelector, bind at 1.
  rewrite H, call_rejected. simpl.
  unfold bind at 1. destruct (Nat.ltb attempt retries); reflexivity.
Qed.

Lemma loop_exhausted attempt lastError w :
  loop 0 attempt lastError w = (Throws (thrown_value lastError), w).
Proof. reflexivity. Qed.

Abbreviation failed_events :=
  (failed_events pageOrFrame selector timeout retries retryDelay visible).

(** [k] failing iterations in a row issue [failed_events] and hand the last
    error to the rest of the loop. *)
Lemma loop_failures k :
  forall remaining attempt lastError w,
    (forall j, (attempt <= j < attempt + k)%nat -> is_Some (rejection (reply j))) ->
    exists w',
      loop (k + remaining) attempt lastError w
      = loop remaining (attempt + k)
          (match k with
           | O => lastError
           | S k' => rejection (reply (attempt + k'))
           end) w'
      /\ trace w' = trace w ++ failed_events k attempt
      /\ sessionCache w' = sessionCache w
      /\ timers w' = timers w
      /\ browsers w' = browsers w.
Proof.
  induction k as [|k IH]; intros remaining attempt lastError w Hrej.
  - exists w. rewrite Nat.add_0_r, app_nil_r. auto.
  - destruct (Hrej attempt ltac:(lia)) as [e He].
    destruct (reply attempt) as [t [v|e']|] eqn:Hr; simpl in He; try discriminate He.
    injection He as ->.
    destruct (IH remaining (S attempt) (Some e)
                (let w1 := after_call (wait_event attempt) t w in
                 if Nat.ltb attempt retries
                 then after_call (sleep_event attempt)
                        (setTimeout_delay (backoff_delay retryDelay attempt)) w1
                 else w1)) as (w' & Hrun & Htr & Hc & Ht & Hb).
    { intros j Hj. apply Hrej. lia. }
    exists w'. split; [|split; [|split; [|split]]].
    + change (S k + remaining)%nat with (S (k + remaining)).
      rewrite (loop_rejected _ _ _ _ _ _ Hr), Hrun.
      replace (S attempt + k)%nat with (attempt + S k)%nat by lia.
      destruct k as [|k'].
      * rewrite Nat.add_0_r, Hr. reflexivity.
      * replace (S attempt + k')%nat with (attempt + S k')%nat by lia. reflexivity.
    + rewrite Htr. simpl. destruct (Nat.ltb attempt retries); simpl;
        rewrite <- ?app_assoc; reflexivity.
    + rewrite Hc. destruct (Nat.ltb attempt retries); reflexivity.
    + rewrite Ht. destruct (Nat.ltb attempt retries); reflexivity.
    + rewrite Hb. destruct (Nat.ltb attempt retries); reflexivity.
Qed.

(** The loop only ever appends to the trace. *)
Lemma loop_trace remaining :
  forall attempt lastError w,
    exists evs,
      trace (loop remaining attempt lastError w).2 = trace w ++ evs.
Proof.
  induction remaining as [|remaining IH]; intros attempt lastError w.
  - exists []. rewrite app_nil_r. reflexivity.
  - destruct (reply attempt) as [t [v|e]|] eqn:Hr.
    + rewrite (loop_fulfilled _ _ _ _ _ _ Hr). eexists. reflexivity.
    + rewrite (loop_rejected _ _ _ _ _ _ Hr).
      edestruct IH as [evs ->].
      destruct (Nat.ltb attempt retries); simpl; rewrite <- ?app_assoc;
        eexists; reflexivity.
    + rewrite (loop_never _ _ _ _ Hr). eexists. reflexivity.
Qed.




Lemma wait_timeouts_app evs1 evs2 :
  wait_timeouts (evs1 ++ evs2) = wait_timeouts evs1 ++ wait_timeouts evs2.
Proof. apply omap_app. Qed.

Lemma failed_events_timeouts k :
  forall attempt,
    wait_timeouts (failed_events k attempt)
    = map (attempt_timeout timeout retries) (seq attempt k).
Proof.
  induction k as [|k IH]; intros attempt; [reflexivity|].
  simpl. rewrite <- IH.
  destruct (Nat.ltb attempt retries); reflexivity.
Qed.
End RetryLoop.

Lemma events_since_app w w' evs :
  trace w' = trace w ++ evs -> events_since w w' = evs.
Proof. intros H. unfold events_since. rewrite H. apply drop_app_length. Qed.

Lemma attempt_timeouts_later timeout retries k :
  forall a, (0 < a)%nat ->
    map (attempt_timeout timeout retries) (seq a k)
    = replicate k (Qred (inject_Z (Z.of_N timeout) / inject_Z (Z.of_nat retries + 1))).
Proof.
  induction k as [|k IH]; intros a Ha; [reflexivity|].
  simpl. rewrite IH by lia. destruct a; [lia|]. reflexivity.
Qed.

Lemma attempt_timeouts_shape timeout retries k :
  map (attempt_timeout timeout retries) (seq 0 (S k))
  = inject_Z (Z.of_N timeout)
    :: replicate k (Qred (inject_Z (Z.of_N timeout) / inject_Z (Z.of_nat retries + 1))).
Proof. simpl. rewrite attempt_timeouts_later by lia. reflexivity. Qed.



(** C6. The helper makes at most [retries + 1] attempts, the first with the
    full [timeout] and every later one with [timeout / (retries + 1)]; it
    returns the element of the first attempt that succeeds, and when all
    [retries + 1] attempts fail it throws the error of the last one. *)
Theorem waitForSelectorWithRetry_attempts
    (reply : nat -> promise nat) (pageOrFrame : target) (selector : string)
    (options : WaitOptions) (w : world) (k : nat) :
  let timeout := default 60000 (timeout options) in
  let retries := default 3%nat (retries options) in
  let later := Qred (inject_Z (Z.of_N timeout) / inject_Z (Z.of_nat retries + 1)) in
  let out := _waitForSelectorWithRetry reply pageOrFrame selector options w in
  let waits := wait_timeouts (events_since w out.2) in
  (k <= retries)%nat ->
  (forall j, (j < k)%nat -> is_Some (rejection (reply j))) ->
  (forall n, fulfilment (reply k) = Some n ->
     out.1 = Returns (Element selector n)
     /\ waits = inject_Z (Z.of_N timeout) :: replicate k later)
  /\ (forall e, rejection (reply k) = Some e -> k = retries ->
     out.1 = Throws e
     /\ waits = inject_Z (Z.of_N timeout) :: replicate retries later
     /\ length waits = (retries + 1)%nat).
Proof.
  intros timeout retries later out waits Hk Hrej.
  subst out waits. unfold _waitForSelectorWithRetry.
  fold timeout retries.
  set (retryDelay := default 1000 (retryDelay options)).
  set (visible := default false (visible options)).
  split.
  - intros n Hn.
    destruct (loop_failures reply pageOrFrame selector timeout retries retryDelay
                visible k (S (retries - k)) 0%nat None w)
      as (w' & Hrun & Htr & _).
    { intros j Hj. apply Hrej. lia. }
    replace (k + S (retries - k))%nat with (S retries) in Hrun by lia.
    rewrite Hrun. simpl (0 + k)%nat.
    destruct (reply k) as [t [v|e]|] eqn:Hr; simpl in Hn; try discriminate Hn.
    injection Hn as ->.
    rewrite (loop_fulfilled reply _ _ _ _ _ _ _ _ _ t n w' Hr). simpl.
    split; [reflexivity|].
    rewrite (events_since_app w _ (failed_events pageOrFrame selector timeout
               retries retryDelay visible k 0
             ++ [wait_event pageOrFrame selector timeout retries visible k])).
    + rewrite wait_timeouts_app, failed_events_timeouts. simpl.
      change (map (attempt_timeout timeout retries) (seq 0 k)
              ++ [attempt_timeout timeout retries k])
        with (map (attempt_timeout timeout retries) (seq 0 k)
              ++ map (attempt_timeout timeout retries) [k]).
      rewrite <- map_app.
      change [k] with (seq (0 + k) 1). rewrite <- seq_app.
      replace (k + 1)%nat with (S k) by lia.
      apply attempt_timeouts_shape.
    + simpl. rewrite Htr, <- app_assoc. reflexivity.
  - intros e He ->.
    destruct (loop_failures reply pageOrFrame selector timeout retries retryDelay
                visible (S retries) 0%nat 0%nat None w)
      as (w' & Hrun & Htr & _).
    { intros j Hj. destruct (decide (j = retries)) as [->|].
      - rewrite He. eexists; reflexivity.
      - apply Hrej. lia. }
    replace (S retries + 0)%nat with (S retries) in Hrun by lia.
    rewrite Hrun. simpl (0 + retries)%nat. rewrite He, loop_exhausted. simpl.
    rewrite (events_since_app _ _ _ Htr), failed_events_timeouts,
      attempt_timeouts_shape.
    repeat split. simpl. rewrite length_replicate. lia.
Qed.

Lemma waitForSelectorWithRetry_attempts_witness :
  (1 <= 2)%nat
  /\ (forall j, (j < 1)%nat -> is_Some (rejection (second_attempt_finds j)))
  /\ (_waitForSelectorWithRetry second_attempt_finds (OnPage 0%nat) "#login"
        (Options (Some 60000) (Some 2%nat) (Some 2000) (Some true))
        initial_world).1
     = Returns (Element "#login" 42%nat).
Proof.
  assert (forall j, (j < 1)%nat -> is_Some (rejection (second_attempt_finds j))) as H.
  { intros j Hj. destruct j; [eexists; reflexivity|lia]. }
  split; [lia|]. split; [exact H|].
  exact (proj1 (proj1
    (waitForSelectorWithRetry_attempts second_attempt_finds (OnPage 0%nat) "#login"
       (Options (Some 60000) (Some 2%nat) (Some 2000) (Some true))
       initial_world 1%nat ltac:(cbn; lia) H) 42%nat eq_refl)).
Defined.

(** ** Reasoning about asynchronous computations *)

Lemma wp_ret {A} (v : A) w Q : Q (Returns v) w -> wp (ret v) w Q.
Proof. exact id. Qed.

Lemma wp_throw {A} e w (Q : completion A -> world -> Prop) :
  Q (Throws e) w -> wp (throw e) w Q.
Proof. exact id. Qed.

Lemma wp_bind {A B} (m : Async A) (k : A -> Async B) w Q :
  wp m w (fun r w' =>
            match r with
            | Returns v => wp (k v) w' Q
            | Throws e => Q (Throws e) w'
            | Hangs => Q Hangs w'
            end) ->
  wp (bind m k) w Q.
Proof. unfold wp, bind. destruct (m w) as [[v|e|] w']; exact id. Qed.

Lemma wp_try_catch {A} (m : Async A) (h : error -> Async A) w Q :
  wp m w (fun r w' =>
            match r with
            | Throws e => wp (h e) w' Q
            | _ => Q r w'
            end) ->
  wp (try_catch m h) w Q.
Proof. unfold wp, try_catch. destruct (m w) as [[v|e|] w']; exact id. Qed.

Lemma wp_emit e w Q : Q (Returns tt) (log_event e w) -> wp (emit e) w Q.
Proof. exact id. Qed.

Lemma wp_read {A} (f : world -> A) w Q : Q (Returns (f w)) w -> wp (read f) w Q.
Proof. exact id. Qed.

Lemma wp_update f w Q : Q (Returns tt) (f w) -> wp (update f) w Q.
Proof. exact id. Qed.

Lemma wp_call {A} e (p : promise A) w Q :
  match p with
  | SettlesAfter t (Fulfilled v) => Q (Returns v) (quietly t [e] w)
  | SettlesAfter t (Rejected err) => Q (Throws err) (quietly t [e] w)
  | NeverSettles => Q Hangs (quietly 0 [e] w)
  end ->
  wp (call e p) w Q.
Proof.
  destruct p as [t [v|err]|]; try exact id.
  unfold wp, call, bind, emit, await, quietly, log_event. simpl.
  rewrite N.add_0_r. exact id.
Qed.

Lemma wp_await {A} (p : promise A) w Q :
  match p with
  | SettlesAfter t (Fulfilled v) => Q (Returns v) (quietly t [] w)
  | SettlesAfter t (Rejected err) => Q (Throws err) (quietly t [] w)
  | NeverSettles => Q Hangs (quietly 0 [] w)
  end ->
  wp (await p) w Q.
Proof.
  unfold wp, await, quietly, set_clock.
  destruct w as [c m ts bs tr]; simpl. rewrite app_nil_r, N.add_0_r.
  destruct p as [t [v|err]|]; exact id.
Qed.

(** A computation summarised by a relation between the worlds around it. *)
Lemma wp_summary {A} (m : Async A) (S : world -> completion A -> world -> Prop) w Q :
  (forall w, S w (m w).1 (m w).2) ->
  (forall r w', S w r w' -> Q r w') ->
  wp m w Q.
Proof. intros Hm HQ. apply HQ, Hm. Qed.

Lemma wp_run {A} (m : Async A) w r w' Q :
  m w = (r, w') -> wp m w Q -> Q r w'.
Proof. unfold wp. intros ->. exact id. Qed.

Lemma quietly_quietly dt1 evs1 dt2 evs2 w :
  quietly dt2 evs2 (quietly dt1 evs1 w) = quietly (dt1 + dt2) (evs1 ++ evs2) w.
Proof. unfold quietly; simpl. rewrite N.add_assoc, app_assoc. reflexivity. Qed.

Lemma steps_of_app evs1 evs2 : steps_of (evs1 ++ evs2) = steps_of evs1 ++ steps_of evs2.
Proof. apply omap_app. Qed.

(** *** Summaries of the helpers *)

(** Selector waiting issues waits and sleeps only, and an element it
    returns was located by the selector. *)
Lemma retry_loop_quiet reply pageOrFrame selector timeout retries retryDelay visible
    remaining :
  forall attempt lastError w,
    let out := retry_loop reply pageOrFrame selector timeout retries retryDelay
                 visible remaining attempt lastError w in
    (exists dt evs, out.2 = quietly dt evs w /\ steps_of evs = [])
    /\ (forall el, out.1 = Returns el -> found_by el = selector).
Proof.
  induction remaining as [|remaining IH]; intros attempt lastError w; cbv zeta.
  - rewrite loop_exhausted. split; [|discriminate].
    exists 0, []. split; [|reflexivity].
    unfold quietly; destruct w; simpl.
    rewrite N.add_0_r, app_nil_r. reflexivity.
  - destruct (reply attempt) as [t [v|e]|] eqn:Hr.
    + rewrite (loop_fulfilled _ _ _ _ _ _ _ _ _ _ _ _ _ Hr).
      split; [|intros el [= <-]; reflexivity].
      exists t, [wait_event pageOrFrame selector timeout retries visible attempt].
      split; reflexivity.
    + rewrite (loop_rejected _ _ _ _ _ _ _ _ _ _ _ _ _ Hr).
      edestruct IH as ((dt & evs & -> & Hs) & Hel). split; [|exact Hel].
      destruct (Nat.ltb attempt retries); cbv zeta;
        rewrite ?quietly_quietly; do 2 eexists; (split; [reflexivity|]);
        rewrite ?steps_of_app, Hs; reflexivity.
    + rewrite (loop_never _ _ _ _ _ _ _ _ _ _ _ Hr).
      split; [|discriminate].
      exists 0, [wait_event pageOrFrame selector timeout retries visible attempt].
      split; [|reflexivity].
      unfold quietly, log_event; simpl. rewrite N.add_0_r. reflexivity.
Qed.

Lemma wp_register_browser f w Q :
  Q (Returns (length (browsers w)))
    (set_browsers (browsers w ++ [BState f (clock w) false]) w) ->
  wp (register_browser f) w Q.
Proof. exact id. Qed.

Ltac wp_unfold :=
  lazymatch goal with
  | |- wp (waitForSelector_once _ _ _ _ _) _ _ => unfold waitForSelector_once
  | |- wp (waitForSelector _ _ _ _ _) _ _ => unfold waitForSelector
  | |- wp (query _ _ _) _ _ => unfold query
  | |- wp (click _ _) _ _ => unfold click
  | |- wp (contentFrame _ _) _ _ => unfold contentFrame
  | |- wp (getBoundingBox _ _) _ _ => unfold getBoundingBox
  | |- wp (type_text _ _ _) _ _ => unfold type_text
  | |- wp (sleep ?ms) _ _ =>
      unfold sleep;
      let d := eval vm_compute in (setTimeout_delay ms) in
      change (setTimeout_delay ms) with d
  | |- wp (sessionCache_set _ _) _ _ => unfold sessionCache_set
  | |- wp (sessionCache_delete _) _ _ => unfold sessionCache_delete
  | |- wp (setTimeout_cleanup _ _ ?ms) _ _ =>
      unfold setTimeout_cleanup;
      change (setTimeout_delay ms) with ms
  | |- wp (browser_isConnected _) _ _ => unfold browser_isConnected
  | |- wp (browser_close _) _ _ => unfold browser_close
  | |- wp (cleanup_callback _ _) _ _ => unfold cleanup_callback
  | |- wp (email_path _ _ _ _ _ _) _ _ => unfold email_path
  | |- wp (phone_path _ _ _) _ _ => unfold phone_path
  | |- wp (_makePageStealth _ _) _ _ => unfold _makePageStealth
  | |- wp (register_browser _) _ _ => apply wp_register_browser
  end.

Ltac wp_prim :=
  lazymatch goal with
  | |- wp (bind _ _) _ _ => apply wp_bind
  | |- wp (try_catch _ _) _ _ => apply wp_try_catch
  | |- wp (ret _) _ _ => apply wp_ret
  | |- wp (throw _) _ _ => apply wp_throw
  | |- wp (emit _) _ _ => apply wp_emit
  | |- wp (read _) _ _ => apply wp_read
  | |- wp (update _) _ _ => apply wp_update
  | |- wp (call _ (SettlesAfter _ _)) _ _ => apply wp_call
  | |- wp (call _ ?p) _ _ => apply wp_call; destruct p as [? [?|?]|] eqn:?
  | |- wp (await ?p) _ _ => apply wp_await; destruct p as [? [?|?]|] eqn:?
  | |- wp (if ?c then _ else _) _ _ => destruct c eqn:?
  | |- wp (match ?f <$> ?x with _ => _ end) _ _ => destruct x; cbn [fmap option_fmap option_map]
  | |- wp (match ?x with _ => _ end) _ _ => destruct x eqn:?
  end.

Ltac wp_step := first [wp_prim | wp_unfold]; cbv beta iota zeta.
Ltac wp_go := repeat wp_step.

(** Stealth configuration never throws and belongs to no step. *)
Lemma makePageStealth_quiet env page w :
  stealth_run w (_makePageStealth env page w).1 (_makePageStealth env page w).2.
Proof.
  change (wp (_makePageStealth env page) w (stealth_run w)).
  wp_go; (split; [first [left; reflexivity | right; reflexivity
                        | left; f_equal; match goal with u : unit |- _ => destruct u end; reflexivity ]|]);
    rewrite ?quietly_quietly; do 2 eexists; (split; [reflexivity|]);
    (split; [reflexivity|]); repeat constructor.
Qed.

Lemma waitForSelectorWithRetry_quiet reply pageOrFrame selector options w :
  retry_run pageOrFrame selector options w
    (_waitForSelectorWithRetry reply pageOrFrame selector options w).1
    (_waitForSelectorWithRetry reply pageOrFrame selector options w).2.
Proof.
  unfold _waitForSelectorWithRetry, retry_run.
  set (timeout := default 60000 (timeout options)).
  set (retries := default 3%nat (retries options)).
  set (retryDelay := default 1000 (retryDelay options)).
  set (visible := default false (visible options)).
  split.
  - destruct (reply 0%nat) as [t [v|e]|] eqn:Hr.
    + rewrite (loop_fulfilled _ _ _ _ _ _ _ _ _ _ _ _ _ Hr).
      exists t, []. split; reflexivity.
    + rewrite (loop_rejected _ _ _ _ _ _ _ _ _ _ _ _ _ Hr).
      edestruct retry_loop_quiet as ((dt & evs & -> & Hs) & _).
      destruct (Nat.ltb 0 retries); cbv zeta;
        rewrite ?quietly_quietly; do 2 eexists; (split; [reflexivity|]);
        rewrite ?steps_of_app, Hs; reflexivity.
    + rewrite (loop_never _ _ _ _ _ _ _ _ _ _ _ Hr).
      exists 0, []. split; [|reflexivity].
      unfold quietly, log_event; simpl. rewrite N.add_0_r. reflexivity.
  - pose proof (retry_loop_quiet reply pageOrFrame selector timeout retries
                  retryDelay visible (S retries) 0%nat None w) as (_ & Hel).
    cbv zeta in Hel.
    match goal with |- match ?r with _ => _ end => destruct r as [[sel n]| |] end;
      [|exact I..].
    exists n. rewrite <- (Hel _ eq_refl). reflexivity.
Qed.

Lemma isConnected_mark_closed b dt evs w :
  isConnected b (quietly dt evs (mark_closed b w)) = false.
Proof.
  unfold isConnected, quietly, mark_closed; simpl.
  rewrite list_lookup_alter_eq. destruct (_ !! _); reflexivity.
Qed.

Lemma sendOTP_catch_some b e w :
  catch_run b e w (sendOTP_catch (A:=SendOTPResult) (Some b) e w).1
    (sendOTP_catch (A:=SendOTPResult) (Some b) e w).2.
Proof.
  change (wp (sendOTP_catch (A:=SendOTPResult) (Some b) e) w (catch_run b e w)).
  unfold sendOTP_catch. wp_go.
  all: unfold catch_run; simpl.
  all: try (unfold isConnected in *; simpl in *;
            match goal with
            | H1 : ?x = None, H2 : context [?x] |- _ => rewrite H1 in H2; discriminate H2
            end).
  all: split; [first [left; reflexivity | right; reflexivity]|].
  all: do 2 (split; [reflexivity|]).
  all: split; [rewrite ?length_alter; reflexivity|].
  all: split; [lia|].
  all: split;
    [first [ discriminate
           | intros _; eexists; split; [eassumption|assumption] ]|].
  all: first
    [ exists [Ev_isConnected b false]; split;
      [rewrite <- ?app_assoc, ?app_nil_r; reflexivity|left; reflexivity]
    | exists [Ev_isConnected b true; Ev_close b]; split;
      [rewrite <- ?app_assoc, ?app_nil_r; reflexivity|right; split; [reflexivity|]] ].
  all: intros st Hst Hf; try apply isConnected_mark_closed.
  all: simplify_eq/=.
  all: match goal with
       | H : close_outcome _ = _, Hf : fulfilment _ = _ |- _ =>
           rewrite H in Hf; discriminate Hf
       end.
Qed.

Ltac wp_sum :=
  lazymatch goal with
  | |- wp (_makePageStealth _ _) _ _ =>
      apply (wp_summary _ stealth_run);
      [intros; apply makePageStealth_quiet
      |intros ? ? [[-> | ->] (? & ? & -> & ? & ?)]]
  | |- wp (_waitForSelectorWithRetry _ ?on ?sel ?opts) _ _ =>
      apply (wp_summary _ (retry_run on sel opts));
      [intros; apply waitForSelectorWithRetry_quiet
      |intros [?|?|] ? [(? & ? & -> & ?) ?];
       cbn [default timeout visible from_option] in *;
       [match goal with H : exists n, _ = Element _ n |- _ => destruct H as [? ->] end
       | | ] ]
  | |- wp (sendOTP_catch (Some ?b) ?e) _ _ =>
      apply (wp_summary _ (catch_run b e));
      [intros; apply sendOTP_catch_some
      |intros ? ? (? & ? & ? & ? & ? & ? & ? & ? & ?)]
  | |- wp (sendOTP_catch None _) _ _ => unfold sendOTP_catch
  end.

Ltac wp_main_step := first [wp_sum | wp_prim | wp_unfold]; cbv beta iota zeta.
Ltac wp_main := repeat wp_main_step.

(** ** The calls issued since a world *)

Lemma extends_refl w : extends w w.
Proof. exists []. rewrite app_nil_r. reflexivity. Qed.

Lemma extends_trace w W w' evs :
  extends w W -> trace w' = trace W ++ evs -> extends w w'.
Proof. intros [pre Hp] H. exists (pre ++ evs). rewrite H, Hp, app_assoc. reflexivity. Qed.

Lemma extends_quietly w W dt evs : extends w W -> extends w (quietly dt evs W).
Proof. intros H. eapply extends_trace; [exact H|reflexivity]. Qed.

Lemma extends_log_event w W e : extends w W -> extends w (log_event e W).
Proof. intros H. eapply extends_trace; [exact H|reflexivity]. Qed.

Lemma extends_same w W w' : extends w W -> trace w' = trace W -> extends w w'.
Proof. intros H Ht. eapply extends_trace; [exact H|]. rewrite app_nil_r. exact Ht. Qed.

Lemma extends_set_browsers w W bs : extends w W -> extends w (set_browsers bs W).
Proof. intros H. eapply extends_same; [exact H|reflexivity]. Qed.

Lemma extends_set_sessionCache w W m : extends w W -> extends w (set_sessionCache m W).
Proof. intros H. eapply extends_same; [exact H|reflexivity]. Qed.

Lemma extends_set_timers w W ts : extends w W -> extends w (set_timers ts W).
Proof. intros H. eapply extends_same; [exact H|reflexivity]. Qed.

Lemma extends_set_clock w W c : extends w W -> extends w (set_clock c W).
Proof. intros H. eapply extends_same; [exact H|reflexivity]. Qed.

Lemma extends_mark_closed w W b : extends w W -> extends w (mark_closed b W).
Proof. intros H. eapply extends_same; [exact H|reflexivity]. Qed.

Ltac extends_tac :=
  lazymatch goal with
  | |- extends _ (quietly _ _ _) => apply extends_quietly; extends_tac
  | |- extends _ (log_event _ _) => apply extends_log_event; extends_tac
  | |- extends _ (set_browsers _ _) => apply extends_set_browsers; extends_tac
  | |- extends _ (set_sessionCache _ _) => apply extends_set_sessionCache; extends_tac
  | |- extends _ (set_timers _ _) => apply extends_set_timers; extends_tac
  | |- extends _ (set_clock _ _) => apply extends_set_clock; extends_tac
  | |- extends _ (mark_closed _ _) => apply extends_mark_closed; extends_tac
  | |- extends ?w ?w => apply extends_refl
  end.

Lemma events_since_self w : events_since w w = [].
Proof. unfold events_since. apply drop_all. Qed.

Lemma events_since_extend w W w' evs :
  extends w W -> trace w' = trace W ++ evs ->
  events_since w w' = events_since w W ++ evs.
Proof.
  intros [pre Hp] H. unfold events_since.
  rewrite H, Hp, <- app_assoc, !drop_app_length. reflexivity.
Qed.

Lemma events_since_quietly w W dt evs :
  extends w W -> events_since w (quietly dt evs W) = events_since w W ++ evs.
Proof. intros H. apply events_since_extend; [exact H|reflexivity]. Qed.

Lemma events_since_log_event w W e :
  extends w W -> events_since w (log_event e W) = events_since w W ++ [e].
Proof. intros H. apply events_since_extend; [exact H|reflexivity]. Qed.

Lemma events_since_set_browsers w W bs :
  events_since w (set_browsers bs W) = events_since w W.
Proof. reflexivity. Qed.

Lemma events_since_set_sessionCache w W m :
  events_since w (set_sessionCache m W) = events_since w W.
Proof. reflexivity. Qed.

Lemma events_since_set_timers w W ts :
  events_since w (set_timers ts W) = events_since w W.
Proof. reflexivity. Qed.

Lemma events_since_set_clock w W c :
  events_since w (set_clock c W) = events_since w W.
Proof. reflexivity. Qed.

Lemma events_since_mark_closed w W b :
  events_since w (mark_closed b W) = events_since w W.
Proof. reflexivity. Qed.

Ltac events_norm0 :=
  repeat first
    [ rewrite events_since_quietly by extends_tac
    | rewrite events_since_log_event by extends_tac
    | rewrite events_since_set_browsers
    | rewrite events_since_set_sessionCache
    | rewrite events_since_set_timers
    | rewrite events_since_set_clock
    | rewrite events_since_mark_closed
    | rewrite events_since_self ].

Ltac events_norm := events_norm0; cbn [app].

Lemma snoc5 {A} (l : list A) a b c d e :
  ((((l ++ [a]) ++ [b]) ++ [c]) ++ [d]) ++ [e] = l ++ [a; b; c; d; e].
Proof. rewrite <- !app_assoc. reflexivity. Qed.

(** After a summarised stretch: the calls since [w] are those up to the
    stretch followed by its own. *)
Ltac events_of_trace :=
  match goal with
  | H : trace ?w' = trace ?W ++ ?x |- context [events_since ?w ?w'] =>
      rewrite (events_since_extend w W w' x ltac:(extends_tac) H)
  end.

(** ** [sendOTP]: failure leaves the cache alone and closes the browser *)

Lemma sendOTP_throws env identifier countryCode type w :
  wp (sendOTP env identifier countryCode type) w
    (fun r w' =>
       forall e, r = Throws e ->
         sessionCache w' = sessionCache w
         /\ forall f,
              fulfilment (_withTimeout (launchBrowser_reply env) 30000 "Browser launch")
              = Some f ->
              let b := length (browsers w) in
              let evs := events_since w w' in
              (exists pre, evs = pre ++ [Ev_isConnected b false])
              \/ (exists pre, evs = pre ++ [Ev_isConnected b true; Ev_close b])
                 /\ (fulfilment (close_outcome f) = Some tt ->
                     isConnected b w' = false)).
Proof.
  unfold sendOTP, sendOTP_try.
  wp_main.
  all: intros e' He'; try discriminate He'.
  all: try (split; [reflexivity|intros f' Hf; discriminate Hf]).
  all: match goal with
       | H : _ = Throws _ \/ _ = Hangs |- _ => destruct H as [->| ->]; [|discriminate He']
       end.
  all: match goal with
       | H : sessionCache _ = _ |- _ => split; [rewrite H; reflexivity|]
       end.
  all: intros f' Hf; injection Hf as <-; cbv zeta.
  all: events_of_trace.
  all: match goal with
       | H : _ \/ _ /\ _ |- _ => destruct H as [-> | [-> Hclosed]]
       end.
  all: try (left; eexists; reflexivity).
  all: right; split; [eexists; reflexivity|].
  all: intros Hfate; eapply Hclosed;
    [cbn [browsers quietly set_browsers]; apply list_lookup_middle; reflexivity
    |exact Hfate].
Qed.

(** ** [sendOTP]: the order of the steps *)

Lemma steps_of_cons e evs :
  steps_of (e :: evs) = from_option (fun s => [s]) [] (step_of e) ++ steps_of evs.
Proof. unfold steps_of; simpl. destruct (step_of e); reflexivity. Qed.

Lemma step_of_click_login n : step_of (Ev_click (Element loginButtonSelector n)) = Some ClickLogin.
Proof. reflexivity. Qed.

Lemma step_of_click_sendOtp n :
  step_of (Ev_click (Element sendOtpButtonSelector n)) = Some SubmitOTPRequest.
Proof. reflexivity. Qed.

Lemma step_of_type_email n text :
  step_of (Ev_type (Element emailInputSelector n) text) = Some (ChoosePath ByEmail).
Proof. reflexivity. Qed.

Lemma step_of_type_phone n text :
  step_of (Ev_type (Element phoneInputSelector n) text) = Some (ChoosePath ByPhone).
Proof. reflexivity. Qed.

Lemma steps_of_nil : steps_of [] = [].
Proof. reflexivity. Qed.

Ltac steps_norm :=
  repeat first [rewrite steps_of_app | rewrite steps_of_cons];
  rewrite ?step_of_click_login, ?step_of_click_sendOtp, ?step_of_type_email,
    ?step_of_type_phone;
  repeat match goal with
         | H : steps_of ?x = [] |- context [steps_of ?x] => rewrite H
         end;
  cbn [step_of from_option]; rewrite ?steps_of_nil; cbn [app].



Ltac in_events :=
  repeat first
    [ apply list_elem_of_here
    | apply list_elem_of_further
    | apply elem_of_app; right ].





Example sendOTP_step_order_phone :
  steps_of (events_since initial_world
              (sendOTP happy_env (JStr "9014884219") (JStr "91") JUndefined
                 initial_world).2)
  = [Navigate; DetectBlockPage; ClickLogin; SwitchToIframe; ChoosePath ByPhone;
     SubmitOTPRequest; CacheSession].
Proof. vm_compute. reflexivity. Qed.

(** C8. When [sendOTP] throws, the session cache is as it was before the
    call; and if a browser had been launched, the last thing [sendOTP] did
    was to ask whether it is connected and, when it is, to call and await
    [browser.close()], after which (if the close succeeded) the browser is
    no longer connected. *)
Theorem sendOTP_failure_cleanup (env : Env) (identifier countryCode type : jsval)
    (w w' : world) (e : error) :
  sendOTP env identifier countryCode type w = (Throws e, w') ->
  sessionCache w' = sessionCache w
  /\ forall f,
       fulfilment (_withTimeout (launchBrowser_reply env) 30000 "Browser launch")
       = Some f ->
       let b := length (browsers w) in
       let evs := events_since w w' in
       (exists pre, evs = pre ++ [Ev_isConnected b false])
       \/ (exists pre, evs = pre ++ [Ev_isConnected b true; Ev_close b])
          /\ (fulfilment (close_outcome f) = Some tt -> isConnected b w' = false).
Proof.
  intros Hrun.
  exact (wp_run _ _ _ _ _ Hrun
           (sendOTP_throws env identifier countryCode type w) e eq_refl).
Qed.

Lemma sendOTP_failure_cleanup_witness :
  sendOTP blocked_env (JStr "9014884219") (JStr "91") (JStr "phone") initial_world
  = (Throws (Error blocked_message),
     (sendOTP blocked_env (JStr "9014884219") (JStr "91") (JStr "phone")
        initial_world).2)
  /\ sessionCache
       (sendOTP blocked_env (JStr "9014884219") (JStr "91") (JStr "phone")
          initial_world).2
     = sessionCache initial_world.
Proof.
  assert (sendOTP blocked_env (JStr "9014884219") (JStr "91") (JStr "phone")
            initial_world
          = (Throws (Error blocked_message),
             (sendOTP blocked_env (JStr "9014884219") (JStr "91") (JStr "phone")
                initial_world).2)) as H by (vm_compute; reflexivity).
  split; [exact H|].
  exact (proj1 (sendOTP_failure_cleanup _ _ _ _ _ _ _ H)).
Defined.
Ltac catch_steps :=
  match goal with
  | H : ?x = [_] \/ ?x = [_; _] /\ _ |- _ =>
      assert (steps_of x = []) by (destruct H as [-> | [-> _]]; reflexivity)
  end.

Ltac not_in_steps H :=
  exfalso; clear -H;
  repeat (apply elem_of_cons in H as [H|H]; [discriminate H|]);
  apply elem_of_nil in H; exact H.

Lemma sendOTP_block_check env identifier countryCode type w :
  wp (sendOTP env identifier countryCode type) w
    (fun r w' =>
       let evs := events_since w w' in
       forall title,
         DetectBlockPage ∈ steps_of evs ->
         fulfilment (promise_catch (title_reply env) "Unknown") = Some title ->
         (is_access_denied title = true <-> stopped_at_block_page evs)
         /\ (is_access_denied title = true ->
             (r = Throws (Error blocked_message) \/ r = Hangs)
             /\ forall f,
                  fulfilment (_withTimeout (launchBrowser_reply env) 30000
                                "Browser launch") = Some f ->
                  close_outcome f <> NeverSettles ->
                  r = Throws (Error blocked_message))).
Proof.
  unfold sendOTP, sendOTP_try.
  wp_main.
  all: cbv zeta.
  all: try catch_steps.
  all: try events_of_trace.
  all: events_norm.
  all: unfold stopped_at_block_page.
  all: match goal with
       | |- context [steps_of ?l] =>
           let evs := fresh "evs" in
           let Hevs := fresh "Hevs" in
           remember l as evs eqn:Hevs;
           assert (exists done, steps_of evs = done) as [done Hdone] by eauto;
           rewrite Hdone;
           rewrite Hevs in Hdone; revert Hdone; rewrite <- ?app_assoc in Hevs;
           cbn [app] in Hevs
       end.
  all: steps_norm.
  all: intros <-.
  all: intros title Hreach Htitle.
  all: try (not_in_steps Hreach).
  all: try discriminate Htitle.
  all: injection Htitle as <-.
  all: match goal with H : is_access_denied _ = _ |- _ => rewrite H end.
  all: split;
    [split;
     [first [ discriminate | intros _ ]
     |first [ reflexivity
            | intros [_ Hno]; exfalso; apply Hno; subst evs;
              do 3 eexists; in_events ] ]
    |first [ discriminate | intros _ ] ].
  - split; [reflexivity|].
    intros (on & tm & vis & Hin). subst evs.
    match goal with
    | H : _ \/ _ /\ _ |- _ => destruct H as [-> | [-> _]]
    end.
    all: repeat (apply elem_of_cons in Hin as [Hin|Hin]; [discriminate Hin|]).
    all: apply elem_of_app in Hin as [Hin|Hin];
      [match goal with
       | H : Forall is_stealth_call _ |- _ =>
           rewrite Forall_forall in H; exact (H _ Hin)
       end|].
    all: repeat (apply elem_of_cons in Hin as [Hin|Hin]; [discriminate Hin|]).
    all: apply elem_of_nil in Hin; exact Hin.
  - split; [assumption|].
    intros f Hf Hclose.
    match goal with
    | H : _ = Throws _ \/ _ = Hangs |- _ => destruct H as [-> | ->]; [reflexivity|]
    end.
    exfalso.
    match goal with
    | H : Hangs = Hangs -> _ |- _ => destruct (H eq_refl) as (st & Hst & Hnever)
    end.
    cbn [browsers quietly set_browsers] in Hst.
    rewrite list_lookup_middle in Hst by reflexivity.
    injection Hst as <-. injection Hf as <-.
    exact (Hclose Hnever).
Qed.

(** C5. Once the page is loaded and its title read, [sendOTP] stops at the
    block-page check exactly when the title is [Access Denied] or contains
    [access denied] in any letter case: no later step is carried out, not
    even the search for the Login button, and the error thrown says that
    Zomato detected an automated browser and blocked access (the error
    reaches the caller unless closing the browser never completes). *)
Theorem sendOTP_access_denied (env : Env) (identifier countryCode type : jsval)
    (w : world) (title : string) :
  let out := sendOTP env identifier countryCode type w in
  let evs := events_since w out.2 in
  DetectBlockPage ∈ steps_of evs ->
  fulfilment (promise_catch (title_reply env) "Unknown") = Some title ->
  (is_access_denied title = true <-> stopped_at_block_page evs)
  /\ (is_access_denied title = true ->
      (out.1 = Throws (Error blocked_message) \/ out.1 = Hangs)
      /\ forall f,
           fulfilment (_withTimeout (launchBrowser_reply env) 30000 "Browser launch")
           = Some f ->
           close_outcome f <> NeverSettles ->
           out.1 = Throws (Error blocked_message)).
Proof. exact (sendOTP_block_check env identifier countryCode type w title). Qed.

Lemma sendOTP_access_denied_witness :
  DetectBlockPage
    ∈ steps_of (events_since initial_world
                  (sendOTP blocked_env (JStr "9014884219") (JStr "91") (JStr "phone")
                     initial_world).2)
  /\ fulfilment (promise_catch (title_reply blocked_env) "Unknown")
     = Some "Access Denied"%string
  /\ (sendOTP blocked_env (JStr "9014884219") (JStr "91") (JStr "phone")
        initial_world).1
     = Throws (Error blocked_message).
Proof.
  assert (DetectBlockPage
            ∈ steps_of (events_since initial_world
                          (sendOTP blocked_env (JStr "9014884219") (JStr "91")
                             (JStr "phone") initial_world).2)) as Hreach.
  { vm_compute. apply list_elem_of_further, list_elem_of_here. }
  split; [exact Hreach|]. split; [reflexivity|].
  exact (proj2 (proj2 (sendOTP_access_denied blocked_env (JStr "9014884219")
                         (JStr "91") (JStr "phone") initial_world "Access Denied"
                         Hreach eq_refl) eq_refl)
           steady_browser eq_refl ltac:(discriminate)).
Defined.
Lemma sendOTP_returns env identifier countryCode type w :
  wp (sendOTP env identifier countryCode type) w
    (fun r w' =>
       forall res, r = Returns res ->
         res = Result (uuidv4 env) /\ successful_run env identifier type w w').
Proof.
  unfold sendOTP, sendOTP_try.
  wp_main.
  all: intros res Hres; try discriminate Hres.
  all: try (exfalso; match goal with
                     | H : _ = Throws _ \/ _ = Hangs |- _ =>
                         destruct H; congruence
                     end).
  all: injection Hres as <-.
  all: split; [reflexivity|].
  all: unfold successful_run, path_of;
    match goal with H : strict_eq_str _ _ = _ |- _ => rewrite H end;
    cbn [input_selector].
  all: match goal with
       | Hl : _withTimeout (launchBrowser_reply _) _ _
              = SettlesAfter ?t (Fulfilled ?f),
         Hp : _withTimeout (newPage_reply _) _ _ = SettlesAfter _ (Fulfilled ?pg),
         Hq : query_reply _ (OnPage ?pg) iframeSelector = _,
         Hc : contentFrame_reply _ (Element iframeSelector ?n)
              = SettlesAfter _ (Fulfilled (Some ?fr)),
         Ht : type_reply _ (Element _ ?m) = _,
         Hk : click_reply _ (Element sendOtpButtonSelector ?k) = _ |- _ =>
           match goal with
           | w0 : world |- _ =>
               exists f, (Session (length (browsers w0)) pg fr), m, k, (clock w0 + t)
           end;
           eexists; cbv zeta; unfold handles_produced;
           rewrite Hl, Hp; cbn [fulfilment]; rewrite Hq; cbn [fulfilment]; rewrite Hc
       end.
  all: do 6 (split; [reflexivity|]).
  all: split; [cbn [clock quietly set_browsers set_sessionCache set_timers log_event]; lia|].
  all: events_norm0; rewrite snoc5; reflexivity.
Qed.

(** ** The [type] argument *)

Lemma path_of_email type : path_of type = ByEmail <-> type = JStr "email".
Proof.
  unfold path_of, strict_eq_str, default_param.
  destruct type as [| |b|n|s]; try (split; discriminate).
  destruct (decide (s = "email")) as [->|Hne].
  - split; reflexivity.
  - split; [discriminate|]. intros [= ->]. contradiction.
Qed.



(** ** What a run of [sendOTP] may change *)

Lemma sendOTP_frame env identifier countryCode type w :
  wp (sendOTP env identifier countryCode type) w
    (fun r w' =>
       clock w <= clock w'
       /\ (length (browsers w) <= length (browsers w'))%nat
       /\ ((forall res, r <> Returns res) ->
           sessionCache w' = sessionCache w /\ timers w' = timers w)).
Proof.
  unfold sendOTP, sendOTP_try.
  wp_main.
  all: repeat match goal with
              | H : sessionCache _ = _ |- _ => rewrite H
              | H : timers _ = _ |- _ => rewrite H
              | H : length (browsers _) = _ |- _ => rewrite H
              end.
  all: split;
    [repeat match goal with
            | H : clock _ <= clock _ |- _ => revert H
            end;
     cbn [clock quietly set_browsers set_sessionCache set_timers log_event]; lia|].
  all: split;
    [cbn [browsers quietly set_browsers set_sessionCache set_timers log_event];
     rewrite ?length_app; cbn [length]; lia|].
  all: first [ intros Hr; exfalso; eapply Hr; reflexivity
             | intros _; split; reflexivity ].
Qed.
(** ** The cleanup callback and the event loop *)

Lemma cleanup_callback_spec b sid W :
  let W' := (cleanup_callback b sid W).2 in
  clock W' = clock W
  /\ timers W' = timers W
  /\ length (browsers W') = length (browsers W)
  /\ (forall b', b' <> b -> browsers W' !! b' = browsers W !! b')
  /\ (forall sid', sid' <> sid -> sessionCache W' !! sid' = sessionCache W !! sid')
  /\ (forall k d, sessionCache W' !! k = Some d -> sessionCache W !! k = Some d)
  /\ (isConnected b W = true ->
      sessionCache W' = delete sid (sessionCache W)
      /\ trace W' = trace W ++ [Ev_isConnected b true; Ev_close b; Ev_cache_delete sid])
  /\ (isConnected b W = false -> W' = log_event (Ev_isConnected b false) W).
Proof.
  change (wp (cleanup_callback b sid) W
            (fun _ W' =>
               clock W' = clock W
               /\ timers W' = timers W
               /\ length (browsers W') = length (browsers W)
               /\ (forall b', b' <> b -> browsers W' !! b' = browsers W !! b')
               /\ (forall sid', sid' <> sid ->
                     sessionCache W' !! sid' = sessionCache W !! sid')
               /\ (forall k d, sessionCache W' !! k = Some d ->
                     sessionCache W !! k = Some d)
               /\ (isConnected b W = true ->
                   sessionCache W' = delete sid (sessionCache W)
                   /\ trace W' = trace W ++ [Ev_isConnected b true; Ev_close b;
                                             Ev_cache_delete sid])
               /\ (isConnected b W = false ->
                   W' = log_event (Ev_isConnected b false) W))).
  wp_go.
  all: cbn [clock timers browsers sessionCache trace log_event set_sessionCache
            mark_closed set_browsers].
  all: repeat match goal with
              | H : isConnected _ _ = _ |- _ => rewrite H
              end.
  all: split; [reflexivity|].
  all: split; [reflexivity|].
  all: split; [rewrite ?length_alter; reflexivity|].
  all: split; [intros b' Hb'; rewrite ?list_lookup_alter_ne by congruence; reflexivity|].
  all: split; [intros sid' Hs'; rewrite ?lookup_delete_ne by congruence; reflexivity|].
  all: split;
    [intros k d; rewrite ?lookup_delete_Some; first [ intros [_ Hk]; exact Hk | exact id ]|].
  all: split;
    [first [ discriminate
           | intros _; split; [reflexivity|rewrite <- !app_assoc; reflexivity] ]|].
  all: first [ discriminate | intros _; reflexivity ].
Qed.
Lemma isConnected_depends b W1 W2 :
  browsers W1 !! b = browsers W2 !! b -> clock W1 = clock W2 ->
  isConnected b W1 = isConnected b W2.
Proof. unfold isConnected. intros -> ->. reflexivity. Qed.

(** What any due callback preserves. *)
Lemma fire_facts W t :
  clock (fire W t) = N.max (clock W) (due t)
  /\ timers (fire W t) = timers W
  /\ length (browsers (fire W t)) = length (browsers W)
  /\ (forall b, b <> timer_browser t -> browsers (fire W t) !! b = browsers W !! b)
  /\ (forall sid, sid <> timer_sessionId t ->
        sessionCache (fire W t) !! sid = sessionCache W !! sid)
  /\ (forall k d, sessionCache (fire W t) !! k = Some d -> sessionCache W !! k = Some d)
  /\ extends W (fire W t).
Proof.
  unfold fire.
  destruct (cleanup_callback_spec (timer_browser t) (timer_sessionId t)
              (set_clock (N.max (clock W) (due t)) W))
    as (Hc & Ht & Hl & Hb & Hs & Hsub & Hconn & Hdis).
  do 6 (split; [assumption|]).
  destruct (isConnected (timer_browser t) (set_clock (N.max (clock W) (due t)) W)) eqn:E.
  - destruct (Hconn eq_refl) as [_ Htr]. eexists. exact Htr.
  - rewrite (Hdis eq_refl). eexists. reflexivity.
Qed.

Lemma extends_trans w1 w2 w3 : extends w1 w2 -> extends w2 w3 -> extends w1 w3.
Proof. intros H [evs He]. eapply extends_trace; eassumption. Qed.

Lemma fold_fire_facts ts :
  forall W,
    let W' := foldl fire W ts in
    clock W <= clock W'
    /\ timers W' = timers W
    /\ length (browsers W') = length (browsers W)
    /\ (forall k d, sessionCache W' !! k = Some d -> sessionCache W !! k = Some d)
    /\ extends W W'.
Proof.
  induction ts as [|t ts IH]; intros W; cbn [foldl]; cbv zeta.
  - split; [lia|]. split; [reflexivity|]. split; [reflexivity|].
    split; [auto|apply extends_refl].
  - destruct (fire_facts W t) as (Hc & Ht & Hl & _ & _ & Hsub & He).
    destruct (IH (fire W t)) as (Hc' & Ht' & Hl' & Hsub' & He').
    split; [lia|]. split; [congruence|]. split; [congruence|].
    split; [intros k d Hk; apply Hsub, Hsub', Hk|].
    eapply extends_trans; eassumption.
Qed.

(** Callbacks of other sessions, on other browsers, leave the entry [sid]
    and the browser [b] alone. *)
Lemma fold_fire_foreign b sid D ts :
  forall W,
    (forall t, t ∈ ts ->
       timer_browser t <> b /\ timer_sessionId t <> sid /\ due t <= D) ->
    clock W <= D ->
    let W' := foldl fire W ts in
    sessionCache W' !! sid = sessionCache W !! sid
    /\ browsers W' !! b = browsers W !! b
    /\ clock W' <= D.
Proof.
  induction ts as [|t ts IH]; intros W Hts HD; cbn [foldl]; cbv zeta.
  - split; [reflexivity|]. split; [reflexivity|assumption].
  - destruct (Hts t ltac:(left)) as (Hb & Hs & Hd).
    destruct (fire_facts W t) as (Hc & _ & _ & Hbr & Hca & _ & _).
    destruct (IH (fire W t)) as (H1 & H2 & H3).
    { intros t' Ht'. apply Hts. right. exact Ht'. }
    { lia. }
    split; [rewrite H1; apply Hca; congruence|].
    split; [rewrite H2; apply Hbr; congruence|exact H3].
Qed.

Lemma elapse_facts dt w :
  clock (elapse dt w) = clock w + dt
  /\ timers (elapse dt w) = filter (fun t => ¬ due t <= clock w + dt) (timers w)
  /\ length (browsers (elapse dt w)) = length (browsers w)
  /\ (forall k d, sessionCache (elapse dt w) !! k = Some d -> sessionCache w !! k = Some d)
  /\ extends w (elapse dt w).
Proof.
  unfold elapse.
  destruct (fold_fire_facts (filter (fun t => due t <= clock w + dt) (timers w))
              (set_timers (filter (fun t => ¬ due t <= clock w + dt) (timers w)) w))
    as (Hc & Ht & Hl & Hsub & He).
  split; [reflexivity|]. split; [exact Ht|]. split; [exact Hl|].
  split; [exact Hsub|].
  destruct He as [evs He]. exists evs. exact He.
Qed.
(** ** Histories of the process *)

Lemma run_snoc h a : run (h ++ [a]) = perform (run h) a.
Proof. unfold run. rewrite foldl_app. reflexivity. Qed.

Lemma generated_uuids_snoc h a :
  generated_uuids (h ++ [a])
  = generated_uuids h ++ match a with
                         | Call env _ _ _ => [uuidv4 env]
                         | Elapse _ => []
                         end.
Proof. unfold generated_uuids. rewrite omap_app. destruct a; reflexivity. Qed.

(** How one request changes the world. *)
Lemma sendOTP_outcome env identifier countryCode type w :
  let out := sendOTP env identifier countryCode type w in
  clock w <= clock out.2
  /\ (length (browsers w) <= length (browsers out.2))%nat
  /\ ((exists res, out.1 = Returns res /\ res = Result (uuidv4 env)
                   /\ successful_run env identifier type w out.2)
      \/ ((forall res, out.1 <> Returns res)
          /\ sessionCache out.2 = sessionCache w /\ timers out.2 = timers w)).
Proof.
  cbv zeta.
  destruct (sendOTP_frame env identifier countryCode type w) as (Hc & Hl & Hf).
  split; [exact Hc|]. split; [exact Hl|].
  pose proof (sendOTP_returns env identifier countryCode type w) as Hret.
  unfold wp in Hret.
  destruct ((sendOTP env identifier countryCode type w).1) as [res| |] eqn:E.
  - left. exists res. destruct (Hret res eq_refl) as [-> Hs].
    split; [reflexivity|]. split; [reflexivity|exact Hs].
  - right. split; [discriminate|]. apply Hf. discriminate.
  - right. split; [discriminate|]. apply Hf. discriminate.
Qed.

(** Every pending timer belongs to a browser that exists, was scheduled at
    most five minutes ahead, and carries an identifier generated before. *)
Lemma run_timers h :
  forall t, t ∈ timers (run h) ->
    (timer_browser t < length (browsers (run h)))%nat
    /\ due t <= clock (run h) + 300000
    /\ timer_sessionId t ∈ generated_uuids h.
Proof.
  induction h as [|a h IH] using rev_ind; intros t Ht.
  - apply elem_of_nil in Ht. destruct Ht.
  - rewrite run_snoc in *. rewrite generated_uuids_snoc.
    destruct a as [env identifier countryCode type|dt]; cbn [perform] in *.
    + destruct (sendOTP_outcome env identifier countryCode type (run h))
        as (Hc & Hl & [(res & _ & _ & Hs)|(_ & _ & Htm)]).
      * destruct Hs as (f & d & m & k & launched & pre & Hs). cbv zeta in Hs.
        destruct Hs as (_ & _ & _ & _ & Htm & Hbr & _ & _).
        rewrite Htm in Ht. rewrite Hbr, length_app. cbn [length].
        apply elem_of_app in Ht as [Ht|Ht].
        -- destruct (IH t Ht) as (H1 & H2 & H3).
           split; [lia|]. split; [lia|]. apply elem_of_app. left. exact H3.
        -- apply list_elem_of_singleton in Ht. subst t. cbn.
           split; [lia|]. split; [lia|]. apply elem_of_app. right. left.
      * rewrite Htm in Ht. destruct (IH t Ht) as (H1 & H2 & H3).
        split; [lia|]. split; [lia|]. apply elem_of_app. left. exact H3.
    + destruct (elapse_facts dt (run h)) as (Hc & Htm & Hl & _ & _).
      rewrite Htm in Ht. apply list_elem_of_filter in Ht as [_ Ht].
      destruct (IH t Ht) as (H1 & H2 & H3).
      rewrite Hc, Hl, app_nil_r. split; [lia|]. split; [lia|exact H3].
Qed.

(** Every entry of the cache was stored by a call of the history that
    returned its key, with the handles that call produced. *)
Lemma entry_origin h :
  forall k d,
    sessionCache (run h) !! k = Some d ->
    exists h1 env identifier countryCode type h2,
      h = h1 ++ Call env identifier countryCode type :: h2
      /\ k = uuidv4 env
      /\ (sendOTP env identifier countryCode type (run h1)).1 = Returns (Result k)
      /\ handles_produced env (run h1) = Some d.
Proof.
  induction h as [|a h IH] using rev_ind; intros k d Hk.
  - change (sessionCache (run [])) with (∅ : gmap string sessionData) in Hk.
    rewrite lookup_empty in Hk. discriminate Hk.
  - rewrite run_snoc in Hk.
    assert (sessionCache (run h) !! k = Some d ->
            exists h1 env identifier countryCode type h2,
              h ++ [a] = h1 ++ Call env identifier countryCode type :: h2
              /\ k = uuidv4 env
              /\ (sendOTP env identifier countryCode type (run h1)).1
                 = Returns (Result k)
              /\ handles_produced env (run h1) = Some d) as Hold.
    { intros Hk'.
      destruct (IH k d Hk') as (h1 & env & i & c & ty & h2 & -> & H).
      exists h1, env, i, c, ty, (h2 ++ [a]).
      split; [rewrite <- app_assoc; reflexivity|exact H]. }
    destruct a as [env identifier countryCode type|dt]; cbn [perform] in Hk.
    + destruct (sendOTP_outcome env identifier countryCode type (run h))
        as (_ & _ & [(res & Hres & -> & Hs)|(_ & Hca & _)]).
      * destruct Hs as (f & d' & m & k' & launched & pre & Hs). cbv zeta in Hs.
        destruct Hs as (_ & Hprod & _ & Hca & _).
        rewrite Hca in Hk.
        destruct (decide (k = uuidv4 env)) as [->|Hne].
        -- rewrite lookup_insert_eq in Hk. injection Hk as <-.
           exists h, env, identifier, countryCode, type, [].
           split; [reflexivity|]. split; [reflexivity|]. split; assumption.
        -- rewrite lookup_insert_ne in Hk by congruence. exact (Hold Hk).
      * rewrite Hca in Hk. exact (Hold Hk).
    + destruct (elapse_facts dt (run h)) as (_ & _ & _ & Hsub & _).
      exact (Hold (Hsub k d Hk)).
Qed.

Lemma cache_keys_generated h k d :
  sessionCache (run h) !! k = Some d -> k ∈ generated_uuids h.
Proof.
  intros Hk.
  destruct (entry_origin h k d Hk) as (h1 & env & i & c & ty & h2 & -> & -> & _).
  unfold generated_uuids. rewrite omap_app. apply elem_of_app. right. left.
Qed.
(** ** The deferred cleanup of a stored session *)

Section Cleanup.
Variables (w w' : world) (b : Browser) (sid : string).
Hypothesis Hforeign :
  forall t, t ∈ timers w ->
    timer_browser t <> b /\ timer_sessionId t <> sid
    /\ due t <= clock w' + 300000.
Hypothesis Htimers : timers w' = timers w ++ [Timer (clock w' + 300000) b sid].

Lemma due_timers_early dt :
  dt < 300000 ->
  filter (fun t => due t <= clock w' + dt) (timers w')
  = filter (fun t => due t <= clock w' + dt) (timers w).
Proof.
  intros Hdt. rewrite Htimers, filter_app.
  rewrite (filter_cons_False _ _ []) by (cbn; lia).
  apply app_nil_r.
Qed.

Lemma due_timers_late dt :
  300000 <= dt ->
  filter (fun t => due t <= clock w' + dt) (timers w')
  = filter (fun t => due t <= clock w' + dt) (timers w)
    ++ [Timer (clock w' + 300000) b sid].
Proof.
  intros Hdt. rewrite Htimers, filter_app.
  rewrite (filter_cons_True _ _ []) by (cbn; lia).
  reflexivity.
Qed.

Lemma foreign_due dt t :
  t ∈ filter (fun t => due t <= clock w' + dt) (timers w) ->
  timer_browser t <> b /\ timer_sessionId t <> sid /\ due t <= clock w' + 300000.
Proof. intros Ht. apply list_elem_of_filter in Ht as [_ Ht]. apply Hforeign, Ht. Qed.

(** Before the five minutes are over the entry is still there. *)
Lemma elapse_early dt :
  dt < 300000 ->
  sessionCache (elapse dt w') !! sid = sessionCache w' !! sid.
Proof.
  intros Hdt. unfold elapse. rewrite (due_timers_early dt Hdt).
  cbn [sessionCache set_clock].
  destruct (fold_fire_foreign b sid (clock w' + 300000)
              (filter (fun t => due t <= clock w' + dt) (timers w))
              (set_timers (filter (fun t => ¬ due t <= clock w' + dt) (timers w')) w')
              (foreign_due dt)) as (Hc & _ & _).
  { cbn. lia. }
  exact Hc.
Qed.

(** Once they are over the callback has run, in a world that agrees with
    [w'] on the entry and on the browser, at the due time. *)
Lemma elapse_late dt :
  300000 <= dt ->
  exists W,
    elapse dt w'
    = set_clock (clock w' + dt)
        (cleanup_callback b sid (set_clock (clock w' + 300000) W)).2
    /\ sessionCache W !! sid = sessionCache w' !! sid
    /\ browsers W !! b = browsers w' !! b
    /\ extends w' W.
Proof.
  intros Hdt. unfold elapse. rewrite (due_timers_late dt Hdt), foldl_app.
  cbn [foldl].
  set (W0 := set_timers (filter (fun t => ¬ due t <= clock w' + dt) (timers w')) w').
  set (A := filter (fun t => due t <= clock w' + dt) (timers w)).
  destruct (fold_fire_foreign b sid (clock w' + 300000) A W0 (foreign_due dt))
    as (Hc & Hb & Hd).
  { cbn. lia. }
  destruct (fold_fire_facts A W0) as (_ & _ & _ & _ & He).
  exists (foldl fire W0 A).
  split; [|split; [exact Hc|split; [exact Hb|]]].
  - unfold fire at 1. cbn [due timer_browser timer_sessionId].
    rewrite N.max_r by exact Hd. reflexivity.
  - destruct He as [evs He]. exists evs. exact He.
Qed.

Lemma elapse_late_timers dt t :
  300000 <= dt -> t ∈ timers (elapse dt w') -> timer_sessionId t <> sid.
Proof.
  intros Hdt Ht.
  destruct (elapse_facts dt w') as (_ & Htm & _).
  rewrite Htm, Htimers, filter_app in Ht.
  rewrite (filter_cons_False _ _ []) in Ht by (cbn; lia).
  rewrite app_nil_r in Ht. apply list_elem_of_filter in Ht as [_ Ht].
  apply Hforeign, Ht.
Qed.
End Cleanup.
(** C7. Every entry of the session cache maps the identifier generated for
    a call of [sendOTP] that returned it to the browser, page and frame
    which that call obtained, so the cache holds nothing else; and a later
    call, whose identifier is freshly generated, leaves every existing
    entry as it is. *)
Theorem session_cache_entries (history : list action) :
  (forall k d,
     sessionCache (run history) !! k = Some d ->
     exists h1 env identifier countryCode type h2,
       history = h1 ++ Call env identifier countryCode type :: h2
       /\ k = uuidv4 env
       /\ (sendOTP env identifier countryCode type (run h1)).1 = Returns (Result k)
       /\ handles_produced env (run h1) = Some d)
  /\ (forall env identifier countryCode type k d,
        uuidv4 env ∉ generated_uuids history ->
        sessionCache (run history) !! k = Some d ->
        sessionCache (run (history ++ [Call env identifier countryCode type])) !! k
        = Some d).
Proof.
  split; [apply entry_origin|].
  intros env identifier countryCode type k d Hfresh Hk.
  assert (k <> uuidv4 env) as Hne.
  { intros ->. apply Hfresh. eapply cache_keys_generated, Hk. }
  rewrite run_snoc. cbn [perform].
  destruct (sendOTP_outcome env identifier countryCode type (run history))
    as (_ & _ & [(res & _ & _ & Hs)|(_ & Hca & _)]).
  - destruct Hs as (f & d' & m & k' & launched & pre & Hs). cbv zeta in Hs.
    destruct Hs as (_ & _ & _ & Hca & _).
    rewrite Hca, lookup_insert_ne by congruence. exact Hk.
  - rewrite Hca. exact Hk.
Qed.

Lemma session_cache_entries_witness :
  sessionCache (run [Call happy_env (JStr "9014884219") (JStr "91") (JStr "phone")])
  !! sample_uuid = Some (Session 0%nat 7%nat 3%nat)
  /\ exists h1 env identifier countryCode type h2,
       [Call happy_env (JStr "9014884219") (JStr "91") (JStr "phone")]
       = h1 ++ Call env identifier countryCode type :: h2
       /\ sample_uuid = uuidv4 env
       /\ (sendOTP env identifier countryCode type (run h1)).1
          = Returns (Result sample_uuid)
       /\ handles_produced env (run h1) = Some (Session 0%nat 7%nat 3%nat).
Proof.
  assert (sessionCache
            (run [Call happy_env (JStr "9014884219") (JStr "91") (JStr "phone")])
          !! sample_uuid = Some (Session 0%nat 7%nat 3%nat)) as H
    by (vm_compute; reflexivity).
  split; [exact H|].
  exact (proj1 (session_cache_entries
                  [Call happy_env (JStr "9014884219") (JStr "91") (JStr "phone")])
           sample_uuid (Session 0%nat 7%nat 3%nat) H).
Defined.

Example session_cache_after_one_call :
  sessionCache (run [Call happy_env (JStr "9014884219") (JStr "91") (JStr "phone")])
  = {[ sample_uuid := Session 0%nat 7%nat 3%nat ]}.
Proof. vm_compute. reflexivity. Qed.

(** C1 (as amended). A successful [sendOTP] stores the session and schedules
    its cleanup for exactly five minutes (300000 ms) later.  Until then the
    entry stays in the cache.  When the callback runs and finds the browser
    still connected, it closes the browser and removes the entry; when it
    finds the browser disconnected it does nothing, the entry stays, and no
    timer is left that would remove it. *)
Theorem cleanup_after_five_minutes (history : list action) (env : Env)
    (identifier countryCode type : jsval) (res : SendOTPResult) (dt : N) :
  let w := run history in
  let out := sendOTP env identifier countryCode type w in
  let w' := out.2 in
  let sid := uuidv4 env in
  let b := length (browsers w) in
  out.1 = Returns res ->
  sid ∉ generated_uuids history ->
  sessionId res = sid
  /\ is_Some (sessionCache w' !! sid)
  /\ Timer (clock w' + 300000) b sid ∈ timers w'
  /\ (dt < 300000 -> sessionCache (elapse dt w') !! sid = sessionCache w' !! sid)
  /\ (300000 <= dt ->
      if isConnected b (set_clock (clock w' + 300000) w')
      then sessionCache (elapse dt w') !! sid = None
           /\ exists pre,
                events_since w' (elapse dt w')
                = pre ++ [Ev_isConnected b true; Ev_close b; Ev_cache_delete sid]
      else sessionCache (elapse dt w') !! sid = sessionCache w' !! sid
           /\ forall t, t ∈ timers (elapse dt w') -> timer_sessionId t <> sid).
Proof.
  intros w out w' sid b Hres Hfresh.
  destruct (sendOTP_outcome env identifier countryCode type w)
    as (Hclk & _ & [(res' & Hres' & -> & Hs)|(Hno & _)]);
    [|exfalso; exact (Hno res Hres)].
  fold out in Hres', Hs, Hclk. fold w' in Hs, Hclk.
  rewrite Hres in Hres'. injection Hres' as ->.
  destruct Hs as (f & d & m & k & launched & pre & Hs). cbv zeta in Hs.
  destruct Hs as (_ & _ & _ & Hca & Htm & Hbr & _ & _).
  fold sid b in Hca, Htm.
  assert (forall t, t ∈ timers w ->
            timer_browser t <> b /\ timer_sessionId t <> sid
            /\ due t <= clock w' + 300000) as Hforeign.
  { intros t Ht. destruct (run_timers history t Ht) as (H1 & H2 & H3).
    fold w in H1, H2. fold b in H1.
    split; [lia|]. split; [|lia]. intros Heq. apply Hfresh. rewrite <- Heq. exact H3. }
  split; [reflexivity|].
  split; [rewrite Hca, lookup_insert_eq; eexists; reflexivity|].
  split; [rewrite Htm; apply elem_of_app; right; left|].
  split; [apply (elapse_early w w' b sid Hforeign Htm)|].
  intros Hdt.
  pose proof (fun t => elapse_late_timers w w' b sid Hforeign Htm dt t Hdt) as Hgone.
  destruct (elapse_late w w' b sid Hforeign Htm dt Hdt) as (W & HW & HcW & HbW & HeW).
  rewrite HW in *. clear HW.
  assert (isConnected b (set_clock (clock w' + 300000) W)
          = isConnected b (set_clock (clock w' + 300000) w')) as Hconn.
  { apply isConnected_depends; [exact HbW|reflexivity]. }
  rewrite <- Hconn.
  destruct (cleanup_callback_spec b sid (set_clock (clock w' + 300000) W))
    as (_ & _ & _ & _ & _ & _ & Hyes & Hnot).
  destruct (isConnected b (set_clock (clock w' + 300000) W)) eqn:E.
  - destruct (Hyes eq_refl) as [Hdel Htr]. split.
    + cbn [sessionCache set_clock]. rewrite Hdel. apply lookup_delete_eq.
    + destruct HeW as [evs HeW]. exists evs.
      rewrite events_since_set_clock.
      rewrite (events_since_extend w' (set_clock (clock w' + 300000) W) _ _
                 (ex_intro _ evs HeW) Htr).
      rewrite events_since_set_clock, (events_since_app _ _ _ HeW). reflexivity.
  - split; [|exact Hgone].
    rewrite (Hnot eq_refl). exact HcW.
Qed.
Lemma cleanup_after_five_minutes_witness :
  (sendOTP happy_env (JStr "9014884219") (JStr "91") (JStr "phone") (run [])).1
  = Returns (Result sample_uuid)
  /\ (sample_uuid ∉ generated_uuids [])
  /\ sessionCache
       (elapse 300000
          (sendOTP happy_env (JStr "9014884219") (JStr "91") (JStr "phone") (run [])).2)
     !! sample_uuid = None.
Proof.
  assert ((sendOTP happy_env (JStr "9014884219") (JStr "91") (JStr "phone") (run [])).1
          = Returns (Result sample_uuid)) as H1 by (vm_compute; reflexivity).
  assert (sample_uuid ∉ generated_uuids []) as H2 by (intros H; inversion H).
  split; [exact H1|]. split; [exact H2|].
  pose proof (proj2 (proj2 (proj2 (proj2
    (cleanup_after_five_minutes [] happy_env (JStr "9014884219") (JStr "91")
       (JStr "phone") (Result sample_uuid) 300000 H1 H2)))) ltac:(lia)) as H.
  assert (isConnected (length (browsers (run [])))
            (set_clock
               (clock (sendOTP happy_env (JStr "9014884219") (JStr "91")
                         (JStr "phone") (run [])).2 + 300000)
               (sendOTP happy_env (JStr "9014884219") (JStr "91") (JStr "phone")
                  (run [])).2) = true) as E by (vm_compute; reflexivity).
  rewrite E in H. exact (proj1 H).
Defined.

(** C1, counterexample. The browser launched for the session drops its
    connection after 100 s.  The call succeeds; when the callback runs five
    minutes after the session was stored it finds the browser disconnected,
    so the entry is still in the cache, no timer is left, and the entry is
    still there a day later. *)
Lemma session_survives_disconnected_browser :
  let call := sendOTP dropping_env (JStr "9014884219") (JStr "91") (JStr "phone")
                initial_world in
  call.1 = Returns (Result sample_uuid)
  /\ sessionCache (elapse 300000 call.2) !! sample_uuid
     = Some (Session 0%nat 7%nat 3%nat)
  /\ events_since call.2 (elapse 300000 call.2) = [Ev_isConnected 0%nat false]
  /\ timers (elapse 300000 call.2) = []
  /\ sessionCache (elapse 86400000 call.2) !! sample_uuid
     = Some (Session 0%nat 7%nat 3%nat).
Proof. vm_compute. repeat split. Qed.
(** ** The handler *)

(** C9 (as amended). When [sendOTP] throws, the handler answers with status
    403 if the message of the error contains [detected automated browser]
    and with status 500 otherwise; the body has [success: false] and, as
    [error], the message of the error, or [Failed to send OTP] when that
    message is empty. *)
Theorem handler_error_response (JSON_parse : string -> settlement parsed_json)
    (env : Env) (event : HandlerEvent) (fields : gmap string jsval)
    (w w' : world) (e : error) :
  httpMethod event = "POST" ->
  JSON_parse (or_else (default EmptyString (event_body event)) "{}")
  = Fulfilled (PObject fields) ->
  falsy (property fields "identifier") = false ->
  sendOTP env (property fields "identifier") (property fields "countryCode")
    (default_param (property fields "type") (JStr "phone")) w = (Throws e, w') ->
  exists resp,
    handler JSON_parse env event w = (Returns resp, w')
    /\ (statusCode resp = 403
        <-> includes (message e) "detected automated browser" = true)
    /\ (statusCode resp = 500
        <-> includes (message e) "detected automated browser" = false)
    /\ headers resp = cors_headers
    /\ body resp
       = JSON_stringify
           (J_object [("success", J_bool false);
                      ("error",
                       J_string (if decide (message e = EmptyString)
                                 then "Failed to send OTP"
                                 else message e))]%string).
Proof.
  intros Hpost Hparse Htruthy Hthrows.
  unfold handler. rewrite Hpost.
  destruct (decide ("POST" = "OPTIONS")) as [Hd|_]; [discriminate Hd|].
  destruct (decide ("POST" <> "POST")) as [Hd|_]; [destruct Hd; reflexivity|].
  unfold try_catch, bind at 1. rewrite Hparse. cbn [sync ret].
  unfold bind at 1. cbn [destructure_body ret]. rewrite Htruthy.
  unfold bind at 1. rewrite Hthrows.
  eexists. split; [reflexivity|].
  cbn [statusCode headers body error_response].
  destruct (includes (message e) "detected automated browser").
  - split; [split; reflexivity|]. split; [split; discriminate|].
    split; reflexivity.
  - split; [split; discriminate|]. split; [split; reflexivity|].
    split; reflexivity.
Qed.

Lemma handler_error_response_witness :
  httpMethod sample_event = "POST"
  /\ sample_parse (or_else (default EmptyString (event_body sample_event)) "{}")
     = Fulfilled (PObject (<["identifier" := JStr "9014884219"]> ∅))
  /\ (exists resp,
        handler sample_parse blocked_env sample_event initial_world
        = (Returns resp,
           (sendOTP blocked_env (JStr "9014884219") JUndefined (JStr "phone")
              initial_world).2)
        /\ statusCode resp = 403).
Proof.
  split; [reflexivity|]. split; [reflexivity|].
  destruct (handler_error_response sample_parse blocked_env sample_event
              (<["identifier" := JStr "9014884219"]> ∅) initial_world
              (sendOTP blocked_env (JStr "9014884219") JUndefined (JStr "phone")
                 initial_world).2
              (Error blocked_message) eq_refl eq_refl eq_refl
              ltac:(vm_compute; reflexivity))
    as (resp & Hrun & H403 & _).
  exists resp. split; [exact Hrun|].
  apply H403. vm_compute. reflexivity.
Defined.

(** C9, counterexample. The launch fails with an error whose message is
    empty: the handler answers 500, and the [error] of the body is
    [Failed to send OTP], not the (empty) message of the error. *)
Lemma handler_empty_message :
  (sendOTP silent_failure_env (JStr "9014884219") JUndefined (JStr "phone")
     initial_world).1
  = Throws (Error EmptyString)
  /\ (handler sample_parse silent_failure_env sample_event initial_world).1
     = Returns (error_response 500 "Failed to send OTP")
  /\ error_response 500 "Failed to send OTP"
     <> error_response 500 (message (Error EmptyString)).
Proof. split; [vm_compute; reflexivity|]. split; [vm_compute; reflexivity|discriminate]. Qed.
(** * Further properties *)

(** ** Timeouts compose *)

(** X1. Whatever [p] does, [_withTimeout(p, timeoutMs, name)] has settled
    once its timer has fired, that is after [timeoutMs] milliseconds for a
    [timeoutMs] from 1 to 2147483647 and after one millisecond for any
    other.  A value it yields is the value of [p], obtained by then; an
    error it yields is the error of [p], obtained by then, or else the
    timeout error. *)
Theorem withTimeout_bounded {A} (p : promise A) (timeoutMs : N) (operationName : string) :
  let q := _withTimeout p timeoutMs operationName in
  let timer := setTimeout_delay timeoutMs in
  settles_within q timer = true
  /\ (1 <= timeoutMs <= 2147483647 -> settles_within q timeoutMs = true)
  /\ (timeoutMs < 1 \/ 2147483647 < timeoutMs -> settles_within q 1 = true)
  /\ (forall v, fulfilment q = Some v ->
        fulfilment p = Some v /\ settles_within p timer = true)
  /\ (forall e, rejection q = Some e ->
        (rejection p = Some e /\ settles_within p timer = true)
        \/ e = Error (operationName +:+ " timed out after "
                      +:+ pretty timeoutMs +:+ "ms")).
Proof.
  cbv zeta.
  assert (Hq : settles_within (_withTimeout p timeoutMs operationName)
                 (setTimeout_delay timeoutMs) = true).
  { rewrite withTimeout_unfold. destruct p as [t s|]; simpl.
    - destruct (N.leb_spec t (setTimeout_delay timeoutMs)) as [Hle|Hlt]; simpl.
      + apply N.leb_le, Hle.
      + apply N.leb_refl.
    - apply N.leb_refl. }
  split; [exact Hq|].
  split; [intros Hr; rewrite (setTimeout_delay_range _ Hr) in Hq; exact Hq|].
  split; [intros Hr; rewrite (setTimeout_delay_clamped _ Hr) in Hq; exact Hq|].
  rewrite withTimeout_unfold. destruct p as [t s|]; simpl.
  - destruct (N.leb_spec t (setTimeout_delay timeoutMs)) as [Hle|Hlt]; simpl.
    + split.
      * intros v Hv. split; [exact Hv|reflexivity].
      * intros e He. left. split; [exact He|reflexivity].
    + split; [discriminate|]. intros e [= <-]. right. reflexivity.
  - split; [discriminate|]. intros e [= <-]. right. reflexivity.
Qed.

(** X2. A timeout around a timeout is the one whose timer fires first:
    the inner one when its timer is not the later (also when both fire in
    the same millisecond, the inner timer being the older), the outer one
    otherwise.  The timers are those of Node, so that a limit beyond
    2147483647 ms makes the earliest timer of all. *)
Theorem withTimeout_nested {A} (p : promise A) (a b : N) (inner outer : string) :
  _withTimeout (_withTimeout p a inner) b outer
  = if setTimeout_delay a <=? setTimeout_delay b
    then _withTimeout p a inner
    else _withTimeout p b outer.
Proof.
  rewrite (withTimeout_unfold (_withTimeout p a inner)).
  rewrite !(withTimeout_unfold p).
  set (da := setTimeout_delay a). set (db := setTimeout_delay b).
  destruct p as [t s|].
  - destruct (N.leb_spec t da) as [Hta|Hta];
      destruct (N.leb_spec da db) as [Hab|Hab];
      destruct (N.leb_spec t db) as [Htb|Htb]; try reflexivity; try lia.
  - destruct (N.leb_spec da db) as [Hab|Hab]; reflexivity.
Qed.

(** A limit of 2147483648 ms around one of five seconds, and the other
    way round: both times the timer of the larger limit fires first. *)
Example withTimeout_nested_beyond_range :
  _withTimeout (_withTimeout (@NeverSettles unit) 2147483648 "inner") 5000 "outer"
  = SettlesAfter 1 (Rejected (Error "inner timed out after 2147483648ms"))
  /\ _withTimeout (_withTimeout (@NeverSettles unit) 5000 "inner") 2147483648 "outer"
     = SettlesAfter 1 (Rejected (Error "outer timed out after 2147483648ms")).
Proof. split; vm_compute; reflexivity. Qed.

(** ** Launch options *)

Lemma truthy_string_spec v :
  truthy_string v = true <-> exists s, v = Some s /\ s <> EmptyString.
Proof.
  unfold truthy_string. destruct v as [s|].
  - destruct (decide (s = EmptyString)) as [->|Hs].
    + split; [discriminate|]. intros (s' & [= <-] & Hs'). contradiction.
    + split; [|reflexivity]. intros _. exists s. split; [reflexivity|exact Hs].
  - split; [discriminate|]. intros (s & Hs & _). discriminate Hs.
Qed.

Lemma getBrowserLaunchOptions_no_rejection penv chromium :
  rejection (_getBrowserLaunchOptions penv chromium) = None.
Proof.
  unfold _getBrowserLaunchOptions.
  destruct chromium as [c|]; simpl; [|reflexivity].
  destruct (_ || _); simpl; [|reflexivity].
  destruct (chromium_executablePath c) as [t [path|e]|]; reflexivity.
Qed.

(** X3. [_getBrowserLaunchOptions] never rejects, and falls back to the
    default options whenever the executable path cannot be had: when
    [executablePath()] is rejected, or is fulfilled with nothing or with
    the empty string, and when the Chromium module was not loaded, the
    result is exactly the default options (headless, 1920 x 1080, no
    executable named).  Whatever it yields carries the base arguments,
    [--no-sandbox] among them, and ignores HTTPS errors; without an
    executable path the options are the default ones.  It fails to settle
    only while [executablePath()] does. *)
Theorem getBrowserLaunchOptions_fallback (penv : ProcessEnv) (chromium : option Chromium) :
  let p := _getBrowserLaunchOptions penv chromium in
  rejection p = None
  /\ (forall c t s,
        chromium = Some c ->
        chromium_executablePath c = SettlesAfter t s ->
        (forall path, s = Fulfilled (Some path) -> path = EmptyString) ->
        exists t', t' <= t /\ p = SettlesAfter t' (Fulfilled default_launch_options))
  /\ (chromium = None -> p = SettlesAfter 0 (Fulfilled default_launch_options))
  /\ (forall opts, fulfilment p = Some opts ->
        args opts = baseArgs
        /\ "--no-sandbox"%string ∈ args opts
        /\ ignoreHTTPSErrors opts = true
        /\ (executablePath opts = None -> opts = default_launch_options))
  /\ (p = NeverSettles ->
      exists c, chromium = Some c /\ chromium_executablePath c = NeverSettles).
Proof.
  cbv zeta.
  split; [apply getBrowserLaunchOptions_no_rejection|].
  split.
  { intros c t s -> Hp Hs. unfold _getBrowserLaunchOptions.
    destruct (_ || _); [|exists 0; split; [lia|reflexivity]].
    rewrite Hp. exists t. split; [lia|].
    destruct s as [[path|]|e]; simpl; try reflexivity.
    rewrite (Hs path eq_refl). reflexivity. }
  split; [intros ->; reflexivity|].
  unfold _getBrowserLaunchOptions.
  assert (Hbase : "--no-sandbox"%string ∈ baseArgs)
    by (unfold baseArgs; do 2 apply list_elem_of_further; apply list_elem_of_here).
  destruct chromium as [c|]; simpl.
  - destruct (_ || _); simpl.
    + destruct (chromium_executablePath c) as [t [path|e]|] eqn:Hp; simpl.
      * split; [|discriminate].
        intros opts [= <-]. destruct (truthy_string path); simpl.
        -- repeat split; [exact Hbase|discriminate].
        -- repeat split; exact Hbase.
      * split; [|discriminate].
        intros opts [= <-]. repeat split; exact Hbase.
      * split; [discriminate|].
        intros _. exists c. split; [reflexivity|exact Hp].
    + split; [|discriminate].
      intros opts [= <-]. repeat split; exact Hbase.
  - split; [|discriminate].
    intros opts [= <-]. repeat split; exact Hbase.
Qed.

(** X4. The options name an executable exactly when the process runs in a
    serverless environment (one of the three variables is set and not
    empty), the Chromium module was loaded, and its [executablePath()]
    was fulfilled with a non-empty path; that path is the one passed on.
    Elsewhere the default options are ready at once, whatever the module
    would answer. *)
Theorem getBrowserLaunchOptions_executable (penv : ProcessEnv) (chromium : option Chromium) :
  let p := _getBrowserLaunchOptions penv chromium in
  let isLambda :=
    truthy_string (LAMBDA_TASK_ROOT penv) || truthy_string (AWS_EXECUTION_ENV penv)
    || truthy_string (NETLIFY penv) in
  (forall opts path,
     fulfilment p = Some opts ->
     (executablePath opts = Some path
      <-> isLambda = true
          /\ path <> EmptyString
          /\ exists c, chromium = Some c
                       /\ fulfilment (chromium_executablePath c) = Some (Some path)))
  /\ (isLambda = false \/ chromium = None ->
      p = SettlesAfter 0 (Fulfilled default_launch_options)).
Proof.
  unfold _getBrowserLaunchOptions. cbv zeta.
  set (isLambda := _ || _).
  split.
  - intros opts path.
    destruct chromium as [c|]; simpl.
    + destruct isLambda; simpl.
      * destruct (chromium_executablePath c) as [t [exe|e]|] eqn:Hp; simpl;
          [|intros [= <-]; simpl; split;
            [discriminate|intros (_ & _ & c' & [= <-] & Hc'); rewrite Hp in Hc';
                          discriminate Hc']
           |discriminate].
        intros [= <-].
        destruct (truthy_string exe) eqn:Hexe; simpl.
        -- apply truthy_string_spec in Hexe as (s & -> & Hs). simpl. split.
           ++ intros [= <-]. split; [reflexivity|]. split; [exact Hs|].
              exists c. split; [reflexivity|]. rewrite Hp. reflexivity.
           ++ intros (_ & _ & c' & [= <-] & Hc'). rewrite Hp in Hc'.
              injection Hc' as ->. reflexivity.
        -- split; [discriminate|].
           intros (_ & Hne & c' & [= <-] & Hc'). rewrite Hp in Hc'.
           injection Hc' as ->.
           assert (truthy_string (Some path) = true) as Ht
             by (apply truthy_string_spec; eauto).
           rewrite Ht in Hexe. discriminate Hexe.
      * intros [= <-]. simpl. split; [discriminate|].
        intros (Hl & _). discriminate Hl.
    + intros [= <-]. simpl. split; [discriminate|].
      intros (_ & _ & c & Hc & _). discriminate Hc.
  - intros [Hl| ->]; [|reflexivity].
    rewrite Hl. destruct chromium; reflexivity.
Qed.

(** X5. [launchBrowser] launches with the options it was given and takes
    the time of both steps; it rejects only with an error of
    [puppeteer.launch] itself. *)
Theorem launchBrowser_outcome (penv : ProcessEnv) (chromium : option Chromium)
    (puppeteer_launch : LaunchOptions -> promise BrowserFate) :
  let p := launchBrowser penv chromium puppeteer_launch in
  (forall t1 opts t2 s,
     _getBrowserLaunchOptions penv chromium = SettlesAfter t1 (Fulfilled opts) ->
     puppeteer_launch opts = SettlesAfter t2 s ->
     p = SettlesAfter (t1 + t2) s)
  /\ (forall e, rejection p = Some e ->
        exists opts,
          fulfilment (_getBrowserLaunchOptions penv chromium) = Some opts
          /\ rejection (puppeteer_launch opts) = Some e)
  /\ (forall f, fulfilment p = Some f ->
        exists opts,
          fulfilment (_getBrowserLaunchOptions penv chromium) = Some opts
          /\ fulfilment (puppeteer_launch opts) = Some f).
Proof.
  cbv zeta. unfold launchBrowser, promise_then.
  pose proof (getBrowserLaunchOptions_no_rejection penv chromium) as Hrej.
  split; [|split].
  - intros t1 opts t2 s -> ->. reflexivity.
  - intros e.
    destruct (_getBrowserLaunchOptions penv chromium) as [t1 [opts|e1]|]; simpl;
      [|discriminate Hrej|discriminate].
    destruct (puppeteer_launch opts) as [t2 [f|e2]|] eqn:Hl; simpl; try discriminate.
    intros [= <-]. exists opts. rewrite Hl. split; reflexivity.
  - intros f.
    destruct (_getBrowserLaunchOptions penv chromium) as [t1 [opts|e1]|]; simpl;
      [|discriminate|discriminate].
    destruct (puppeteer_launch opts) as [t2 [f'|e2]|] eqn:Hl; simpl; try discriminate.
    intros [= <-]. exists opts. rewrite Hl. split; reflexivity.
Qed.

(** A build whose executable cannot be unpacked falls back to the default
    options; an empty [NETLIFY] does not count as set. *)
Example getBrowserLaunchOptions_broken :
  _getBrowserLaunchOptions lambda_env (Some broken_chromium)
  = SettlesAfter 50 (Fulfilled default_launch_options).
Proof. reflexivity. Qed.

Example getBrowserLaunchOptions_local :
  _getBrowserLaunchOptions local_env (Some bundled_chromium)
  = SettlesAfter 0 (Fulfilled default_launch_options).
Proof. reflexivity. Qed.

Example getBrowserLaunchOptions_bundled :
  _getBrowserLaunchOptions lambda_env (Some bundled_chromium)
  = SettlesAfter 400
      (Fulfilled (LOptions baseArgs (JStr "shell") true (VP 1920 1080)
                    (Some "/tmp/chromium"%string))).
Proof. reflexivity. Qed.

(** ** The handler: all requests *)

(** The status of an error answer. *)
Lemma handler_post JSON_parse env event w :
  httpMethod event = "POST" ->
  handler JSON_parse env event w
  = let failed e :=
      (Returns (error_response
                  (if includes (message e) "detected automated browser" then 403 else 500)
                  (or_else (message e) "Failed to send OTP")), w) in
    match JSON_parse (or_else (default EmptyString (event_body event)) "{}") with
    | Rejected e => failed e
    | Fulfilled body =>
        match destructure_body body w with
        | (Returns (identifier, countryCode, type), _) =>
            if falsy identifier
            then (Returns (error_response 400 "identifier is required"), w)
            else
              match sendOTP env identifier countryCode type w with
              | (Returns data, w') =>
                  (Returns (Resp 200 cors_headers (success_body (sessionId data))), w')
              | (Throws e, w') =>
                  (Returns (error_response
                              (if includes (message e) "detected automated browser"
                               then 403 else 500)
                              (or_else (message e) "Failed to send OTP")), w')
              | (Hangs, w') => (Hangs, w')
              end
        | (Throws e, _) => failed e
        | (Hangs, _) => (Hangs, w)
        end
    end.
Proof.
  intros Hpost. unfold handler. rewrite Hpost.
  destruct (decide _) as [Hd|_]; [discriminate Hd|].
  destruct (decide _) as [Hd|_]; [contradiction Hd; reflexivity|].
  unfold try_catch at 1, bind at 1, sync.
  destruct (JSON_parse _) as [body|e]; [|reflexivity].
  unfold ret at 1, bind at 1.
  destruct body as [fields|[]]; simpl; try reflexivity.
  destruct (falsy (property fields "identifier")); [reflexivity|].
  unfold bind. destruct (sendOTP _ _ _ _ _) as [[data|e|] w']; reflexivity.
Qed.

Lemma handler_not_post JSON_parse env event w :
  httpMethod event <> "POST" ->
  handler JSON_parse env event w
  = (Returns (if decide (httpMethod event = "OPTIONS")
              then Resp 200 cors_headers (Body_text EmptyString)
              else error_response 405 "Method not allowed. Use POST."), w).
Proof.
  intros Hpost. unfold handler.
  destruct (decide _) as [Hd|_]; [reflexivity|].
  destruct (decide _) as [_|Hd]; [reflexivity|contradiction].
Qed.

Lemma destructure_body_pure body w :
  (destructure_body body w).2 = w /\ (destructure_body body w).1 <> Hangs.
Proof. destruct body as [fields|[]]; (split; [reflexivity|discriminate]). Qed.

Ltac in_list := repeat first [apply list_elem_of_here | apply list_elem_of_further].

(** X6. The shape of the answers.  Every answer of the handler carries
    the CORS headers and one of the five status codes 200, 400, 403, 405
    and 500, and an answer with another status than 200 has the body
    [{ success: false, error: ... }].  A request is left pending only
    when it is a POST whose [sendOTP] call never completes. *)
Theorem handler_answer_shape (JSON_parse : string -> settlement parsed_json)
    (env : Env) (event : HandlerEvent) (w : world) :
  let out := handler JSON_parse env event w in
  (forall resp, out.1 = Returns resp ->
     headers resp = cors_headers
     /\ statusCode resp ∈ [200; 400; 403; 405; 500]
     /\ (statusCode resp <> 200 ->
         exists msg, resp = error_response (statusCode resp) msg))
  /\ (out.1 = Hangs ->
      httpMethod event = "POST"
      /\ exists identifier countryCode type,
           (sendOTP env identifier countryCode type w).1 = Hangs).
Proof.
  cbv zeta.
  assert (Hst : forall e : error,
            (if includes (message e) "detected automated browser" then 403 else 500)
            ∈ [200; 400; 403; 405; 500]).
  { intros e. destruct (includes _ _); in_list. }
  assert (Herr : forall c msg,
            c ∈ [200; 400; 403; 405; 500] ->
            headers (error_response c msg) = cors_headers
            /\ statusCode (error_response c msg) ∈ [200; 400; 403; 405; 500]
            /\ (statusCode (error_response c msg) <> 200 ->
                exists msg', error_response c msg
                             = error_response (statusCode (error_response c msg)) msg')).
  { intros c msg Hc. split; [reflexivity|]. split; [exact Hc|].
    intros _. exists msg. reflexivity. }
  destruct (decide (httpMethod event = "POST")) as [Hpost|Hpost].
  - rewrite (handler_post _ _ _ _ Hpost). cbv zeta.
    destruct (JSON_parse _) as [body|e].
    + pose proof (destructure_body_pure body w) as [_ Hh].
      destruct (destructure_body body w) as [[[[id cc] ty]|e|] w0];
        [| |contradiction].
      * destruct (falsy id).
        -- split; [|discriminate].
           intros resp [= <-]. apply Herr. in_list.
        -- destruct (sendOTP env id cc ty w) as [[data|e|] w'] eqn:Hs.
           ++ split; [|discriminate].
              intros resp [= <-]. split; [reflexivity|]. split; [in_list|].
              intros H. contradiction H. reflexivity.
           ++ split; [|discriminate].
              intros resp [= <-]. apply Herr, Hst.
           ++ split; [discriminate|].
              intros _. split; [exact Hpost|].
              exists id, cc, ty. rewrite Hs. reflexivity.
      * split; [|discriminate].
        intros resp [= <-]. apply Herr, Hst.
    + split; [|discriminate].
      intros resp [= <-]. apply Herr, Hst.
  - rewrite (handler_not_post _ _ _ _ Hpost).
    split; [|discriminate].
    intros resp [= <-]. destruct (decide _).
    + split; [reflexivity|]. split; [in_list|].
      intros H. contradiction H. reflexivity.
    + apply Herr. in_list.
Qed.

(** X7. What the status tells the client about side effects.  An answer
    405 means a method other than OPTIONS and POST, and an empty body an
    OPTIONS request.  With 400, 405 or the empty body nothing at all has
    happened: no browser was launched and no call issued.  With any
    status other than 200 the session cache and the pending timers are as
    before. *)
Theorem handler_status_effects (JSON_parse : string -> settlement parsed_json)
    (env : Env) (event : HandlerEvent) (w w' : world) (resp : Response) :
  handler JSON_parse env event w = (Returns resp, w') ->
  (statusCode resp = 405
   <-> httpMethod event <> "OPTIONS" /\ httpMethod event <> "POST")
  /\ (body resp = Body_text EmptyString <-> httpMethod event = "OPTIONS")
  /\ (statusCode resp = 400 \/ statusCode resp = 405
      \/ body resp = Body_text EmptyString -> w' = w)
  /\ (statusCode resp <> 200 ->
      sessionCache w' = sessionCache w /\ timers w' = timers w).
Proof.
  assert (Hst : forall e : error,
            let c := if includes (message e) "detected automated browser"
                     then 403 else 500 in
            c <> 405 /\ c <> 400).
  { intros e. destruct (includes _ _); split; discriminate. }
  destruct (decide (httpMethod event = "POST")) as [Hpost|Hpost].
  - rewrite (handler_post _ _ _ _ Hpost). cbv zeta.
    assert (Hopt : httpMethod event <> "OPTIONS") by (rewrite Hpost; discriminate).
    assert (Hfail : forall e : error,
              (Returns (error_response
                          (if includes (message e) "detected automated browser"
                           then 403 else 500)
                          (or_else (message e) "Failed to send OTP")), w)
              = (Returns resp, w') ->
              (statusCode resp = 405
               <-> httpMethod event <> "OPTIONS" /\ httpMethod event <> "POST")
              /\ (body resp = Body_text EmptyString <-> httpMethod event = "OPTIONS")
              /\ (statusCode resp = 400 \/ statusCode resp = 405
                  \/ body resp = Body_text EmptyString -> w' = w)
              /\ (statusCode resp <> 200 ->
                  sessionCache w' = sessionCache w /\ timers w' = timers w)).
    { intros e [= <- <-]. simpl. destruct (Hst e) as [H5 H4]. cbv zeta in H5, H4.
      split; [split; [intros H; contradiction|intros [_ H]; contradiction]|].
      split; [split; [discriminate|intros H; contradiction]|].
      split; [reflexivity|]. split; reflexivity. }
    destruct (JSON_parse _) as [body|e]; [|apply Hfail].
    pose proof (destructure_body_pure body w) as [_ Hh].
    destruct (destructure_body body w) as [[[[id cc] ty]|e|] w0];
      [|apply Hfail|contradiction].
    destruct (falsy id).
    + intros [= <- <-]. simpl.
      split; [split; [discriminate|intros [_ H]; contradiction]|].
      split; [split; [discriminate|intros H; contradiction]|].
      split; [reflexivity|]. split; reflexivity.
    + pose proof (sendOTP_outcome env id cc ty w) as Hout. cbv zeta in Hout.
      destruct (sendOTP env id cc ty w) as [[data|e|] w1]; [| |discriminate].
      * intros [= <- <-]. simpl.
        split; [split; [discriminate|intros [_ H]; contradiction]|].
        split; [split; [discriminate|intros H; contradiction]|].
        split; [intros [H|[H|H]]; discriminate H|].
        intros H; contradiction H; reflexivity.
      * intros [= <- <-]. simpl. destruct (Hst e) as [H5 H4]. cbv zeta in H5, H4.
        split; [split; [intros H; contradiction|intros [_ H]; contradiction]|].
        split; [split; [discriminate|intros H; contradiction]|].
        split; [intros [H|[H|H]]; [contradiction|contradiction|discriminate H]|].
        intros _. destruct Hout as (_ & _ & [(res & Hres & _)|(_ & Hc & Ht)]);
          [discriminate Hres|].
        split; assumption.
  - rewrite (handler_not_post _ _ _ _ Hpost).
    intros [= <- <-].
    destruct (decide (httpMethod event = "OPTIONS")) as [Hopt|Hopt]; simpl.
    + split; [split; [discriminate|intros [H _]; contradiction]|].
      split; [split; [intros _; exact Hopt|reflexivity]|].
      split; [reflexivity|]. split; reflexivity.
    + split; [split; [intros _; split; assumption|reflexivity]|].
      split; [split; [discriminate|intros H; contradiction]|].
      split; [reflexivity|]. split; reflexivity.
Qed.

(** X8. An answer 200 to a POST request means that a session is waiting:
    the body names the identifier generated for the call, the cache of
    the process holds a session under that very identifier, with the
    browser launched by the call, and the cleanup of that browser is
    scheduled five minutes ahead. *)
Theorem handler_success_session (JSON_parse : string -> settlement parsed_json)
    (env : Env) (event : HandlerEvent) (w w' : world) (resp : Response) :
  handler JSON_parse env event w = (Returns resp, w') ->
  httpMethod event = "POST" ->
  statusCode resp = 200 ->
  body resp = success_body (uuidv4 env)
  /\ exists d,
       sessionCache w' !! uuidv4 env = Some d
       /\ browser d = length (browsers w)
       /\ Timer (clock w' + 300000) (browser d) (uuidv4 env) ∈ timers w'.
Proof.
  intros Hrun Hpost Hstatus.
  rewrite (handler_post _ _ _ _ Hpost) in Hrun. cbv zeta in Hrun.
  assert (Hst : forall e : error,
            (if includes (message e) "detected automated browser" then 403 else 500)
            <> 200).
  { intros e. destruct (includes _ _); discriminate. }
  destruct (JSON_parse _) as [body|e];
    [|injection Hrun as <- <-; simpl in Hstatus; contradiction (Hst e)].
  pose proof (destructure_body_pure body w) as [_ Hh].
  destruct (destructure_body body w) as [[[[id cc] ty]|e|] w0];
    [|injection Hrun as <- <-; simpl in Hstatus; contradiction (Hst e)
     |contradiction].
  destruct (falsy id); [injection Hrun as <- <-; discriminate Hstatus|].
  pose proof (sendOTP_outcome env id cc ty w) as Hout. cbv zeta in Hout.
  destruct (sendOTP env id cc ty w) as [[data|e|] w1];
    [|injection Hrun as <- <-; simpl in Hstatus; contradiction (Hst e)
     |discriminate Hrun].
  injection Hrun as <- <-. simpl.
  destruct Hout as (_ & _ & [(res & [= <-] & -> & Hok)|(Hno & _)]);
    [|contradiction (Hno data); reflexivity].
  split; [reflexivity|].
  destruct Hok as (f & d & m & k & launched & pre & _ & _ & Hb & Hc & Ht & _).
  cbn [fst snd] in Hb, Hc, Ht.
  exists d. split; [rewrite Hc; apply lookup_insert_eq|].
  split; [exact Hb|].
  rewrite Ht, Hb. apply elem_of_app. right. apply list_elem_of_here.
Qed.

Lemma handler_success_session_witness :
  handler sample_parse happy_env sample_event initial_world
  = (Returns (Resp 200 cors_headers (success_body sample_uuid)),
     (handler sample_parse happy_env sample_event initial_world).2)
  /\ httpMethod sample_event = "POST"
  /\ exists d,
       sessionCache (handler sample_parse happy_env sample_event initial_world).2
       !! sample_uuid = Some d
       /\ browser d = 0%nat.
Proof.
  assert (Hrun : handler sample_parse happy_env sample_event initial_world
                 = (Returns (Resp 200 cors_headers (success_body sample_uuid)),
                    (handler sample_parse happy_env sample_event initial_world).2))
    by (vm_compute; reflexivity).
  split; [exact Hrun|]. split; [reflexivity|].
  destruct (handler_success_session sample_parse happy_env sample_event initial_world
              _ _ Hrun eq_refl eq_refl) as (_ & d & Hd & Hb & _).
  exists d. split; [exact Hd|exact Hb].
Defined.

Lemma handler_status_effects_witness :
  handler sample_parse happy_env (HEvent "GET" None) initial_world
  = (Returns (error_response 405 "Method not allowed. Use POST."), initial_world)
  /\ (statusCode (error_response 405 "Method not allowed. Use POST.") = 405
      <-> "GET"%string <> "OPTIONS"%string /\ "GET"%string <> "POST"%string).
Proof.
  split; [reflexivity|].
  exact (proj1 (handler_status_effects sample_parse happy_env (HEvent "GET" None)
                  initial_world initial_world _ eq_refl)).
Defined.
(** X9. Bodies that cannot be used.  A POST whose body is not JSON is
    answered through the same [catch] as a failed OTP request, with the
    parser's message and status 500 (403 should the message speak of the
    automated browser); a body that is JSON but no object is answered 500
    when it is [null], for the destructuring throws, and 400 otherwise; a
    missing or empty body counts as the empty object and is answered 400.
    In none of these cases is anything launched or called. *)
Theorem handler_unusable_body (JSON_parse : string -> settlement parsed_json)
    (env : Env) (event : HandlerEvent) (w : world) :
  httpMethod event = "POST" ->
  let text := or_else (default EmptyString (event_body event)) "{}" in
  let out := handler JSON_parse env event w in
  (forall e, JSON_parse text = Rejected e ->
     out = (Returns (error_response
                       (if includes (message e) "detected automated browser"
                        then 403 else 500)
                       (or_else (message e) "Failed to send OTP")), w))
  /\ (forall v, JSON_parse text = Fulfilled (PValue v) ->
        exists resp,
          out = (Returns resp, w)
          /\ (statusCode resp = 500 <-> v = JNull \/ v = JUndefined)
          /\ (statusCode resp = 400 <-> v <> JNull /\ v <> JUndefined))
  /\ (event_body event = None \/ event_body event = Some EmptyString ->
      JSON_parse "{}" = Fulfilled (PObject ∅) ->
      out = (Returns (error_response 400 "identifier is required"), w)).
Proof.
  intros Hpost. cbv zeta. rewrite (handler_post _ _ _ _ Hpost). cbv zeta.
  split; [|split].
  - intros e ->. reflexivity.
  - intros v ->.
    destruct v; simpl; eexists; (split; [reflexivity|]); simpl;
      split; split; intros H;
      first [ reflexivity
            | discriminate H
            | destruct H as [H|H]; discriminate H
            | left; reflexivity
            | right; reflexivity
            | split; discriminate
            | destruct H as [H1 H2]; exfalso;
              first [apply H1; reflexivity|apply H2; reflexivity] ].
  - intros Hbody Hparse.
    assert (or_else (default EmptyString (event_body event)) "{}" = "{}"%string) as ->
      by (destruct Hbody as [-> | ->]; reflexivity).
    rewrite Hparse. reflexivity.
Qed.

Lemma handler_unusable_body_witness :
  httpMethod (HEvent "POST" (Some "identifier=9014884219")) = "POST"
  /\ handler sample_parse happy_env (HEvent "POST" (Some "identifier=9014884219"))
       initial_world
     = (Returns (error_response 500 "Unexpected token in JSON"), initial_world).
Proof.
  split; [reflexivity|].
  exact (proj1 (handler_unusable_body sample_parse happy_env
                  (HEvent "POST" (Some "identifier=9014884219")) initial_world eq_refl)
           (Error "Unexpected token in JSON") eq_refl).
Defined.

(** X10. The [countryCode] of a request has no effect: two requests whose
    bodies differ only in that property are answered alike and leave the
    process in the same state. *)
Theorem handler_ignores_countryCode (JSON_parse : string -> settlement parsed_json)
    (env : Env) (event1 event2 : HandlerEvent) (fields : gmap string jsval)
    (v : jsval) (w : world) :
  httpMethod event1 = httpMethod event2 ->
  JSON_parse (or_else (default EmptyString (event_body event1)) "{}")
  = Fulfilled (PObject fields) ->
  JSON_parse (or_else (default EmptyString (event_body event2)) "{}")
  = Fulfilled (PObject (<["countryCode" := v]> fields)) ->
  handler JSON_parse env event1 w = handler JSON_parse env event2 w.
Proof.
  intros Hm H1 H2.
  destruct (decide (httpMethod event1 = "POST")) as [Hpost|Hpost].
  - rewrite (handler_post _ _ _ _ Hpost).
    rewrite (handler_post _ _ event2) by (rewrite <- Hm; exact Hpost).
    cbv zeta. rewrite H1, H2. cbn [destructure_body ret].
    unfold property.
    rewrite (lookup_insert_ne fields "countryCode" "identifier") by discriminate.
    rewrite (lookup_insert_ne fields "countryCode" "type") by discriminate.
    destruct (falsy _); [reflexivity|].
    unfold sendOTP. reflexivity.
  - rewrite (handler_not_post _ _ _ _ Hpost).
    rewrite (handler_not_post _ _ event2) by (rewrite <- Hm; exact Hpost).
    rewrite Hm. reflexivity.
Qed.

Lemma handler_ignores_countryCode_witness :
  handler sample_parse_both happy_env sample_event initial_world
  = handler sample_parse_both happy_env (HEvent "POST" (Some sample_body_91))
      initial_world.
Proof.
  apply (handler_ignores_countryCode sample_parse_both happy_env sample_event
           (HEvent "POST" (Some sample_body_91))
           (<["identifier" := JStr "9014884219"]> ∅) (JStr "91") initial_world);
    reflexivity.
Defined.

(** ** Stealth configuration *)

(** X11. [_makePageStealth] issues its four configuration calls in the
    order of the source and stops at the first one that is not fulfilled:
    the calls made are the first [n] of the four, those before the last
    were fulfilled, and fewer than four means that the last one was not.
    A rejection is swallowed, so the function never throws; it fails to
    return exactly when the last call made never settles.  Nothing but
    the clock and the record of calls changes. *)
Theorem makePageStealth_calls (env : Env) (page : Page) (w : world) :
  let out := _makePageStealth env page w in
  let evs := events_since w out.2 in
  exists n,
    (1 <= n <= 4)%nat
    /\ evs = take n (stealth_calls page)
    /\ Forall (fun p => is_Some (fulfilment p)) (take (n - 1) (stealth_replies env))
    /\ ((n < 4)%nat ->
        forall p, stealth_replies env !! (n - 1)%nat = Some p -> fulfilment p = None)
    /\ (out.1 = Returns tt \/ out.1 = Hangs)
    /\ (out.1 = Hangs <-> stealth_replies env !! (n - 1)%nat = Some NeverSettles)
    /\ clock w <= clock out.2
    /\ sessionCache out.2 = sessionCache w
    /\ timers out.2 = timers w
    /\ browsers out.2 = browsers w.
Proof.
  cbv zeta.
  change (wp (_makePageStealth env page) w
            (fun r w' =>
               exists n,
                 (1 <= n <= 4)%nat
                 /\ events_since w w' = take n (stealth_calls page)
                 /\ Forall (fun p => is_Some (fulfilment p))
                      (take (n - 1) (stealth_replies env))
                 /\ ((n < 4)%nat ->
                     forall p, stealth_replies env !! (n - 1)%nat = Some p ->
                               fulfilment p = None)
                 /\ (r = Returns tt \/ r = Hangs)
                 /\ (r = Hangs <-> stealth_replies env !! (n - 1)%nat = Some NeverSettles)
                 /\ clock w <= clock w'
                 /\ sessionCache w' = sessionCache w
                 /\ timers w' = timers w
                 /\ browsers w' = browsers w)).
  wp_go.
  all: repeat match goal with u : unit |- _ => destruct u end.
  all: events_norm.
  all: unfold stealth_replies.
  all: repeat match goal with
              | H : ?p = SettlesAfter _ _ |- context [?p] => rewrite H
              | H : ?p = NeverSettles |- context [?p] => rewrite H
              end.
  all: first
    [ exists 4%nat; split; [lia|]; split; [reflexivity|]
    | exists 3%nat; split; [lia|]; split; [reflexivity|]
    | exists 2%nat; split; [lia|]; split; [reflexivity|]
    | exists 1%nat; split; [lia|]; split; [reflexivity|] ].
  all: cbn [take Nat.sub lookup list_lookup].
  all: split; [repeat constructor; eexists; reflexivity|].
  all: split; [first [intros Hn; exfalso; lia | intros _ p [= <-]; reflexivity]|].
  all: split; [first [left; reflexivity|right; reflexivity]|].
  all: split; [split; [try discriminate|try discriminate]; try reflexivity|].
  all: split; [cbn [clock quietly]; lia|].
  all: repeat split; reflexivity.
Qed.

(** ** Selector waiting: the worst case *)

(** The back-off delays before the attempts after [attempt], as the
    timers run them. *)
Lemma backoff_total retryDelay n :
  forall a,
    (forall j, (a <= j < a + n)%nat ->
       1 <= retryDelay * 2 ^ N.of_nat j <= 2147483647) ->
    total (map (fun j => setTimeout_delay (backoff_delay retryDelay j)) (seq a n))
    + retryDelay * 2 ^ N.of_nat a
    = retryDelay * 2 ^ N.of_nat (a + n).
Proof.
  induction n as [|n IH]; intros a Hr.
  - rewrite Nat.add_0_r. reflexivity.
  - cbn [seq map total foldr].
    fold (total (map (fun j => setTimeout_delay (backoff_delay retryDelay j))
                   (seq (S a) n))).
    unfold backoff_delay at 1.
    rewrite (setTimeout_delay_range _ (Hr a ltac:(lia))).
    specialize (IH (S a) ltac:(intros j Hj; apply Hr; lia)).
    replace (a + S n)%nat with (S a + n)%nat by lia.
    rewrite Nat2N.inj_succ, N.pow_succ_r' in IH. lia.
Qed.

Lemma loop_all_fail reply pageOrFrame selector timeout retries retryDelay visible
    (t : nat -> N) (e : nat -> error) k :
  forall attempt lastError w,
    (attempt + k = S retries)%nat -> (0 < k)%nat ->
    (forall j, (attempt <= j <= retries)%nat ->
       reply j = SettlesAfter (t j) (Rejected (e j))) ->
    let out := retry_loop reply pageOrFrame selector timeout retries retryDelay
                 visible k attempt lastError w in
    out.1 = Throws (e retries)
    /\ clock out.2
       = clock w + total (map t (seq attempt k))
         + total (map (fun j => setTimeout_delay (backoff_delay retryDelay j))
                    (seq attempt (k - 1)))
    /\ last (events_since w out.2)
       = Some (wait_event pageOrFrame selector timeout retries visible retries)
    /\ sessionCache out.2 = sessionCache w
    /\ timers out.2 = timers w
    /\ browsers out.2 = browsers w.
Proof.
  induction k as [|k IH]; intros attempt lastError w Hk Hpos Hrej; [lia|].
  cbv zeta.
  rewrite (loop_rejected _ _ _ _ _ _ _ _ _ _ _ _ _ (Hrej attempt ltac:(lia))).
  destruct k as [|k'].
  - assert (attempt = retries) as -> by lia.
    rewrite Nat.ltb_irrefl. cbv zeta. rewrite loop_exhausted. simpl.
    split; [reflexivity|].
    split; [lia|].
    split; [|repeat split; reflexivity].
    rewrite (events_since_app w _ [wait_event pageOrFrame selector timeout retries
                                     visible retries]) by reflexivity.
    reflexivity.
  - assert (Nat.ltb attempt retries = true) as -> by (apply Nat.ltb_lt; lia).
    cbv zeta.
    edestruct (IH (S attempt) (Some (e attempt))) as (Hr & Hc & Hl & Hs & Ht & Hb);
      [| |intros j Hj; apply Hrej; lia|]; [lia|lia|].
    split; [exact Hr|].
    split.
    + rewrite Hc.
      change (seq attempt (S (S k'))) with (attempt :: seq (S attempt) (S k')).
      change (S (S k') - 1)%nat with (S k').
      change (seq attempt (S k')) with (attempt :: seq (S attempt) k').
      replace (S k' - 1)%nat with k' by lia.
      cbn [map total foldr clock quietly].
      fold (total (map t (seq (S attempt) (S k')))).
      fold (total (map (fun j => setTimeout_delay (backoff_delay retryDelay j))
                     (seq (S attempt) k'))).
      lia.
    + split; [|rewrite Hs, Ht, Hb; repeat split; reflexivity].
      match type of Hl with
      | last (events_since ?W ?W') = _ =>
          destruct (loop_trace reply pageOrFrame selector timeout retries retryDelay
                      visible (S k') (S attempt) (Some (e attempt)) W) as [evs Hevs];
          rewrite (events_since_app _ _ _ Hevs) in Hl;
          rewrite (events_since_app w W'
                     ([wait_event pageOrFrame selector timeout retries visible attempt;
                       sleep_event retryDelay attempt] ++ evs))
            by (rewrite Hevs; cbn [trace quietly]; rewrite <- !app_assoc; reflexivity)
      end.
      rewrite last_app, Hl. reflexivity.
Qed.

(** X12. The worst case of [_waitForSelectorWithRetry].  When every
    attempt fails, attempt [j] after [t j] milliseconds, the helper throws
    the error of the last attempt.  The time it has taken is the sum of
    the attempts plus the back-off delays [retryDelay * 2 ^ j] before the
    attempts 1 to [retries], each as long as the timer makes it (a delay
    below 1 or above 2147483647 ms lasts one millisecond); when all these
    delays lie between 1 and 2147483647 ms the back-off amounts to
    [retryDelay * (2 ^ retries - 1)] milliseconds.  The last thing the
    helper did was the last wait, so no delay is spent after the final
    failure, and the session cache, the timers and the browsers are as
    before. *)
Theorem waitForSelectorWithRetry_worst_case
    (reply : nat -> promise nat) (pageOrFrame : target) (selector : string)
    (options : WaitOptions) (w : world) (t : nat -> N) (e : nat -> error) :
  let timeout := default 60000 (timeout options) in
  let retries := default 3%nat (retries options) in
  let retryDelay := default 1000 (retryDelay options) in
  let visible := default false (visible options) in
  let out := _waitForSelectorWithRetry reply pageOrFrame selector options w in
  (forall j, (j <= retries)%nat -> reply j = SettlesAfter (t j) (Rejected (e j))) ->
  out.1 = Throws (e retries)
  /\ clock out.2
     = clock w + total (map t (seq 0 (S retries)))
       + total (map (fun j => setTimeout_delay (retryDelay * 2 ^ N.of_nat j))
                  (seq 0 retries))
  /\ ((forall j, (j < retries)%nat ->
         1 <= retryDelay * 2 ^ N.of_nat j <= 2147483647) ->
      clock out.2
      = clock w + total (map t (seq 0 (S retries)))
        + retryDelay * (2 ^ N.of_nat retries - 1))
  /\ last (events_since w out.2)
     = Some (Ev_waitForSelector pageOrFrame selector
               (attempt_timeout timeout retries retries) visible)
  /\ sessionCache out.2 = sessionCache w
  /\ timers out.2 = timers w
  /\ browsers out.2 = browsers w.
Proof.
  intros timeout retries retryDelay visible out Hrej.
  subst out. unfold _waitForSelectorWithRetry.
  fold timeout retries retryDelay visible.
  destruct (loop_all_fail reply pageOrFrame selector timeout retries retryDelay
              visible t e (S retries) 0%nat None w)
    as (Hr & Hc & Hl & Hs & Ht & Hb); [lia|lia|intros j Hj; apply Hrej; lia|].
  replace (S retries - 1)%nat with retries in Hc by lia.
  split; [exact Hr|]. split; [exact Hc|].
  split; [|split; [exact Hl|repeat split; assumption]].
  intros Hrange. rewrite Hc.
  pose proof (backoff_total retryDelay retries 0%nat
                ltac:(intros j Hj; apply Hrange; lia)) as Hsum.
  change (2 ^ N.of_nat 0) with 1 in Hsum. cbn [Nat.add] in Hsum.
  assert (1 <= 2 ^ N.of_nat retries) by (apply N.pow_lower_bound; lia).
  rewrite N.mul_sub_distr_l. lia.
Qed.

Lemma waitForSelectorWithRetry_worst_case_witness :
  (forall j, (j <= 2)%nat ->
     always_rejects j
     = SettlesAfter 15000 (Rejected (Error "Waiting for selector failed")))
  /\ clock (_waitForSelectorWithRetry always_rejects (OnPage 0%nat) "#login"
              (Options (Some 60000) (Some 2%nat) (Some 2000) (Some true))
              initial_world).2
     = 51000.
Proof.
  assert (H : forall j, (j <= 2)%nat ->
            always_rejects j
            = SettlesAfter ((fun _ => 15000) j)
                (Rejected ((fun _ => Error "Waiting for selector failed") j)))
    by reflexivity.
  split; [exact H|].
  exact (proj1 (proj2
    (waitForSelectorWithRetry_worst_case always_rejects (OnPage 0%nat) "#login"
       (Options (Some 60000) (Some 2%nat) (Some 2000) (Some true))
       initial_world (fun _ => 15000) (fun _ => Error "Waiting for selector failed")
       H))).
Defined.

(** Beyond the range of the timers the back-off is short: with a delay of
    2147483648 ms the two pauses before the retries last one millisecond
    each. *)
Example waitForSelectorWithRetry_beyond_timer_range :
  clock (_waitForSelectorWithRetry always_rejects (OnPage 0%nat) "#login"
           (Options (Some 60000) (Some 2%nat) (Some 2147483648) (Some true))
           initial_world).2
  = 45002.
Proof. vm_compute. reflexivity. Qed.

(** X13. The helper has no deadline of its own: when the attempts before
    attempt [k] fail and the wait of attempt [k] never settles, the helper
    never completes, and that wait is the last call it made. *)
Theorem waitForSelectorWithRetry_pending
    (reply : nat -> promise nat) (pageOrFrame : target) (selector : string)
    (options : WaitOptions) (w : world) (k : nat) :
  let timeout := default 60000 (timeout options) in
  let retries := default 3%nat (retries options) in
  let visible := default false (visible options) in
  let out := _waitForSelectorWithRetry reply pageOrFrame selector options w in
  (k <= retries)%nat ->
  (forall j, (j < k)%nat -> is_Some (rejection (reply j))) ->
  reply k = NeverSettles ->
  out.1 = Hangs
  /\ last (events_since w out.2)
     = Some (Ev_waitForSelector pageOrFrame selector
               (attempt_timeout timeout retries k) visible)
  /\ length (wait_timeouts (events_since w out.2)) = S k.
Proof.
  intros timeout retries visible out Hk Hrej Hnever.
  subst out. unfold _waitForSelectorWithRetry.
  fold timeout retries visible.
  set (retryDelay := default 1000 (retryDelay options)).
  destruct (loop_failures reply pageOrFrame selector timeout retries retryDelay
              visible k (S (retries - k)) 0%nat None w)
    as (w' & Hrun & Htr & _).
  { intros j Hj. apply Hrej. lia. }
  replace (k + S (retries - k))%nat with (S retries) in Hrun by lia.
  rewrite Hrun. simpl (0 + k)%nat.
  rewrite (loop_never reply _ _ _ _ _ _ _ _ _ w' Hnever). simpl.
  split; [reflexivity|].
  rewrite (events_since_app w _ (failed_events pageOrFrame selector timeout
             retries retryDelay visible k 0
           ++ [wait_event pageOrFrame selector timeout retries visible k]))
    by (simpl; rewrite Htr, <- app_assoc; reflexivity).
  split; [rewrite last_snoc; reflexivity|].
  rewrite wait_timeouts_app, failed_events_timeouts, length_app, length_map, length_seq.
  simpl. lia.
Qed.

Lemma waitForSelectorWithRetry_pending_witness :
  (1 <= 3)%nat
  /\ (forall j, (j < 1)%nat ->
        is_Some (rejection ((fun j => if Nat.eqb j 1 then NeverSettles
                                      else always_rejects j) j)))
  /\ (_waitForSelectorWithRetry
        (fun j => if Nat.eqb j 1 then NeverSettles else always_rejects j)
        (OnPage 0%nat) "#login" no_options initial_world).1
     = Hangs.
Proof.
  assert (H : forall j, (j < 1)%nat ->
            is_Some (rejection ((fun j => if Nat.eqb j 1 then NeverSettles
                                          else always_rejects j) j))).
  { intros j Hj. destruct j; [eexists; reflexivity|lia]. }
  split; [lia|]. split; [exact H|].
  exact (proj1
    (waitForSelectorWithRetry_pending
       (fun j => if Nat.eqb j 1 then NeverSettles else always_rejects j)
       (OnPage 0%nat) "#login" no_options initial_world 1%nat ltac:(cbn; lia) H
       eq_refl)).
Defined.


(** ** [sendOTP]: launch failures *)

Lemma launch_timeout_message :
  ("Browser launch" +:+ " timed out after " +:+ pretty 30000 +:+ "ms")%string
  = "Browser launch timed out after 30000ms"%string.
Proof. vm_compute. reflexivity. Qed.

Lemma sendOTP_launch_rejected env identifier countryCode type w t e :
  _withTimeout (launchBrowser_reply env) 30000 "Browser launch"
  = SettlesAfter t (Rejected e) ->
  sendOTP env identifier countryCode type w = (Throws e, after_call Ev_launch t w).
Proof.
  intros H. unfold sendOTP. unfold bind at 1, try_catch at 1, bind at 1.
  rewrite H. reflexivity.
Qed.

(** X14. When the launch does not produce a browser within thirty
    seconds, [sendOTP] throws at once: the error of the launch if it was
    rejected in time, and otherwise the timeout error, after exactly
    thirty seconds.  The launch is the only call made, so there is no
    browser to close, and nothing else has changed. *)
Theorem sendOTP_launch_failure (env : Env) (identifier countryCode type : jsval)
    (w : world) :
  fulfilment (_withTimeout (launchBrowser_reply env) 30000 "Browser launch") = None ->
  exists t e,
    t <= 30000
    /\ (rejection (launchBrowser_reply env) = Some e
        \/ (settles_within (launchBrowser_reply env) 30000 = false
            /\ t = 30000
            /\ e = Error "Browser launch timed out after 30000ms"))
    /\ sendOTP env identifier countryCode type w
       = (Throws e, after_call Ev_launch t w).
Proof.
  intros Hnone.
  destruct (_withTimeout (launchBrowser_reply env) 30000 "Browser launch")
    as [t [f|e]|] eqn:Hl; [discriminate Hnone| |].
  - exists t, e.
    split; [|split; [|apply sendOTP_launch_rejected; exact Hl]].
    + revert Hl. rewrite withTimeout_unfold.
      change (setTimeout_delay 30000) with 30000.
      destruct (launchBrowser_reply env) as [u s|].
      * destruct (N.leb_spec u 30000); intros [= <- _]; lia.
      * intros [= <- _]. lia.
    + revert Hl. rewrite withTimeout_unfold.
      change (setTimeout_delay 30000) with 30000.
      destruct (launchBrowser_reply env) as [u s|]; simpl.
      * destruct (N.leb_spec u 30000) as [Hle|Hlt].
        -- intros [= <- ->]. left. reflexivity.
        -- intros [= <- <-]. right. split; [reflexivity|].
           split; [reflexivity|]. rewrite launch_timeout_message. reflexivity.
      * intros [= <- <-]. right. split; [reflexivity|].
        split; [reflexivity|]. rewrite launch_timeout_message. reflexivity.
  - exfalso. exact (withTimeout_settles _ _ _ Hl).
Qed.

Lemma sendOTP_launch_failure_witness :
  fulfilment (_withTimeout (launchBrowser_reply slow_launch_env) 30000 "Browser launch")
  = None
  /\ exists t e,
       t <= 30000
       /\ sendOTP slow_launch_env (JStr "9014884219") (JStr "91") (JStr "phone")
            initial_world
          = (Throws e, after_call Ev_launch t initial_world).
Proof.
  split; [reflexivity|].
  destruct (sendOTP_launch_failure slow_launch_env (JStr "9014884219") (JStr "91")
              (JStr "phone") initial_world eq_refl) as (t & e & Ht & _ & Hrun).
  exists t, e. split; [exact Ht|exact Hrun].
Defined.

(** X15. The thirty seconds cover the whole of [launchBrowser]: when
    looking up the options and launching with them take longer than that
    together (or the launch never settles), [sendOTP] throws the timeout
    error after thirty seconds, whatever each part would have yielded. *)
Theorem sendOTP_launch_deadline (penv : ProcessEnv) (chromium : option Chromium)
    (puppeteer_launch : LaunchOptions -> promise BrowserFate) (env : Env)
    (identifier countryCode type : jsval) (w : world) (t1 : N) (opts : LaunchOptions) :
  launchBrowser_reply env = launchBrowser penv chromium puppeteer_launch ->
  _getBrowserLaunchOptions penv chromium = SettlesAfter t1 (Fulfilled opts) ->
  (forall t2 s, puppeteer_launch opts = SettlesAfter t2 s -> 30000 < t1 + t2) ->
  sendOTP env identifier countryCode type w
  = (Throws (Error "Browser launch timed out after 30000ms"),
     after_call Ev_launch 30000 w).
Proof.
  intros Henv Hopts Hslow.
  apply sendOTP_launch_rejected.
  rewrite Henv. unfold launchBrowser, promise_then. rewrite Hopts.
  rewrite withTimeout_unfold. change (setTimeout_delay 30000) with 30000.
  rewrite launch_timeout_message.
  destruct (puppeteer_launch opts) as [t2 s|] eqn:Hl; [|reflexivity].
  pose proof (Hslow t2 s eq_refl) as Hlt.
  destruct (N.leb_spec (t1 + t2) 30000); [lia|reflexivity].
Qed.

Lemma sendOTP_launch_deadline_witness :
  launchBrowser_reply serverless_env
  = launchBrowser lambda_env (Some bundled_chromium) sample_launch
  /\ _getBrowserLaunchOptions lambda_env (Some bundled_chromium)
     = SettlesAfter 400 (Fulfilled (lambda_launch_options bundled_chromium "/tmp/chromium"))
  /\ sendOTP serverless_env (JStr "9014884219") (JStr "91") (JStr "phone") initial_world
     = (Throws (Error "Browser launch timed out after 30000ms"),
        after_call Ev_launch 30000 initial_world).
Proof.
  split; [reflexivity|]. split; [reflexivity|].
  apply (sendOTP_launch_deadline lambda_env (Some bundled_chromium) sample_launch
           serverless_env (JStr "9014884219") (JStr "91") (JStr "phone") initial_world
           400 (lambda_launch_options bundled_chromium "/tmp/chromium")
           eq_refl eq_refl).
  intros t2 s [= <- _]. reflexivity.
Defined.


(** ** [sendOTP]: the search for the Login button *)

Lemma waitForSelectorWithRetry_all_fail reply pageOrFrame selector options w
    (t : nat -> N) (e : nat -> error) :
  (forall j, (j <= default 3%nat (retries options))%nat ->
     reply j = SettlesAfter (t j) (Rejected (e j))) ->
  (_waitForSelectorWithRetry reply pageOrFrame selector options w).1
  = Throws (e (default 3%nat (retries options))).
Proof.
  intros Hrej. unfold _waitForSelectorWithRetry.
  apply (loop_all_fail reply pageOrFrame selector _ _ _ _ t e);
    [lia|lia|intros j Hj; apply Hrej; lia].
Qed.

Ltac wp_sum_exact :=
  lazymatch goal with
  | |- wp (_makePageStealth _ _) _ _ =>
      apply (wp_summary _ stealth_run);
      [intros; apply makePageStealth_quiet
      |intros ? ? [[-> | ->] (? & ? & -> & ? & ?)]]
  | |- wp (_waitForSelectorWithRetry ?reply ?on ?sel ?opts) _ _ =>
      apply (wp_summary _
               (fun w r w' =>
                  retry_run on sel opts w r w'
                  /\ r = (_waitForSelectorWithRetry reply on sel opts w).1));
      [intros; split; [apply waitForSelectorWithRetry_quiet|reflexivity]
      |intros [?|?|] ? [[(? & ? & -> & ?) ?] Hexact];
       cbn [default timeout visible from_option] in *;
       [match goal with H : exists n, _ = Element _ n |- _ => destruct H as [? ->] end
       | | ] ]
  | |- wp (sendOTP_catch (Some ?b) ?e) _ _ =>
      apply (wp_summary _ (catch_run b e));
      [intros; apply sendOTP_catch_some
      |intros ? ? (? & ? & ? & ? & ? & ? & ? & ? & ?)]
  | |- wp (sendOTP_catch None _) _ _ => unfold sendOTP_catch
  end.

Lemma sendOTP_login_search env identifier countryCode type w :
  wp (sendOTP env identifier countryCode type) w
    (fun r w' =>
       let evs := events_since w w' in
       forall title,
         DetectBlockPage ∈ steps_of evs ->
         fulfilment (promise_catch (title_reply env) "Unknown") = Some title ->
         is_access_denied title = false ->
         login_search_started evs
         /\ forall pg t e,
              fulfilment (_withTimeout (newPage_reply env) 10000 "Page creation")
              = Some pg ->
              (forall j, (j <= 2)%nat ->
                 waitForSelector_reply env (OnPage pg) loginButtonSelector j
                 = SettlesAfter (t j) (Rejected (e j))) ->
              let failure :=
                Error ("Failed to find Login button after navigation. Page URL: "
                       +:+ page_url env +:+ ", Page Title: " +:+ title
                       +:+ ". Original error: " +:+ message (e 2%nat)) in
              steps_of evs = [Navigate; DetectBlockPage]
              /\ (r = Throws failure \/ r = Hangs)
              /\ forall f,
                   fulfilment (_withTimeout (launchBrowser_reply env) 30000
                                 "Browser launch") = Some f ->
                   close_outcome f <> NeverSettles ->
                   r = Throws failure).
Proof.
  unfold sendOTP, sendOTP_try.
  repeat (first [wp_sum_exact | wp_prim | wp_unfold]; cbv beta iota zeta).
  all: cbv zeta.
  all: try catch_steps.
  all: try events_of_trace.
  all: events_norm.
  all: match goal with
       | |- context [steps_of ?l] =>
           let evs := fresh "evs" in
           let Hevs := fresh "Hevs" in
           remember l as evs eqn:Hevs;
           assert (exists done, steps_of evs = done) as [done Hdone] by eauto;
           rewrite Hdone;
           rewrite Hevs in Hdone; revert Hdone; rewrite <- ?app_assoc in Hevs;
           cbn [app] in Hevs
       end.
  all: steps_norm.
  all: intros <-.
  all: intros title Hreach Htitle Hok.
  all: try (not_in_steps Hreach).
  all: try discriminate Htitle.
  all: injection Htitle as <-.
  all: try congruence.
  all: split; [subst evs; do 3 eexists; in_events|].
  all: intros pg tms errs Hpg Hrej; injection Hpg as <-.
  all: match goal with
       | H : _ = (_waitForSelectorWithRetry _ _ _ _ _).1 |- _ =>
           rewrite (waitForSelectorWithRetry_all_fail _ _ _
                      (Options (Some 60000) (Some 2%nat) (Some 2000) (Some true))
                      _ tms errs Hrej) in H;
           cbn [default retries] in H
       end.
  all: try match goal with H : Returns _ = Throws _ |- _ => discriminate H end.
  all: try match goal with H : Hangs = Throws _ |- _ => discriminate H end.
  all: match goal with H : Throws _ = Throws _ |- _ => injection H as -> end.
  all: split; [reflexivity|].
  all: split; [assumption|].
  all: intros f Hf Hclose.
  all: match goal with
       | H : _ = Throws _ \/ _ = Hangs |- _ => destruct H as [-> | ->]; [reflexivity|]
       end.
  all: exfalso.
  all: match goal with
       | H : Hangs = Hangs -> _ |- _ => destruct (H eq_refl) as (st & Hst & Hnever)
       end.
  all: cbn [browsers quietly set_browsers] in Hst.
  all: rewrite list_lookup_middle in Hst by reflexivity.
  all: injection Hst as <-; injection Hf as <-.
  all: exact (Hclose Hnever).
Qed.

(** X16. A title that cannot be read does not stop the run: [sendOTP]
    takes it to be [Unknown], which is no block page, and goes on to look
    for the Login button. *)
Theorem sendOTP_unreadable_title (env : Env) (identifier countryCode type : jsval)
    (w : world) (t : N) (e : error) :
  let out := sendOTP env identifier countryCode type w in
  let evs := events_since w out.2 in
  title_reply env = SettlesAfter t (Rejected e) ->
  DetectBlockPage ∈ steps_of evs ->
  login_search_started evs.
Proof.
  intros out evs Htitle Hreach.
  refine (proj1 (sendOTP_login_search env identifier countryCode type w
                   "Unknown" Hreach _ eq_refl)).
  rewrite Htitle. reflexivity.
Qed.

Lemma sendOTP_unreadable_title_witness :
  title_reply fragile_env
  = SettlesAfter 3 (Rejected (Error "Execution context was destroyed"))
  /\ DetectBlockPage
       ∈ steps_of (events_since initial_world
                     (sendOTP fragile_env (JStr "9014884219") (JStr "91") (JStr "phone")
                        initial_world).2)
  /\ login_search_started
       (events_since initial_world
          (sendOTP fragile_env (JStr "9014884219") (JStr "91") (JStr "phone")
             initial_world).2).
Proof.
  assert (Hreach : DetectBlockPage
            ∈ steps_of (events_since initial_world
                          (sendOTP fragile_env (JStr "9014884219") (JStr "91")
                             (JStr "phone") initial_world).2)).
  { vm_compute. apply list_elem_of_further, list_elem_of_here. }
  split; [reflexivity|]. split; [exact Hreach|].
  exact (sendOTP_unreadable_title fragile_env (JStr "9014884219") (JStr "91")
           (JStr "phone") initial_world 3 (Error "Execution context was destroyed")
           eq_refl Hreach).
Defined.

(** X17. When the page is loaded and is no block page but none of the
    three waits for the Login button succeeds, [sendOTP] stops there and
    throws an error of its own that quotes the page address, the title and
    the message of the last wait (the error reaches the caller unless
    closing the browser never completes). *)
Theorem sendOTP_login_button_missing (env : Env) (identifier countryCode type : jsval)
    (w : world) (title : string) (pg : Page) (t : nat -> N) (e : nat -> error) :
  let out := sendOTP env identifier countryCode type w in
  let evs := events_since w out.2 in
  let failure :=
    Error ("Failed to find Login button after navigation. Page URL: "
           +:+ page_url env +:+ ", Page Title: " +:+ title
           +:+ ". Original error: " +:+ message (e 2%nat)) in
  DetectBlockPage ∈ steps_of evs ->
  fulfilment (promise_catch (title_reply env) "Unknown") = Some title ->
  is_access_denied title = false ->
  fulfilment (_withTimeout (newPage_reply env) 10000 "Page creation") = Some pg ->
  (forall j, (j <= 2)%nat ->
     waitForSelector_reply env (OnPage pg) loginButtonSelector j
     = SettlesAfter (t j) (Rejected (e j))) ->
  steps_of evs = [Navigate; DetectBlockPage]
  /\ (out.1 = Throws failure \/ out.1 = Hangs)
  /\ forall f,
       fulfilment (_withTimeout (launchBrowser_reply env) 30000 "Browser launch")
       = Some f ->
       close_outcome f <> NeverSettles ->
       out.1 = Throws failure.
Proof.
  intros out evs failure Hreach Htitle Hok Hpg Hrej.
  exact (proj2 (sendOTP_login_search env identifier countryCode type w
                  title Hreach Htitle Hok) pg t e Hpg Hrej).
Qed.

Lemma sendOTP_login_button_missing_witness :
  DetectBlockPage
    ∈ steps_of (events_since initial_world
                  (sendOTP fragile_env (JStr "9014884219") (JStr "91") (JStr "phone")
                     initial_world).2)
  /\ (forall j, (j <= 2)%nat ->
        waitForSelector_reply fragile_env (OnPage 7%nat) loginButtonSelector j
        = SettlesAfter 20000 (Rejected (Error "Waiting for selector failed")))
  /\ (sendOTP fragile_env (JStr "9014884219") (JStr "91") (JStr "phone")
        initial_world).1
     = Throws (Error ("Failed to find Login button after navigation. Page URL: "
                      +:+ "https://partner.zomato.com/login" +:+ ", Page Title: "
                      +:+ "Unknown" +:+ ". Original error: "
                      +:+ "Waiting for selector failed")).
Proof.
  assert (Hreach : DetectBlockPage
            ∈ steps_of (events_since initial_world
                          (sendOTP fragile_env (JStr "9014884219") (JStr "91")
                             (JStr "phone") initial_world).2)).
  { vm_compute. apply list_elem_of_further, list_elem_of_here. }
  assert (Hrej : forall j, (j <= 2)%nat ->
            waitForSelector_reply fragile_env (OnPage 7%nat) loginButtonSelector j
            = SettlesAfter ((fun _ => 20000) j)
                (Rejected ((fun _ => Error "Waiting for selector failed") j)))
    by reflexivity.
  split; [exact Hreach|]. split; [exact Hrej|].
  exact (proj2 (proj2
    (sendOTP_login_button_missing fragile_env (JStr "9014884219") (JStr "91")
       (JStr "phone") initial_world "Unknown" 7%nat (fun _ => 20000)
       (fun _ => Error "Waiting for selector failed")
       Hreach eq_refl eq_refl eq_refl Hrej))
    steady_browser eq_refl ltac:(discriminate)).
Defined.

(** ** What one call may touch *)

(** The [catch] block of [sendOTP] leaves every other browser alone, and
    of its own browser it keeps what the environment decided. *)
Lemma sendOTP_catch_browsers b e w :
  let w' := (sendOTP_catch (A:=SendOTPResult) (Some b) e w).2 in
  (forall i, i <> b -> browsers w' !! i = browsers w !! i)
  /\ (forall st', browsers w' !! b = Some st' ->
        exists st, browsers w !! b = Some st
                   /\ fate st' = fate st /\ launched_at st' = launched_at st).
Proof.
  cbv zeta.
  change (wp (sendOTP_catch (A:=SendOTPResult) (Some b) e) w
            (fun _ w' =>
               (forall i, i <> b -> browsers w' !! i = browsers w !! i)
               /\ (forall st', browsers w' !! b = Some st' ->
                     exists st, browsers w !! b = Some st
                                /\ fate st' = fate st
                                /\ launched_at st' = launched_at st))).
  unfold sendOTP_catch. wp_go.
  all: cbn [browsers quietly set_browsers log_event mark_closed].
  all: split;
    [intros i Hi; rewrite ?list_lookup_alter_ne by congruence; reflexivity|].
  all: intros st'; rewrite ?list_lookup_alter_eq.
  all: try (intros Hst; eexists; split; [exact Hst|split; reflexivity]).
  all: intros Hst; apply fmap_Some in Hst as (st & Hst & ->);
    exists st; split; [exact Hst|split; reflexivity].
Qed.

Ltac wp_sum_browsers :=
  lazymatch goal with
  | |- wp (_makePageStealth _ _) _ _ =>
      apply (wp_summary _ stealth_run);
      [intros; apply makePageStealth_quiet
      |intros ? ? [[-> | ->] (? & ? & -> & ? & ?)]]
  | |- wp (_waitForSelectorWithRetry _ ?on ?sel ?opts) _ _ =>
      apply (wp_summary _ (retry_run on sel opts));
      [intros; apply waitForSelectorWithRetry_quiet
      |intros [?|?|] ? [(? & ? & -> & ?) ?];
       cbn [default timeout visible from_option] in *;
       [match goal with H : exists n, _ = Element _ n |- _ => destruct H as [? ->] end
       | | ] ]
  | |- wp (sendOTP_catch (Some ?b) ?e) _ _ =>
      apply (wp_summary _
               (fun w r w' =>
                  catch_run b e w r w'
                  /\ (forall i, i <> b -> browsers w' !! i = browsers w !! i)
                  /\ (forall st', browsers w' !! b = Some st' ->
                        exists st, browsers w !! b = Some st
                                   /\ fate st' = fate st
                                   /\ launched_at st' = launched_at st)));
      [intros; split; [apply sendOTP_catch_some|apply sendOTP_catch_browsers]
      |intros ? ? [(_ & _ & _ & ? & ? & _) [? ?]]]
  | |- wp (sendOTP_catch None _) _ _ => unfold sendOTP_catch
  end.

Lemma sendOTP_browsers env identifier countryCode type w :
  wp (sendOTP env identifier countryCode type) w
    (fun r w' =>
       (forall i st, browsers w !! i = Some st -> browsers w' !! i = Some st)
       /\ (length (browsers w') <= S (length (browsers w)))%nat
       /\ (forall st, browsers w' !! length (browsers w) = Some st ->
             fulfilment (_withTimeout (launchBrowser_reply env) 30000 "Browser launch")
             = Some (fate st)
             /\ clock w <= launched_at st <= clock w')).
Proof.
  unfold sendOTP, sendOTP_try.
  repeat (first [wp_sum_browsers | wp_prim | wp_unfold]; cbv beta iota zeta).
  all: cbn [browsers quietly set_browsers set_sessionCache set_timers log_event].
  all: try match goal with
           | H : forall i, i <> _ -> browsers _ !! i = _,
             H' : forall st', browsers _ !! _ = Some st' -> _,
             Hl : length (browsers _) = _ |- _ =>
               cbn [browsers quietly set_browsers set_sessionCache set_timers log_event]
                 in H, H', Hl
           end.
  all: split;
    [intros i st Hi;
     first [ exact Hi
           | apply lookup_app_l_Some; exact Hi
           | match goal with
             | H : forall i, i <> _ -> browsers _ !! i = _ |- _ =>
                 rewrite H by (apply lookup_lt_Some in Hi; lia);
                 cbn [browsers quietly set_browsers set_sessionCache set_timers
                        log_event];
                 apply lookup_app_l_Some; exact Hi
             end ]|].
  all: split;
    [repeat match goal with
            | H : length (browsers _) = _ |- _ => rewrite H
            end;
     cbn [browsers quietly set_browsers set_sessionCache set_timers log_event];
     rewrite ?length_app; cbn [length]; lia|].
  all: intros st Hst.
  all: try match goal with
           | H : forall st', browsers _ !! _ = Some st' -> _ |- _ =>
               destruct (H _ Hst) as (st0 & Hst0 & -> & ->); clear Hst;
               rename Hst0 into Hst
           end.
  all: cbn [browsers quietly set_browsers set_sessionCache set_timers log_event] in Hst.
  all: try (rewrite lookup_ge_None_2 in Hst by lia; discriminate Hst).
  all: rewrite list_lookup_middle in Hst by reflexivity.
  all: injection Hst as <-; cbn [fate launched_at fulfilment].
  all: split; [reflexivity|].
  all: repeat match goal with
              | H : clock _ <= clock _ |- _ => revert H
              end;
    cbn [clock quietly set_browsers set_sessionCache set_timers log_event]; lia.
Qed.

(** ** Browsers over the life of the process *)

Lemma browsers_persist_refl w : browsers_persist w w.
Proof. split; [lia|]. intros i st Hi. exists st. auto. Qed.

Lemma browsers_persist_trans w1 w2 w3 :
  browsers_persist w1 w2 -> browsers_persist w2 w3 -> browsers_persist w1 w3.
Proof.
  intros [Hc1 H1] [Hc2 H2]. split; [lia|].
  intros i st Hi.
  destruct (H1 i st Hi) as (st' & Hi' & Hf & Hl & Hcl).
  destruct (H2 i st' Hi') as (st'' & Hi'' & Hf' & Hl' & Hcl').
  exists st''. split; [exact Hi''|]. split; [congruence|]. split; [congruence|auto].
Qed.

(** A browser that is connected later was connected before. *)
Lemma browsers_persist_connected w w' (b : Browser) :
  browsers_persist w w' -> (b < length (browsers w))%nat ->
  isConnected b w' = true -> isConnected b w = true.
Proof.
  intros [Hc Hp] Hb. unfold isConnected.
  destruct (lookup_lt_is_Some_2 _ _ Hb) as [st Hst].
  destruct (Hp b st Hst) as (st' & Hst' & Hf & Hl & Hcl).
  assert (E : browsers w !! b = Some st) by exact Hst.
  assert (E' : browsers w' !! b = Some st') by exact Hst'.
  rewrite E, E', Hf, Hl.
  destruct (closed st) eqn:Ecl.
  - rewrite (Hcl eq_refl). discriminate.
  - intros H. apply andb_prop in H as [_ H]. cbn [negb andb].
    destruct (drops_after (fate st)) as [d|]; [|reflexivity].
    apply N.ltb_lt in H. apply N.ltb_lt. lia.
Qed.

Lemma sendOTP_persist env identifier countryCode type w :
  browsers_persist w (sendOTP env identifier countryCode type w).2.
Proof.
  destruct (sendOTP_frame env identifier countryCode type w) as (Hc & _).
  destruct (sendOTP_browsers env identifier countryCode type w) as (Hb & _).
  split; [exact Hc|].
  intros i st Hi. exists st. split; [apply Hb, Hi|auto].
Qed.

Lemma cleanup_callback_persist b sid W :
  browsers_persist W (cleanup_callback b sid W).2.
Proof.
  change (wp (cleanup_callback b sid) W (fun _ W' => browsers_persist W W')).
  wp_go.
  all: split; [cbn [clock log_event set_sessionCache mark_closed set_browsers]; lia|].
  all: cbn [browsers log_event set_sessionCache mark_closed set_browsers].
  all: intros i st Hi.
  all: try (exists st; split; [exact Hi|auto]).
  all: destruct (decide (i = b)) as [->|Hne];
    [rewrite list_lookup_alter_eq, Hi; eexists; split; [reflexivity|auto]
    |rewrite list_lookup_alter_ne by congruence; exists st; split; [exact Hi|auto]].
Qed.

Lemma set_clock_persist c W : clock W <= c -> browsers_persist W (set_clock c W).
Proof. intros Hc. split; [exact Hc|]. intros i st Hi. exists st. auto. Qed.

Lemma fire_persist W t : browsers_persist W (fire W t).
Proof.
  unfold fire. eapply browsers_persist_trans;
    [apply (set_clock_persist (N.max (clock W) (due t))); lia
    |apply cleanup_callback_persist].
Qed.

Lemma fold_fire_persist ts : forall W, browsers_persist W (foldl fire W ts).
Proof.
  induction ts as [|t ts IH]; intros W; cbn [foldl].
  - apply browsers_persist_refl.
  - eapply browsers_persist_trans; [apply fire_persist|apply IH].
Qed.

Lemma fold_fire_clock D ts :
  forall W, (forall t, t ∈ ts -> due t <= D) -> clock W <= D ->
            clock (foldl fire W ts) <= D.
Proof.
  induction ts as [|t ts IH]; intros W Hts HD; cbn [foldl]; [exact HD|].
  apply IH; [intros t' Ht'; apply Hts; right; exact Ht'|].
  destruct (fire_facts W t) as (-> & _). pose proof (Hts t ltac:(left)). lia.
Qed.

Lemma elapse_persist dt w : browsers_persist w (elapse dt w).
Proof.
  unfold elapse.
  set (W0 := set_timers _ w). set (ts := filter _ (timers w)).
  eapply browsers_persist_trans; [|apply set_clock_persist].
  - eapply browsers_persist_trans; [|apply fold_fire_persist].
    split; [reflexivity|]. intros i st Hi. exists st. auto.
  - apply fold_fire_clock.
    + intros t Ht. apply list_elem_of_filter in Ht as [Ht _]. exact Ht.
    + cbn. lia.
Qed.

(** Once its callback has run, a session is gone or its browser is not
    connected. *)
Lemma fire_effect W t :
  sessionCache (fire W t) !! timer_sessionId t = None
  \/ isConnected (timer_browser t) (fire W t) = false.
Proof.
  unfold fire.
  set (W0 := set_clock _ W).
  destruct (cleanup_callback_spec (timer_browser t) (timer_sessionId t) W0)
    as (_ & _ & _ & _ & _ & _ & Hconn & Hdis).
  destruct (isConnected (timer_browser t) W0) eqn:E.
  - left. destruct (Hconn eq_refl) as [-> _]. apply lookup_delete_eq.
  - right. rewrite (Hdis eq_refl).
    rewrite <- E. apply isConnected_depends; reflexivity.
Qed.

Lemma fold_fire_effect ts :
  forall W t,
    t ∈ ts -> (timer_browser t < length (browsers W))%nat ->
    let W' := foldl fire W ts in
    sessionCache W' !! timer_sessionId t = None
    \/ isConnected (timer_browser t) W' = false.
Proof.
  induction ts as [|t0 ts IH]; intros W t Ht Hb; cbn [foldl]; cbv zeta.
  - apply elem_of_nil in Ht. destruct Ht.
  - destruct (fire_facts W t0) as (_ & _ & Hl & _).
    apply elem_of_cons in Ht as [->|Ht].
    + destruct (fold_fire_facts ts (fire W t0)) as (_ & _ & _ & Hsub & _).
      destruct (fire_effect W t0) as [Hnone|Hdis].
      * left. destruct (sessionCache (foldl fire (fire W t0) ts) !! timer_sessionId t0)
          as [d|] eqn:E; [|reflexivity].
        apply Hsub in E. rewrite Hnone in E. discriminate E.
      * right.
        destruct (isConnected (timer_browser t0) (foldl fire (fire W t0) ts)) eqn:E;
          [|reflexivity].
        apply (browsers_persist_connected (fire W t0)) in E;
          [congruence|apply fold_fire_persist|lia].
    + apply IH; [exact Ht|lia].
Qed.

(** Sessions in the cache name browsers that exist, and one whose browser
    is connected still has its cleanup ahead of it. *)
Lemma run_sessions h :
  forall k d,
    sessionCache (run h) !! k = Some d ->
    (browser d < length (browsers (run h)))%nat
    /\ (isConnected (browser d) (run h) = true ->
        exists t, t ∈ timers (run h)
                  /\ timer_sessionId t = k /\ timer_browser t = browser d).
Proof.
  induction h as [|a h IH] using rev_ind; intros k d Hk.
  - change (sessionCache (run [])) with (∅ : gmap string sessionData) in Hk.
    rewrite lookup_empty in Hk. discriminate Hk.
  - rewrite run_snoc in *.
    destruct a as [env identifier countryCode type|dt]; cbn [perform] in *.
    + pose proof (sendOTP_persist env identifier countryCode type (run h)) as Hp.
      destruct (sendOTP_outcome env identifier countryCode type (run h))
        as (Hc & Hl & [(res & _ & _ & Hs)|(_ & Hca & Htm)]).
      * destruct Hs as (f & d0 & m & n & launched & pre & Hs). cbv zeta in Hs.
        destruct Hs as (_ & _ & Hb & Hca & Htm & Hbr & _ & _).
        rewrite Hca in Hk. rewrite Htm, Hbr, length_app. cbn [length].
        destruct (decide (k = uuidv4 env)) as [->|Hne].
        -- rewrite lookup_insert_eq in Hk. injection Hk as <-.
           split; [lia|]. intros _. eexists.
           split; [apply elem_of_app; right; apply list_elem_of_here|].
           split; [reflexivity|cbn; congruence].
        -- rewrite lookup_insert_ne in Hk by congruence.
           destruct (IH k d Hk) as [Hlt Htimer].
           split; [lia|]. intros Hconn.
           destruct Htimer as (t & Ht & Hid & Hbt).
           { eapply browsers_persist_connected; [exact Hp|exact Hlt|exact Hconn]. }
           exists t. split; [apply elem_of_app; left; exact Ht|auto].
      * rewrite Hca in Hk. rewrite Htm.
        destruct (IH k d Hk) as [Hlt Htimer].
        split; [lia|]. intros Hconn. apply Htimer.
        eapply browsers_persist_connected; [exact Hp|exact Hlt|exact Hconn].
    + destruct (elapse_facts dt (run h)) as (Hc & Htm & Hl & Hsub & _).
      pose proof (elapse_persist dt (run h)) as Hp.
      destruct (IH k d (Hsub k d Hk)) as [Hlt Htimer].
      split; [lia|]. intros Hconn.
      destruct Htimer as (t & Ht & Hid & Hbt);
        [eapply browsers_persist_connected; [exact Hp|exact Hlt|exact Hconn]|].
      destruct (decide (due t <= clock (run h) + dt)) as [Hdue|Hlater].
      * exfalso.
        assert (Hin : t ∈ filter (fun t => due t <= clock (run h) + dt) (timers (run h)))
          by (apply list_elem_of_filter; split; assumption).
        revert Hk Hconn. unfold elapse.
        set (W0 := set_timers _ (run h)).
        set (ts := filter (fun t => due t <= clock (run h) + dt) (timers (run h))) in *.
        intros Hk Hconn.
        destruct (fold_fire_effect ts W0 t Hin) as [Hnone|Hdis].
        -- cbn. lia.
        -- rewrite Hid in Hnone. cbn [sessionCache set_clock] in Hk.
           rewrite Hnone in Hk. discriminate Hk.
        -- rewrite Hbt in Hdis.
           apply (browsers_persist_connected (foldl fire W0 ts)) in Hconn.
           ++ rewrite Hdis in Hconn. discriminate Hconn.
           ++ apply set_clock_persist. apply fold_fire_clock.
              ** intros t' Ht'. apply list_elem_of_filter in Ht' as [Ht' _]. exact Ht'.
              ** cbn. lia.
           ++ destruct (fold_fire_facts ts W0) as (_ & _ & Hl' & _).
              rewrite Hl'. cbn. exact Hlt.
      * exists t. split; [|auto]. rewrite Htm.
        apply list_elem_of_filter. split; assumption.
Qed.

(** X18. The footprint of one call.  Whatever happens, [sendOTP] leaves
    the browsers of earlier calls exactly as they were, adds at most one
    browser (the one the launch produced, launched during the call), and
    never sets the clock back; unless it returns, the session cache and
    the pending timers are as before, also when the call never
    completes. *)
Theorem sendOTP_footprint (env : Env) (identifier countryCode type : jsval) (w : world) :
  let out := sendOTP env identifier countryCode type w in
  clock w <= clock out.2
  /\ (forall i st, browsers w !! i = Some st -> browsers out.2 !! i = Some st)
  /\ (length (browsers out.2) <= S (length (browsers w)))%nat
  /\ (forall st, browsers out.2 !! length (browsers w) = Some st ->
        fulfilment (_withTimeout (launchBrowser_reply env) 30000 "Browser launch")
        = Some (fate st)
        /\ clock w <= launched_at st <= clock out.2)
  /\ ((forall res, out.1 <> Returns res) ->
      sessionCache out.2 = sessionCache w /\ timers out.2 = timers w).
Proof.
  cbv zeta.
  destruct (sendOTP_frame env identifier countryCode type w) as (Hc & _ & Hf).
  destruct (sendOTP_browsers env identifier countryCode type w) as (Hb & Hl & Hn).
  split; [exact Hc|]. split; [exact Hb|]. split; [exact Hl|].
  split; [exact Hn|exact Hf].
Qed.

(** X19. No session is forgotten while its browser is alive: over any
    history of requests and pauses, a session in the cache whose browser
    is still connected has its cleanup callback pending, for that session
    and that browser, due within the next five minutes. *)
Theorem cached_session_cleanup_pending (history : list action) (k : string)
    (d : sessionData) :
  sessionCache (run history) !! k = Some d ->
  isConnected (browser d) (run history) = true ->
  exists t,
    t ∈ timers (run history)
    /\ timer_sessionId t = k
    /\ timer_browser t = browser d
    /\ due t <= clock (run history) + 300000.
Proof.
  intros Hk Hconn.
  destruct (run_sessions history k d Hk) as [_ Ht].
  destruct (Ht Hconn) as (t & Hin & Hid & Hb).
  exists t. split; [exact Hin|]. split; [exact Hid|]. split; [exact Hb|].
  apply (run_timers history t Hin).
Qed.

Lemma cached_session_cleanup_pending_witness :
  sessionCache (run [Call happy_env (JStr "9014884219") (JStr "91") (JStr "phone");
                     Elapse 120000])
  !! sample_uuid = Some (Session 0%nat 7%nat 3%nat)
  /\ isConnected 0%nat
       (run [Call happy_env (JStr "9014884219") (JStr "91") (JStr "phone");
             Elapse 120000]) = true
  /\ exists t,
       t ∈ timers (run [Call happy_env (JStr "9014884219") (JStr "91") (JStr "phone");
                        Elapse 120000])
       /\ timer_sessionId t = sample_uuid.
Proof.
  assert (Hk : sessionCache
                 (run [Call happy_env (JStr "9014884219") (JStr "91") (JStr "phone");
                       Elapse 120000])
               !! sample_uuid = Some (Session 0%nat 7%nat 3%nat))
    by (vm_compute; reflexivity).
  assert (Hc : isConnected (browser (Session 0%nat 7%nat 3%nat))
                 (run [Call happy_env (JStr "9014884219") (JStr "91") (JStr "phone");
                       Elapse 120000]) = true)
    by (vm_compute; reflexivity).
  split; [exact Hk|]. split; [exact Hc|].
  destruct (cached_session_cleanup_pending _ _ _ Hk Hc) as (t & Hin & Hid & _).
  exists t. split; [exact Hin|exact Hid].
Defined.

Lemma filter_none {A} (P : A -> Prop) `{forall x, Decision (P x)} (l : list A) :
  (forall x, x ∈ l -> ~ P x) -> filter P l = [].
Proof.
  induction l as [|a l IH]; intros Hl; [reflexivity|].
  rewrite filter_cons. destruct (decide (P a)) as [Ha|_].
  - exfalso. exact (Hl a ltac:(left) Ha).
  - apply IH. intros x Hx. apply Hl. right. exact Hx.
Qed.

(** X20. Five quiet minutes settle everything: after any history, once
    five minutes or more pass without a request, no cleanup callback is
    left pending, and no session that remains in the cache has a connected
    browser. *)
Theorem no_live_session_after_five_minutes (history : list action) (dt : N) :
  300000 <= dt ->
  let w' := run (history ++ [Elapse dt]) in
  timers w' = []
  /\ forall k d, sessionCache w' !! k = Some d -> isConnected (browser d) w' = false.
Proof.
  intros Hdt w'.
  assert (Ht : timers w' = []).
  { subst w'. rewrite run_snoc. cbn [perform].
    destruct (elapse_facts dt (run history)) as (_ & -> & _).
    apply filter_none. intros t Hin Hlate.
    destruct (run_timers history t Hin) as (_ & Hdue & _). apply Hlate. lia. }
  split; [exact Ht|].
  intros k d Hk.
  destruct (isConnected (browser d) w') eqn:E; [|reflexivity].
  destruct (run_sessions (history ++ [Elapse dt]) k d Hk) as [_ Hpending].
  destruct (Hpending E) as (t & Hin & _).
  fold w' in Hin. rewrite Ht in Hin. apply elem_of_nil in Hin. destruct Hin.
Qed.

Lemma no_live_session_after_five_minutes_witness :
  300000 <= 300000
  /\ timers (run ([Call dropping_env (JStr "9014884219") (JStr "91") (JStr "phone")]
                  ++ [Elapse 300000])) = []
  /\ isConnected 0%nat
       (run ([Call dropping_env (JStr "9014884219") (JStr "91") (JStr "phone")]
             ++ [Elapse 300000])) = false.
Proof.
  split; [lia|].
  destruct (no_live_session_after_five_minutes
              [Call dropping_env (JStr "9014884219") (JStr "91") (JStr "phone")]
              300000 ltac:(lia)) as [Ht Hs].
  split; [exact Ht|].
  apply (Hs sample_uuid (Session 0%nat 7%nat 3%nat)).
  vm_compute. reflexivity.
Defined.


(** ** [sendOTP]: the click on the email path *)

Lemma retry_loop_calls reply pageOrFrame selector timeout retries retryDelay visible
    remaining :
  forall attempt lastError w,
    let out := retry_loop reply pageOrFrame selector timeout retries retryDelay
                 visible remaining attempt lastError w in
    exists dt evs, out.2 = quietly dt evs w /\ Forall is_wait_or_sleep evs.
Proof.
  induction remaining as [|remaining IH]; intros attempt lastError w; cbv zeta.
  - rewrite loop_exhausted. exists 0, []. split; [|constructor].
    unfold quietly; destruct w; simpl.
    rewrite N.add_0_r, app_nil_r. reflexivity.
  - destruct (reply attempt) as [t [v|e]|] eqn:Hr.
    + rewrite (loop_fulfilled _ _ _ _ _ _ _ _ _ _ _ _ _ Hr).
      exists t, [wait_event pageOrFrame selector timeout retries visible attempt].
      split; [reflexivity|repeat constructor].
    + rewrite (loop_rejected _ _ _ _ _ _ _ _ _ _ _ _ _ Hr).
      edestruct IH as (dt & evs & -> & Hs).
      destruct (Nat.ltb attempt retries); cbv zeta;
        rewrite ?quietly_quietly; do 2 eexists; (split; [reflexivity|]);
        repeat (apply Forall_app; split); try exact Hs; repeat constructor.
    + rewrite (loop_never _ _ _ _ _ _ _ _ _ _ _ Hr).
      exists 0, [wait_event pageOrFrame selector timeout retries visible attempt].
      split; [|repeat constructor].
      unfold quietly, log_event; simpl. rewrite N.add_0_r. reflexivity.
Qed.

Lemma waitForSelectorWithRetry_calls reply pageOrFrame selector options w :
  retry_calls selector w
    (_waitForSelectorWithRetry reply pageOrFrame selector options w).1
    (_waitForSelectorWithRetry reply pageOrFrame selector options w).2.
Proof.
  split.
  - apply retry_loop_calls.
  - destruct (waitForSelectorWithRetry_quiet reply pageOrFrame selector options w)
      as [_ Hel]. exact Hel.
Qed.

Lemma wait_or_sleep_no_click evs pg x y :
  Forall is_wait_or_sleep evs -> Ev_mouse_click pg x y ∈ evs -> False.
Proof. intros H Hin. rewrite Forall_forall in H. exact (H _ Hin). Qed.

Lemma stealth_no_click evs pg x y :
  Forall is_stealth_call evs -> Ev_mouse_click pg x y ∈ evs -> False.
Proof. intros H Hin. rewrite Forall_forall in H. exact (H _ Hin). Qed.

Ltac wp_sum_calls :=
  lazymatch goal with
  | |- wp (_makePageStealth _ _) _ _ =>
      apply (wp_summary _ stealth_run);
      [intros; apply makePageStealth_quiet
      |intros ? ? [[-> | ->] (? & ? & -> & ? & ?)]]
  | |- wp (_waitForSelectorWithRetry _ ?on ?sel ?opts) _ _ =>
      apply (wp_summary _ (retry_calls sel));
      [intros; apply waitForSelectorWithRetry_calls
      |intros [?|?|] ? [(? & ? & -> & ?) ?];
       [match goal with H : exists n, _ = Element _ n |- _ => destruct H as [? ->] end
       | | ] ]
  | |- wp (sendOTP_catch (Some ?b) ?e) _ _ =>
      apply (wp_summary _ (catch_run b e));
      [intros; apply sendOTP_catch_some
      |intros ? ? (? & ? & ? & ? & ? & ? & ? & ? & ?)]
  | |- wp (sendOTP_catch None _) _ _ => unfold sendOTP_catch
  end.

Ltac elem_search :=
  first [ apply list_elem_of_here
        | apply list_elem_of_further; elem_search
        | apply elem_of_app; left; elem_search
        | apply elem_of_app; right; elem_search ].

(** Split a membership in a list built from [::] and [++] into its
    cases. *)
Ltac in_cases H :=
  repeat match type of H with
         | _ ∈ _ ++ _ => apply elem_of_app in H as [H|H]
         | _ ∈ _ :: _ => apply elem_of_cons in H as [H|H]
         | _ ∈ [] => apply elem_of_nil in H; destruct H
         end.

Lemma sendOTP_mouse env identifier countryCode type w :
  wp (sendOTP env identifier countryCode type) w
    (fun r w' =>
       let evs := events_since w w' in
       (forall pg x y,
          Ev_mouse_click pg x y ∈ evs ->
          strict_eq_str (default_param type (JStr "phone")) "email" = true
          /\ exists n m box frameBox,
               fulfilment (boundingBox_reply env (Element continueWithEmailSelector n))
               = Some (Some box)
               /\ fulfilment (boundingBox_reply env (Element iframeSelector m))
                  = Some (Some frameBox)
               /\ (x, y) = click_point frameBox box)
       /\ (forall res, r = Returns res ->
             strict_eq_str (default_param type (JStr "phone")) "email" = true ->
             exists pg x y, Ev_mouse_click pg x y ∈ evs)).
Proof.
  unfold sendOTP, sendOTP_try.
  repeat (first [wp_sum_calls | wp_prim | wp_unfold]; cbv beta iota zeta).
  all: cbv zeta.
  all: try match goal with
           | H : ?x = [_] \/ ?x = [_; _] /\ _ |- _ =>
               assert (forall pg x' y, Ev_mouse_click pg x' y ∈ x -> False)
                 by (intros ? ? ? Hin; destruct H as [-> | [-> _]]; in_cases Hin;
                     discriminate Hin);
               clear H
           end.
  all: try events_of_trace.
  all: events_norm.
  all: split;
    [intros pg x' y' Hin; in_cases Hin; try discriminate Hin;
     try (exfalso; eapply wait_or_sleep_no_click; eassumption);
     try (exfalso; eapply stealth_no_click; eassumption);
     try (exfalso; match goal with
                   | H : forall pg x y, Ev_mouse_click pg x y ∈ _ -> False |- _ =>
                       eapply H; eassumption
                   end)
    |intros res Hres Hemail;
     try discriminate Hres; try discriminate Hemail;
     try (exfalso; match goal with
                   | H : _ = Throws _ \/ _ = Hangs |- _ => destruct H; congruence
                   end)].
  all: try (do 3 eexists; elem_search).
  all: injection Hin as -> -> ->.
  all: split; [reflexivity|].
  all: match goal with
       | H1 : boundingBox_reply _ (Element continueWithEmailSelector ?n)
              = SettlesAfter _ (Fulfilled (Some ?box)),
         H2 : boundingBox_reply _ (Element iframeSelector ?m)
              = SettlesAfter _ (Fulfilled (Some ?frameBox)) |- _ =>
           exists n, m, box, frameBox; rewrite H1, H2
       end.
  all: repeat split.
Qed.

(** X21. The mouse is used on the email path only.  Every mouse click of
    a run is made on behalf of [type === 'email'], after both bounding
    boxes were obtained, and it hits the centre of the [Continue with
    Email] button: the midpoint of its edges, shifted by the origin of the
    login iframe.  A run on the email path that returns has made that
    click. *)
Theorem sendOTP_email_click (env : Env) (identifier countryCode type : jsval)
    (w : world) :
  let out := sendOTP env identifier countryCode type w in
  let evs := events_since w out.2 in
  (forall pg x y,
     Ev_mouse_click pg x y ∈ evs ->
     type = JStr "email"
     /\ exists n m box frameBox,
          fulfilment (boundingBox_reply env (Element continueWithEmailSelector n))
          = Some (Some box)
          /\ fulfilment (boundingBox_reply env (Element iframeSelector m))
             = Some (Some frameBox)
          /\ (x == box_x frameBox
                   + (box_x box + (box_x box + box_width box)) / 2)%Q
          /\ (y == box_y frameBox
                   + (box_y box + (box_y box + box_height box)) / 2)%Q)
  /\ ((exists res, out.1 = Returns res) ->
      type = JStr "email" ->
      exists pg x y, Ev_mouse_click pg x y ∈ evs).
Proof.
  cbv zeta.
  destruct (sendOTP_mouse env identifier countryCode type w) as [Hclick Hdone].
  assert (Hemail : strict_eq_str (default_param type (JStr "phone")) "email" = true
                   <-> type = JStr "email").
  { rewrite <- path_of_email. unfold path_of.
    destruct (strict_eq_str _ _); split; intros H; try reflexivity; discriminate H. }
  split.
  - intros pg x y Hin.
    destruct (Hclick pg x y Hin) as (Hty & n & m & box & frameBox & Hb & Hf & Hxy).
    split; [apply Hemail, Hty|].
    exists n, m, box, frameBox. split; [exact Hb|]. split; [exact Hf|].
    unfold click_point in Hxy. injection Hxy as -> ->.
    split; rewrite Qred_correct; field.
  - intros [res Hres] Hty. apply (Hdone res Hres). apply Hemail, Hty.
Qed.

Lemma sendOTP_email_click_witness :
  (exists res,
     (sendOTP happy_env (JStr "owner@example.com") JUndefined (JStr "email")
        initial_world).1 = Returns res)
  /\ exists pg x y,
       Ev_mouse_click pg x y
         ∈ events_since initial_world
             (sendOTP happy_env (JStr "owner@example.com") JUndefined (JStr "email")
                initial_world).2.
Proof.
  assert (Hres : exists res,
            (sendOTP happy_env (JStr "owner@example.com") JUndefined (JStr "email")
               initial_world).1 = Returns res)
    by (eexists; vm_compute; reflexivity).
  split; [exact Hres|].
  exact (proj2 (sendOTP_email_click happy_env (JStr "owner@example.com") JUndefined
                  (JStr "email") initial_world) Hres eq_refl).
Defined.


(** ** [sendOTP]: completion and the navigation target *)

Lemma makePageStealth_hang env page w :
  (_makePageStealth env page w).1 = Hangs ->
  exists p, p ∈ stealth_replies env /\ p = NeverSettles.
Proof.
  change (wp (_makePageStealth env page) w
            (fun r _ => r = Hangs ->
                        exists p, p ∈ stealth_replies env /\ p = NeverSettles)).
  wp_go.
  all: intros Hr; try discriminate Hr.
  all: match goal with
       | H : ?p = NeverSettles |- _ =>
           exists p; split; [unfold stealth_replies; elem_search|exact H]
       end.
Qed.

Lemma retry_loop_hang reply pageOrFrame selector timeout retries retryDelay visible
    remaining :
  forall attempt lastError w,
    (retry_loop reply pageOrFrame selector timeout retries retryDelay visible
       remaining attempt lastError w).1 = Hangs ->
    exists j, reply j = NeverSettles.
Proof.
  induction remaining as [|remaining IH]; intros attempt lastError w.
  - rewrite loop_exhausted. discriminate.
  - destruct (reply attempt) as [t [v|e]|] eqn:Hr.
    + rewrite (loop_fulfilled _ _ _ _ _ _ _ _ _ _ _ _ _ Hr). discriminate.
    + rewrite (loop_rejected _ _ _ _ _ _ _ _ _ _ _ _ _ Hr). apply IH.
    + intros _. exists attempt. exact Hr.
Qed.

Lemma promise_catch_never {A} (p : promise A) fallback :
  promise_catch p fallback = NeverSettles -> p = NeverSettles.
Proof. destruct p as [t [v|e]|]; [discriminate|discriminate|reflexivity]. Qed.

Ltac wp_sum_cause :=
  lazymatch goal with
  | |- wp (_makePageStealth ?env ?page) _ _ =>
      apply (wp_summary _
               (fun w r w' =>
                  stealth_run w r w' /\ r = (_makePageStealth env page w).1));
      [intros; split; [apply makePageStealth_quiet|reflexivity]
      |intros ? ? [[[-> | ->] (? & ? & -> & ? & ?)] Hstealth]]
  | |- wp (_waitForSelectorWithRetry ?reply ?on ?sel ?opts) _ _ =>
      apply (wp_summary _
               (fun w r w' =>
                  retry_calls sel w r w'
                  /\ r = (_waitForSelectorWithRetry reply on sel opts w).1));
      [intros; split; [apply waitForSelectorWithRetry_calls|reflexivity]
      |intros [?|?|] ? [[(? & ? & -> & ?) ?] Hretry];
       [match goal with H : exists n, _ = Element _ n |- _ => destruct H as [? ->] end
       | | ] ]
  | |- wp (sendOTP_catch (Some ?b) ?e) _ _ =>
      apply (wp_summary _ (catch_run b e));
      [intros; apply sendOTP_catch_some
      |intros ? ? (? & ? & ? & ? & ? & ? & ? & ? & ?)]
  | |- wp (sendOTP_catch None _) _ _ => unfold sendOTP_catch
  end.

Lemma sendOTP_calls env identifier countryCode type w :
  wp (sendOTP env identifier countryCode type) w
    (fun r w' =>
       let evs := events_since w w' in
       (forall pg url waitUntil t,
          Ev_goto pg url waitUntil t ∈ evs ->
          fulfilment (_withTimeout (newPage_reply env) 10000 "Page creation") = Some pg
          /\ url = zomatoPartnersUrl env +:+ "/login"
          /\ waitUntil = "networkidle2"%string
          /\ t = 60000)
       /\ (page_operations_settle env -> close_settles env -> r = Hangs -> False)).
Proof.
  unfold sendOTP, sendOTP_try.
  repeat (first [wp_sum_cause | wp_prim | wp_unfold]; cbv beta iota zeta).
  all: cbv zeta.
  all: split;
    [try match goal with
         | H : ?x = [_] \/ ?x = [_; _] /\ _ |- _ =>
             assert (forall pg url waitUntil t, Ev_goto pg url waitUntil t ∈ x -> False)
               by (intros ? ? ? ? Hin; destruct H as [-> | [-> _]]; in_cases Hin;
                   discriminate Hin);
             clear H
         end;
     try events_of_trace; events_norm;
     intros pg url waitUntil tm Hin; in_cases Hin; try discriminate Hin;
     try (exfalso; match goal with
                   | H : Forall is_wait_or_sleep ?l, Hin : _ ∈ ?l |- _ =>
                       rewrite Forall_forall in H; exact (H _ Hin)
                   | H : Forall is_stealth_call ?l, Hin : _ ∈ ?l |- _ =>
                       rewrite Forall_forall in H; exact (H _ Hin)
                   | H : forall pg url waitUntil t, Ev_goto pg url waitUntil t ∈ _ -> False
                     |- _ => eapply H; eassumption
                   end)
    |intros (Hs1 & Hs2 & Hs3 & Hs4 & Hs5 & Hs6 & Hs7 & Hs8 & Hs9 & Hs10 & Hs11) Hc Hr;
     unfold settles in *; try discriminate Hr].
  all: try (injection Hin as -> -> -> ->; repeat split).
  all: try match goal with
           | H : _withTimeout _ _ _ = NeverSettles |- _ =>
               exact (withTimeout_settles _ _ _ H)
           | H : promise_catch _ _ = NeverSettles |- _ =>
               exact (Hs4 (promise_catch_never _ _ H))
           | H : Hangs = (_makePageStealth _ _ _).1 |- _ =>
               symmetry in H; apply makePageStealth_hang in H as (p & Hp & ->);
               unfold stealth_replies in Hp; in_cases Hp; eauto
           | H : Hangs = (_waitForSelectorWithRetry _ _ _ _ _).1 |- _ =>
               symmetry in H; apply retry_loop_hang in H as (j & Hj); eauto
           | Hh : ?r = Hangs -> exists st, _,
             Hl : _withTimeout (launchBrowser_reply _) _ _ = SettlesAfter _ (Fulfilled ?v)
             |- _ =>
               destruct (Hh Hr) as (st & Hst & Hnever);
               cbn [browsers quietly set_browsers] in Hst;
               rewrite list_lookup_middle in Hst by reflexivity;
               injection Hst as <-;
               unfold close_settles, settles in Hc;
               apply (Hc v); [rewrite Hl; reflexivity|exact Hnever]
           | H : _ = NeverSettles |- _ => solve [eauto]
           end.
Qed.

(** X22. [sendOTP] completes whenever the page operations it awaits
    without a timeout (and [browser.close()]) settle at some time.  No
    assumption is needed on the launch, the page creation, the user agent
    or the navigation: these may stay pending for ever, the timeouts
    around them see to it. *)
Theorem sendOTP_completes (env : Env) (identifier countryCode type : jsval) (w : world) :
  page_operations_settle env ->
  close_settles env ->
  (exists res, (sendOTP env identifier countryCode type w).1 = Returns res)
  \/ (exists e, (sendOTP env identifier countryCode type w).1 = Throws e).
Proof.
  intros Hs Hc.
  pose proof (proj2 (sendOTP_calls env identifier countryCode type w) Hs Hc) as Hno.
  cbv beta in Hno.
  destruct ((sendOTP env identifier countryCode type w).1) as [res|e|].
  - left. exists res. reflexivity.
  - right. exists e. reflexivity.
  - destruct (Hno eq_refl).
Qed.

Lemma happy_env_settles : page_operations_settle happy_env /\ close_settles happy_env.
Proof.
  split.
  - repeat split; repeat intro; discriminate.
  - intros f [= <-]. discriminate.
Qed.

Lemma sendOTP_completes_witness :
  page_operations_settle happy_env
  /\ close_settles happy_env
  /\ ((exists res,
         (sendOTP happy_env (JStr "9014884219") (JStr "91") (JStr "phone")
            initial_world).1 = Returns res)
      \/ (exists e,
            (sendOTP happy_env (JStr "9014884219") (JStr "91") (JStr "phone")
               initial_world).1 = Throws e)).
Proof.
  split; [exact (proj1 happy_env_settles)|].
  split; [exact (proj2 happy_env_settles)|].
  exact (sendOTP_completes happy_env (JStr "9014884219") (JStr "91") (JStr "phone")
           initial_world (proj1 happy_env_settles) (proj2 happy_env_settles)).
Defined.

(** The assumption is needed: reading the title has no timeout. *)
Example sendOTP_stalls_on_title :
  (sendOTP stalled_env (JStr "9014884219") (JStr "91") (JStr "phone") initial_world).1
  = Hangs.
Proof. vm_compute. reflexivity. Qed.

(** X23. Under the same assumptions no request is left pending: the
    handler completes, whatever the request and whatever the parser makes
    of its body. *)
Theorem handler_completes (JSON_parse : string -> settlement parsed_json) (env : Env)
    (event : HandlerEvent) (w : world) :
  page_operations_settle env ->
  close_settles env ->
  (handler JSON_parse env event w).1 <> Hangs.
Proof.
  intros Hs Hc.
  destruct (decide (httpMethod event = "POST")) as [Hpost|Hpost].
  - rewrite (handler_post _ _ _ _ Hpost). cbv zeta.
    destruct (JSON_parse _) as [body|e]; [|discriminate].
    pose proof (destructure_body_pure body w) as [_ Hh].
    destruct (destructure_body body w) as [[[[id cc] ty]|e|] w0];
      [|discriminate|contradiction].
    destruct (falsy id); [discriminate|].
    pose proof (proj2 (sendOTP_calls env id cc ty w) Hs Hc) as Hno. cbv beta in Hno.
    destruct (sendOTP env id cc ty w) as [[data|e|] w1]; [| |destruct (Hno eq_refl)];
      discriminate.
  - rewrite (handler_not_post _ _ _ _ Hpost). discriminate.
Qed.

Lemma handler_completes_witness :
  page_operations_settle happy_env
  /\ close_settles happy_env
  /\ (handler sample_parse happy_env sample_event initial_world).1 <> Hangs.
Proof.
  split; [exact (proj1 happy_env_settles)|].
  split; [exact (proj2 happy_env_settles)|].
  exact (handler_completes sample_parse happy_env sample_event initial_world
           (proj1 happy_env_settles) (proj2 happy_env_settles)).
Defined.

(** Without them it need not: a title request that is never answered
    leaves the request pending. *)
Example handler_pending_on_title :
  (handler sample_parse stalled_env sample_event initial_world).1 = Hangs.
Proof. vm_compute. reflexivity. Qed.

(** X24. Where [sendOTP] navigates.  A navigation of a run goes to the
    page the run created, waits for [networkidle2] with a limit of sixty
    seconds, and its address is the base address followed by [/login]:
    the value of [ZOMATO_PARTNERS_URL] when that is set and not empty,
    and [https://partner.zomato.com] otherwise. *)
Theorem sendOTP_navigation_target (env : Env) (identifier countryCode type : jsval)
    (w : world) (pg : Page) (url waitUntil : string) (t : N) :
  let out := sendOTP env identifier countryCode type w in
  Ev_goto pg url waitUntil t ∈ events_since w out.2 ->
  fulfilment (_withTimeout (newPage_reply env) 10000 "Page creation") = Some pg
  /\ waitUntil = "networkidle2"%string
  /\ t = 60000
  /\ ((exists base, ZOMATO_PARTNERS_URL env = Some base /\ base <> EmptyString
                    /\ url = base +:+ "/login")
      \/ ((ZOMATO_PARTNERS_URL env = None \/ ZOMATO_PARTNERS_URL env = Some EmptyString)
          /\ url = "https://partner.zomato.com/login"%string)).
Proof.
  intros out Hin.
  destruct (proj1 (sendOTP_calls env identifier countryCode type w)
              pg url waitUntil t Hin) as (Hpg & -> & -> & ->).
  split; [exact Hpg|]. split; [reflexivity|]. split; [reflexivity|].
  unfold zomatoPartnersUrl.
  destruct (ZOMATO_PARTNERS_URL env) as [u|].
  - destruct (decide (u = EmptyString)) as [->|Hu].
    + right. split; [right; reflexivity|reflexivity].
    + left. exists u. split; [reflexivity|]. split; [exact Hu|reflexivity].
  - right. split; [left; reflexivity|reflexivity].
Qed.

Lemma sendOTP_navigation_target_witness :
  Ev_goto 7%nat "https://partner.zomato.com/login" "networkidle2" 60000
    ∈ events_since initial_world
        (sendOTP happy_env (JStr "9014884219") (JStr "91") (JStr "phone")
           initial_world).2
  /\ fulfilment (_withTimeout (newPage_reply happy_env) 10000 "Page creation")
     = Some 7%nat.
Proof.
  assert (Hin : Ev_goto 7%nat "https://partner.zomato.com/login" "networkidle2" 60000
                  ∈ events_since initial_world
                      (sendOTP happy_env (JStr "9014884219") (JStr "91") (JStr "phone")
                         initial_world).2).
  { vm_compute. do 7 apply list_elem_of_further. apply list_elem_of_here. }
  split; [exact Hin|].
  exact (proj1 (sendOTP_navigation_target happy_env (JStr "9014884219") (JStr "91")
                  (JStr "phone") initial_world _ _ _ _ Hin)).
Defined.

